(** * Training orchestration of EfficientPyTorch's classifier examples

    A shallow embedding of the two worker scripts
      - [examples/classifier_mnist/main.py]     (module [Mnist])
      - [examples/classifier_imagenet/main.py]  (module [Imagenet])
    and of their entry points (modules [MnistMain], [ImagenetMain]), and
    the properties of their set-up, resume, epoch loop, batch loops,
    best-metric and checkpoint logic.

    Modelling conventions.
    - A worker is a computation in the monad [M]: it reads and updates the
      file store, appends to a trace of observable events (calls into the
      model, the optimizer, the schedulers, the metric writer, [print] and
      file operations) and either returns or raises a Python exception.
    - Accuracies are Python floats holding finite percentages.  The workers
      only compare them ([>], [max]) and the validation meter averages
      them, so they are modelled as canonical rationals [Qc]; rounding
      inside the meter is not modelled.
    - Parameter and optimizer state dictionaries are opaque byte strings.
    - [torch], [shutil], [numpy], [torchnet] and [tensorboardX] are
      libraries: their calls are modelled by their documented effect on the
      file store and by an event.  The neural network itself (forward pass,
      gradient step, accuracy of a batch) is a collaborator, see
      [Collaborators].
    - Directories are assumed to exist; device placement ([.cuda()],
      [DataParallel]) has no effect on the modelled state. *)

From Stdlib Require Import ZArith QArith Qcanon Lia.
From stdpp Require Import base numbers strings pretty gmap list sorting.

Open Scope Z_scope.

(** ** Data *)

(** An opaque serialisable state ([model.state_dict()],
    [optimizer.state_dict()]). *)
Definition blob := list Byte.byte.

(** The dictionary handed to [save_checkpoint]
    (mnist/main.py 282-287, imagenet/main.py 160-165). *)
Record checkpoint := Checkpoint {
  ck_epoch : Z;            (* 'epoch' *)
  ck_arch : string;        (* 'arch' *)
  ck_state_dict : blob;    (* 'state_dict' *)
  ck_best_acc1 : Qc;       (* 'best_acc1' *)
  ck_optimizer : blob;     (* 'optimizer' *)
}.

(** What a path of the file store holds. *)
Inductive file :=
| FCheckpoint (c : checkpoint)   (* a pickled checkpoint dictionary *)
| FStateDict (w : blob)          (* a pickled bare state_dict *)
| FOther                         (* text, JSON, .npy: not readable by torch.load *)
| FPartial.                      (* opened for writing, content not yet complete *)

Inductive exn :=
| KeyError | TypeError | IndexError | ZeroDivisionError | AssertionError
| AttributeError | FileNotFoundError | UnpicklingError | SameFileError.

Inductive message :=
| MsgUseGpu (g : Z)
| MsgUsingPretrained (a : string)
| MsgCreatingModel (a : string)
| MsgNotSupported (a : string)
| MsgModel
| MsgOriginalModel
| MsgGenMapDone
| MsgUseGpus (g : string)
| MsgLoadingCheckpoint (p : string)
| MsgLoadedCheckpoint (p : string) (epoch : Z) (acc : Qc)
| MsgSaveOnlyWeights (a : string)
| MsgNoCheckpoint (p : string)
| MsgBnFusionBegin
| MsgAfterBnFusion
| MsgAddQcode
| MsgAfterQuantize
| MsgExtractInner
| MsgPreparingData
| MsgEarlyStop
| MsgValProgress (i : Z) (mean : Qc)
| MsgAcc1 (mean : Qc)
| MsgTrainProgress (epoch i : Z).

(** A mini-batch: its number of samples ([input.size(0)]) and its data. *)
Record batch := Batch { batch_size : positive; batch_data : blob }.

(** Observable events, in program order. *)
Inductive event :=
| Print (m : message)
| EnterTrain (epoch : Z)          (* train(...) is entered *)
| EnterValidate                   (* validate(...) is entered *)
| Forward (b : batch)             (* model(input) *)
| OptimizerStep                   (* loss.backward(); optimizer.step(); zero_grad() *)
| SchedulerStep                   (* learning-rate scheduler .step() *)
| DnqStep                         (* bit-width scheduler .step() *)
| SetEpoch (epoch : Z)            (* train_sampler.set_epoch(epoch) *)
| WriterOpen (dir : string)        (* SummaryWriter(dir) *)
| AddScalar (tag : string) (step : Z)
| WriterClose
| InitProcessGroup (world_size rank : Z)  (* dist.init_process_group(..) *)
| ProcessModel                    (* process_model(model, optimizer, args) *)
| ModelInfo                       (* get_model_info(model, args, val_loader) *)
| GenKeyMap                       (* main_gen_key_map(..) *)
| ReadFile (p : string)           (* a file is opened and read completely *)
| OpenWrite (p : string)          (* open(p, 'wb'): p now exists, truncated *)
| CloseWrite (p : string) (f : file). (* the content is complete and p is closed *)

(** ** The worker monad: file store, trace, exceptions *)

Inductive result (A : Type) :=
| Ok (a : A)
| Raise (e : exn).
Arguments Ok {A} a.
Arguments Raise {A} e.

Definition M (A : Type) : Type :=
  gmap string file → result A * gmap string file * list event.

Definition ret {A} (a : A) : M A := λ fs, (Ok a, fs, []).

Definition bind {A B} (m : M A) (k : A → M B) : M B := λ fs,
  match m fs with
  | (Ok a, fs1, t1) =>
      match k a fs1 with
      | (r, fs2, t2) => (r, fs2, t1 ++ t2)
      end
  | (Raise e, fs1, t1) => (Raise e, fs1, t1)
  end.

Definition raise {A} (e : exn) : M A := λ fs, (Raise e, fs, []).
Definition emit (e : event) : M unit := λ fs, (Ok tt, fs, [e]).
Definition get_fs : M (gmap string file) := λ fs, (Ok fs, fs, []).
Definition put_file (p : string) (f : file) : M unit :=
  λ fs, (Ok tt, <[p := f]> fs, []).

Notation "x <- m ;; k" := (bind m (λ x, k))
  (at level 100, m at next level, right associativity).
Notation "m ;;; k" := (bind m (λ _, k))
  (at level 100, right associativity).

(** [if c: m] *)
Definition when (c : bool) (m : M unit) : M unit := if c then m else ret tt.

(** Projections of the outcome of a run. *)
Definition outcome {A} (x : result A * gmap string file * list event) : result A := x.1.1.
Definition store {A} (x : result A * gmap string file * list event) : gmap string file := x.1.2.
Definition trace {A} (x : result A * gmap string file * list event) : list event := x.2.

(** ** Library calls *)

(** [os.path.isfile(p)] *)
Definition isfile (p : string) : M bool :=
  fs <- get_fs ;; ret (bool_decide (is_Some (fs !! p))).

(** [open(p, 'wb')] followed by writing [f] and closing.  Opening
    truncates: between the two steps the path holds an incomplete file. *)
Definition write_file (p : string) (f : file) : M unit :=
  put_file p FPartial ;;; emit (OpenWrite p) ;;;
  put_file p f ;;; emit (CloseWrite p f).

(** [torch.save(obj, p)] with [p] a path: torch opens [p] for writing and
    pickles [obj] into it. *)
Definition torch_save (obj : file) (p : string) : M unit := write_file p obj.

(** [torch.load(p)]: unpickles what [torch.save] wrote. *)
Definition torch_load (p : string) : M file :=
  fs <- get_fs ;;
  match fs !! p with
  | None => raise FileNotFoundError
  | Some f =>
      emit (ReadFile p) ;;;
      match f with
      | FCheckpoint _ | FStateDict _ => ret f
      | FOther | FPartial => raise UnpicklingError
      end
  end.

(** [shutil.copyfile(src, dst)] *)
Definition copyfile (src dst : string) : M unit :=
  if bool_decide (src = dst) then raise SameFileError else
  fs <- get_fs ;;
  match fs !! src with
  | None => raise FileNotFoundError
  | Some f => emit (ReadFile src) ;;; write_file dst f
  end.

(** [checkpoint[key]] for the keys of a checkpoint dictionary: a bare
    state_dict has none of them. *)
Definition as_checkpoint (f : file) : M checkpoint :=
  match f with
  | FCheckpoint c => ret c
  | _ => raise KeyError
  end.

(** [checkpoint['state_dict']] *)
Definition get_state_dict (f : file) : M blob :=
  match f with
  | FCheckpoint c => ret (ck_state_dict c)
  | _ => raise KeyError
  end.

(** [tnt.AverageValueMeter]: running sum and count; [mean] is read only
    after at least one [add] with a positive count. *)
Record meter := Meter { m_sum : Qc; m_n : Z }.
Definition meter0 : meter := Meter (Qc_of_Z 0) 0.
Definition meter_add (m : meter) (value : Qc) (n : Z) : meter :=
  Meter (m_sum m + value)%Qc (m_n m + n).
Definition meter_mean (m : meter) : Qc := (m_sum m / Qc_of_Z (m_n m))%Qc.

(** Python's [a > b] and [max(a, b)] on numbers. *)
Definition py_gt (a b : Qc) : bool := bool_decide (b < a)%Qc.
Definition py_max (a b : Qc) : Qc := if py_gt b a then b else a.

(** [range(lo, hi)] *)
Definition py_range (lo hi : Z) : list Z :=
  (λ i, lo + Z.of_nat i) <$> seq 0 (Z.to_nat (hi - lo)).

(** [for x in l: s = body(x, s)] *)
Fixpoint for_each {A S : Type} (body : A → S → M S) (l : list A) (s : S) : M S :=
  match l with
  | [] => ret s
  | x :: l => s' <- body x s ;; for_each body l s'
  end.

(** * examples/classifier_mnist/main.py *)
Module Mnist.

(** The parsed command line ([args]); fields the worker updates are
    replaced by the setters below. *)
Record Args := {
  arch : string;
  epochs : Z;
  start_epoch : Z;
  print_freq : Z;
  evaluate : bool;
  pretrained : bool;
  resume : string;
  resume_after : string;
  log_name : string;
  gen_map : bool;
  original_model : string;
  bn_fusion : bool;
  quant_bias_scale : bool;
  extract_inner_data : bool;
  gpu : option Z;
  gpus : option string;
  qa : Z;
  qw : Z;
  dali : bool;
  batch_num : Z;
}.

Definition set_gpu (g : option Z) (a : Args) : Args :=
  {| arch := arch a; epochs := epochs a; start_epoch := start_epoch a;
     print_freq := print_freq a; evaluate := evaluate a; pretrained := pretrained a;
     resume := resume a; resume_after := resume_after a; log_name := log_name a;
     gen_map := gen_map a; original_model := original_model a;
     bn_fusion := bn_fusion a; quant_bias_scale := quant_bias_scale a;
     extract_inner_data := extract_inner_data a; gpu := g; gpus := gpus a;
     qa := qa a; qw := qw a; dali := dali a; batch_num := batch_num a |}.

Definition set_qw_qa (w q : Z) (a : Args) : Args :=
  {| arch := arch a; epochs := epochs a; start_epoch := start_epoch a;
     print_freq := print_freq a; evaluate := evaluate a; pretrained := pretrained a;
     resume := resume a; resume_after := resume_after a; log_name := log_name a;
     gen_map := gen_map a; original_model := original_model a;
     bn_fusion := bn_fusion a; quant_bias_scale := quant_bias_scale a;
     extract_inner_data := extract_inner_data a; gpu := gpu a; gpus := gpus a;
     qa := q; qw := w; dali := dali a; batch_num := batch_num a |}.

Definition set_start_epoch (e : Z) (a : Args) : Args :=
  {| arch := arch a; epochs := epochs a; start_epoch := e;
     print_freq := print_freq a; evaluate := evaluate a; pretrained := pretrained a;
     resume := resume a; resume_after := resume_after a; log_name := log_name a;
     gen_map := gen_map a; original_model := original_model a;
     bn_fusion := bn_fusion a; quant_bias_scale := quant_bias_scale a;
     extract_inner_data := extract_inner_data a; gpu := gpu a; gpus := gpus a;
     qa := qa a; qw := qw a; dali := dali a; batch_num := batch_num a |}.

Definition set_batch_num (n : Z) (a : Args) : Args :=
  {| arch := arch a; epochs := epochs a; start_epoch := start_epoch a;
     print_freq := print_freq a; evaluate := evaluate a; pretrained := pretrained a;
     resume := resume a; resume_after := resume_after a; log_name := log_name a;
     gen_map := gen_map a; original_model := original_model a;
     bn_fusion := bn_fusion a; quant_bias_scale := quant_bias_scale a;
     extract_inner_data := extract_inner_data a; gpu := gpu a; gpus := gpus a;
     qa := qa a; qw := qw a; dali := dali a; batch_num := n |}.

Definition set_log_name (s : string) (a : Args) : Args :=
  {| arch := arch a; epochs := epochs a; start_epoch := start_epoch a;
     print_freq := print_freq a; evaluate := evaluate a; pretrained := pretrained a;
     resume := resume a; resume_after := resume_after a; log_name := s;
     gen_map := gen_map a; original_model := original_model a;
     bn_fusion := bn_fusion a; quant_bias_scale := quant_bias_scale a;
     extract_inner_data := extract_inner_data a; gpu := gpu a; gpus := gpus a;
     qa := qa a; qw := qw a; dali := dali a; batch_num := batch_num a |}.

(** The mutable state of a worker process: the [args] object, the model
    parameters, the optimizer state and the module-level [best_acc1]. *)
Record worker := Worker {
  w_args : Args;
  w_model : blob;
  w_optimizer : blob;
  w_best_acc1 : Qc;
}.

(** The evaluation loader: a [DataLoader] over the MNIST test split, which
    is never empty, so it yields a first batch and then the others. *)
Record val_loader := ValLoader { first_batch : batch; more_batches : list batch }.
Definition val_batches (l : val_loader) : list batch := first_batch l :: more_batches l.

(** ** Collaborators: the network and its optimizer *)

Class Collaborators := {
  (* name in models.__dict__ *)
  zoo_has : string → bool;
  (* models.__dict__[arch](pretrained=.., nbits_w=.., nbits_a=..):
     the parameters of the constructed network *)
  model_init : string → bool → Z → Z → blob;
  (* torch.optim.SGD(...).state_dict() of a fresh optimizer *)
  fresh_optimizer : blob;
  (* forward + backward + optimizer.step() on one training batch *)
  sgd_step : blob * blob → batch → blob * blob;
  (* accuracy(model(input), target)[0].item() *)
  top1_acc : blob → batch → Qc;
  (* wrapper.fuse_bn_recursively, wrapper.quantize_scale_and_bias *)
  fuse_bn : blob → blob;
  quantize_scale_and_bias : blob → blob;
  (* the keys of model.state_dict() *)
  state_dict_keys : blob → list string;
}.

Section with_collaborators.
Context `{Collaborators}.

(** [save_checkpoint], lines 291-294. *)
Definition save_checkpoint (state : checkpoint) (is_best : bool) (prefix : string) : M unit :=
  let filename := "checkpoint.pth.tar" in
  torch_save (FCheckpoint state) (prefix +:+ filename) ;;;
  when is_best (copyfile (prefix +:+ filename) (prefix +:+ "best.pth.tar")).

(** [i % args.print_freq == 0] *)
Definition at_print_freq (args : Args) (i : Z) : M bool :=
  if print_freq args =? 0 then raise ZeroDivisionError
  else ret (i mod print_freq args =? 0).

(** The body of the [for] loop of [validate], lines 305-323; returning
    without recursion is the [break]. *)
Fixpoint validate_loop (args : Args) (model : blob) (i : Z)
    (batches : list batch) (top1 : meter) : M meter :=
  match batches with
  | [] => ret top1
  | b :: rest =>
      emit (Forward b) ;;;
      let size := Z.pos (batch_size b) in
      let top1 := meter_add top1 (top1_acc model b * Qc_of_Z size)%Qc size in
      if extract_inner_data args then
        emit (Print MsgEarlyStop) ;;; ret top1
      else
        p <- at_print_freq args i ;;
        when p (emit (Print (MsgValProgress i (meter_mean top1)))) ;;;
        validate_loop args model (i + 1) rest top1
  end.

(** [validate], lines 297-325. *)
Definition validate (loader : val_loader) (model : blob) (args : Args) : M Qc :=
  emit EnterValidate ;;;
  top1 <- validate_loop args model 0 (val_batches loader) meter0 ;;
  emit (Print (MsgAcc1 (meter_mean top1))) ;;;
  ret (meter_mean top1).

(** The body of the [for] loop of [train], lines 343-377.  [st] is the
    pair of model parameters and optimizer state. *)
Fixpoint train_loop (args : Args) (epoch : Z) (base_step : Z) (i : Z)
    (batches : list batch) (st : blob * blob) : M (blob * blob) :=
  match batches with
  | [] => ret st
  | b :: rest =>
      (if dali args then raise IndexError else ret tt) ;;;
      emit (Forward b) ;;;
      emit (AddScalar "train/loss" (base_step + i)) ;;;
      emit (AddScalar "train/acc1" (base_step + i)) ;;;
      emit OptimizerStep ;;;
      let st := sgd_step st b in
      p <- at_print_freq args i ;;
      when p (emit (Print (MsgTrainProgress epoch i))) ;;;
      train_loop args epoch base_step (i + 1) rest st
  end.

(** [train], lines 332-377.  [--freeze-bn] only changes how the network
    treats its batch-norm layers, which is inside [sgd_step]. *)
Definition train (train_loader : list batch) (st : blob * blob) (epoch : Z)
    (args : Args) : M (blob * blob) :=
  emit (EnterTrain epoch) ;;;
  let base_step := epoch * batch_num args in
  train_loop args epoch base_step 0 train_loader st.

(** The name [np.save(k, ..)] writes to: [.npy] is appended unless present. *)
Definition npy_name (k : string) : string :=
  let n := String.length k in
  if (4 <=? n)%nat && String.eqb (String.substring (n - 4) 4 k) ".npy" then k
  else k +:+ ".npy".

(** Lines 141-151: the model is looked up in the zoo; [None] is the
    [return] of the [except KeyError] branch. *)
Definition create_model (args : Args) : M (option blob) :=
  emit (Print (if pretrained args then MsgUsingPretrained (arch args)
               else MsgCreatingModel (arch args))) ;;;
  if zoo_has (arch args) then
    ret (Some (model_init (arch args) (pretrained args) (qw args) (qa args)))
  else
    emit (Print (MsgNotSupported (arch args))) ;;; ret None.

(** Lines 155-161: key-map generation. *)
Definition generate_key_map (args : Args) : M unit :=
  if zoo_has (original_model args) then
    emit (Print MsgOriginalModel) ;;;
    write_file ("models/cifar10/" +:+ arch args +:+ "_map.json") FOther ;;;
    emit (Print MsgGenMapDone)
  else raise AssertionError.

(** Lines 164-175: [os.environ[..] = args.gpus] needs a string. *)
Definition select_device (args : Args) : M unit :=
  match gpu args, gpus args with
  | Some _, None => ret tt
  | _, Some g => emit (Print (MsgUseGpus g))
  | None, None => raise TypeError
  end.

(** Lines 183-201: optionally resume from a checkpoint. *)
Definition resume_checkpoint (w : worker) : M worker :=
  let args := w_args w in
  if bool_decide (resume args = "") then ret w else
  present <- isfile (resume args) ;;
  if present then
    emit (Print (MsgLoadingCheckpoint (resume args))) ;;;
    ck <- torch_load (resume args) ;;
    model <- get_state_dict ck ;;
    if quant_bias_scale args then
      ret (Worker args model (w_optimizer w) (w_best_acc1 w))
    else
      c <- as_checkpoint ck ;;
      let args' := set_start_epoch (ck_epoch c) args in
      let best_acc1 := ck_best_acc1 c in
      let optimizer := ck_optimizer c in
      emit (Print (MsgLoadedCheckpoint (resume args) (ck_epoch c) best_acc1)) ;;;
      emit (Print (MsgSaveOnlyWeights (arch args))) ;;;
      torch_save (FStateDict model) (arch args +:+ ".pth") ;;;
      ret (Worker args' model optimizer best_acc1)
  else
    emit (Print (MsgNoCheckpoint (resume args))) ;;; ret w.

(** Lines 204-214: BN fusion, scale and bias quantization. *)
Definition rewrite_model (args : Args) (model : blob) : M blob :=
  model <- (if bn_fusion args then
              emit (Print MsgBnFusionBegin) ;;;
              emit (Print MsgAfterBnFusion) ;;; emit (Print MsgModel) ;;;
              ret (fuse_bn model)
            else ret model) ;;
  if quant_bias_scale args then
    emit (Print MsgAddQcode) ;;;
    emit (Print MsgAfterQuantize) ;;; emit (Print MsgModel) ;;;
    ret (quantize_scale_and_bias model)
  else ret model.

(** Lines 216-223: parameters saved after the rewriting above.  The
    notice of the [else] branch formats [args.resume]. *)
Definition resume_after_rewrite (args : Args) (model : blob) : M blob :=
  if bool_decide (resume_after args = "") then ret model else
  present <- isfile (resume_after args) ;;
  if present then
    emit (Print (MsgLoadingCheckpoint (resume_after args))) ;;;
    ck <- torch_load (resume_after args) ;;
    get_state_dict ck
  else
    emit (Print (MsgNoCheckpoint (resume args))) ;;; ret model.

(** Lines 225-229: dump every entry of the state_dict with [np.save]. *)
Definition extract_inner (args : Args) (model : blob) : M unit :=
  when (extract_inner_data args)
    (emit (Print MsgExtractInner) ;;;
     for_each (λ k _, write_file (npy_name k) FOther) (state_dict_keys model) tt).

(** One iteration of the epoch loop, lines 268-288. *)
Definition epoch_body (train_loader : list batch) (loader : val_loader)
    (epoch : Z) (w : worker) : M worker :=
  let args := w_args w in
  emit SchedulerStep ;;;
  st <- train train_loader (w_model w, w_optimizer w) epoch args ;;
  (* train_loader.reset(): a torch DataLoader has no such method *)
  when (dali args) (raise AttributeError) ;;;
  acc1 <- validate loader st.1 args ;;
  emit (AddScalar "val/acc1" epoch) ;;;
  emit (AddScalar "train/lr" epoch) ;;;
  let is_best := py_gt acc1 (w_best_acc1 w) in
  let best_acc1 := py_max acc1 (w_best_acc1 w) in
  save_checkpoint
    {| ck_epoch := epoch + 1; ck_arch := arch args; ck_state_dict := st.1;
       ck_best_acc1 := best_acc1; ck_optimizer := st.2 |}
    is_best (log_name args +:+ "/" +:+ arch args +:+ "_") ;;;
  ret (Worker args st.1 st.2 best_acc1).

(** Lines 259-288: evaluate-only short cut, otherwise the epoch loop. *)
Definition evaluate_or_train (train_loader : list batch) (loader : val_loader)
    (w : worker) : M worker :=
  let args := w_args w in
  if evaluate args then
    validate loader (w_model w) args ;;; ret w
  else
    let args := set_log_name ("logger/" +:+ arch args +:+ "_" +:+ log_name args) args in
    emit (WriterOpen (log_name args)) ;;;
    write_file (log_name args +:+ "/" +:+ arch args +:+ ".txt") FOther ;;;
    for_each (epoch_body train_loader loader)
      (py_range (start_epoch args) (epochs args))
      (Worker args (w_model w) (w_optimizer w) (w_best_acc1 w)).

(** Lines 133-243 of [main_worker]: everything before the schedulers are
    built.  [None] is a [return] (unknown architecture, key-map
    generation); otherwise the state the rest of the function starts from. *)
Definition prepare (gpu0 : option Z) (args : Args) (best_acc1 : Qc)
    (train_loader : list batch) : M (option worker) :=
  let args := set_gpu gpu0 args in
  match gpu args with Some g => emit (Print (MsgUseGpu g)) | None => ret tt end ;;;
  let args := if gen_map args then set_qw_qa (-1) (-1) args else args in
  created <- create_model args ;;
  match created with
  | None => ret None
  | Some model =>
      emit (Print MsgModel) ;;;
      if gen_map args then
        generate_key_map args ;;; ret None
      else
        select_device args ;;;
        w <- resume_checkpoint (Worker args model fresh_optimizer best_acc1) ;;
        model <- rewrite_model (w_args w) (w_model w) ;;
        model <- resume_after_rewrite (w_args w) model ;;
        extract_inner (w_args w) model ;;;
        emit (Print MsgPreparingData) ;;;
        let args := set_batch_num (Z.of_nat (length train_loader)) (w_args w) in
        ret (Some (Worker args model (w_optimizer w) (w_best_acc1 w)))
  end.

(** [main_worker], lines 131-288.  [best_acc1] is the module-level
    variable ([0] when the module is loaded).  The Python function returns
    nothing; the value here is the state of the process at that point, and
    [None] when it returned before the optimizer was set up. *)
Definition main_worker (gpu0 : option Z) (args : Args) (best_acc1 : Qc)
    (train_loader : list batch) (loader : val_loader) : M (option worker) :=
  prepared <- prepare gpu0 args best_acc1 train_loader ;;
  match prepared with
  | None => ret None
  | Some w => w <- evaluate_or_train train_loader loader w ;; ret (Some w)
  end.

End with_collaborators.
End Mnist.

(** * examples/classifier_imagenet/main.py *)
Module Imagenet.

Record Args := {
  arch : string;
  epochs : Z;
  start_epoch : Z;
  evaluate : bool;
  pretrained : bool;
  gen_map : bool;
  gpu : option Z;
  distributed : bool;
  multiprocessing_distributed : bool;
  dist_url : string;
  rank : Z;
  world_size : Z;
  qa : Z;
  qw : Z;
  debug : bool;
  log_name : string;
  batch_num : Z;
}.

Definition set_gpu (g : option Z) (a : Args) : Args :=
  {| arch := arch a; epochs := epochs a; start_epoch := start_epoch a;
     evaluate := evaluate a; pretrained := pretrained a; gen_map := gen_map a;
     gpu := g; distributed := distributed a;
     multiprocessing_distributed := multiprocessing_distributed a;
     dist_url := dist_url a; rank := rank a; world_size := world_size a;
     qa := qa a; qw := qw a; debug := debug a; log_name := log_name a;
     batch_num := batch_num a |}.

Definition set_rank (r : Z) (a : Args) : Args :=
  {| arch := arch a; epochs := epochs a; start_epoch := start_epoch a;
     evaluate := evaluate a; pretrained := pretrained a; gen_map := gen_map a;
     gpu := gpu a; distributed := distributed a;
     multiprocessing_distributed := multiprocessing_distributed a;
     dist_url := dist_url a; rank := r; world_size := world_size a;
     qa := qa a; qw := qw a; debug := debug a; log_name := log_name a;
     batch_num := batch_num a |}.

Definition set_qw_qa (w q : Z) (a : Args) : Args :=
  {| arch := arch a; epochs := epochs a; start_epoch := start_epoch a;
     evaluate := evaluate a; pretrained := pretrained a; gen_map := gen_map a;
     gpu := gpu a; distributed := distributed a;
     multiprocessing_distributed := multiprocessing_distributed a;
     dist_url := dist_url a; rank := rank a; world_size := world_size a;
     qa := q; qw := w; debug := debug a; log_name := log_name a;
     batch_num := batch_num a |}.

Definition set_batch_num (n : Z) (a : Args) : Args :=
  {| arch := arch a; epochs := epochs a; start_epoch := start_epoch a;
     evaluate := evaluate a; pretrained := pretrained a; gen_map := gen_map a;
     gpu := gpu a; distributed := distributed a;
     multiprocessing_distributed := multiprocessing_distributed a;
     dist_url := dist_url a; rank := rank a; world_size := world_size a;
     qa := qa a; qw := qw a; debug := debug a; log_name := log_name a;
     batch_num := n |}.

Record worker := Worker {
  w_args : Args;
  w_model : blob;
  w_optimizer : blob;
  w_best_acc1 : Qc;
}.

(** The helpers this script imports from the [examples] package and from
    the model zoos.  They are parameters of the worker: each is taken as a
    function of the state it is handed, and the worker records the call. *)
Class Env := {
  (* name in torchvision.models.__dict__ / models.imagenet.__dict__ *)
  torchvision_has : string → bool;
  extra_has : string → bool;
  (* the constructed network; quantized ones take (nbits_a, nbits_w) *)
  torchvision_init : string → bool → blob;
  extra_init : string → bool → option (Z * Z) → blob;
  (* torch.optim.SGD(..).state_dict() of a fresh optimizer *)
  fresh_optimizer : blob;
  (* process_model(model, optimizer, args): may update all three *)
  process_model : Args → blob * blob → Args * (blob * blob);
  (* len(train_loader) *)
  train_batches : Z;
  (* get_summary_writer(args, ngpus_per_node) is not None *)
  has_writer : Args → Z → bool;
  (* train(train_loader, model, criterion, optimizer, epoch, args, writer) *)
  train_epoch : Z → blob * blob → blob * blob;
  (* validate(val_loader, model, criterion, args) = (acc1, acc5) *)
  evaluate_model : blob → Qc * Qc;
  (* some module of the model is a my_nn.Conv2dDNQ *)
  has_dnq_conv : blob → bool;
}.

(** ['x' in s] *)
Definition contains (sub s : string) : bool :=
  bool_decide (is_Some (String.index 0 sub s)).

Section with_env.
Context `{Env}.

(** Modelled from the spec: [save_checkpoint] of the [examples] package,
    which this script imports and which is not among the sources.  The
    spec's contract (a latest record under the run prefix, copied to the
    best record when [is_best]) with the file names of the MNIST script. *)
Definition save_checkpoint (state : checkpoint) (is_best : bool) (prefix : string) : M unit :=
  torch_save (FCheckpoint state) (prefix +:+ "checkpoint.pth.tar") ;;;
  when is_best (copyfile (prefix +:+ "checkpoint.pth.tar") (prefix +:+ "best.pth.tar")).

(** Lines 69-77: joining the process group. *)
Definition join_group (env_rank : option Z) (ngpus_per_node : Z) (args : Args) : M Args :=
  if distributed args then
    args <- (if bool_decide (dist_url args = "env://") && (rank args =? -1) then
               match env_rank with
               | Some r => ret (set_rank r args)
               | None => raise KeyError
               end
             else ret args) ;;
    args <- (if multiprocessing_distributed args then
               match gpu args with
               | Some g => ret (set_rank (rank args * ngpus_per_node + g) args)
               | None => raise TypeError
               end
             else ret args) ;;
    emit (InitProcessGroup (world_size args) (rank args)) ;;;
    ret args
  else ret args.

(** Lines 83-99: a torchvision model is full precision; otherwise the
    name is looked up among the extra models, and a second [KeyError]
    is not caught. *)
Definition create_model (args : Args) : M (Args * blob) :=
  emit (Print (if pretrained args then MsgUsingPretrained (arch args)
               else MsgCreatingModel (arch args))) ;;;
  if torchvision_has (arch args) then
    ret (set_qw_qa (-1) (-1) args, torchvision_init (arch args) (pretrained args))
  else if extra_has (arch args) then
    if contains "q" (arch args) && negb (contains "seq" (arch args)) then
      ret (args, extra_init (arch args) (pretrained args) (Some (qa args, qw args)))
    else
      ret (args, extra_init (arch args) (pretrained args) None)
  else raise KeyError.

(** The skip-ahead loop, lines 134-136. *)
Definition skip_ahead (args : Args) : M unit :=
  for_each (λ (_ : Z) _, emit SchedulerStep) (py_range 0 (start_epoch args)) tt.

(** One iteration of the epoch loop, lines 138-166. *)
Definition epoch_body (writer : bool) (epoch : Z) (w : worker) : M worker :=
  let args := w_args w in
  when (distributed args) (emit (SetEpoch epoch)) ;;;
  emit (EnterTrain epoch) ;;;
  let st := train_epoch epoch (w_model w, w_optimizer w) in
  emit SchedulerStep ;;;
  emit DnqStep ;;;
  emit EnterValidate ;;;
  let acc := evaluate_model st.1 in
  let acc1 := acc.1 in
  when writer
    (emit (AddScalar "val/acc1" epoch) ;;;
     emit (AddScalar "val/acc5" epoch) ;;;
     when (debug args && has_dnq_conv st.1) (emit (AddScalar "val/nbits" epoch))) ;;;
  let is_best := py_gt acc1 (w_best_acc1 w) in
  let best_acc1 := py_max acc1 (w_best_acc1 w) in
  when writer
    (save_checkpoint
       {| ck_epoch := epoch + 1; ck_arch := arch args; ck_state_dict := st.1;
          ck_best_acc1 := best_acc1; ck_optimizer := st.2 |}
       is_best
       (log_name args +:+ "/" +:+ arch args +:+ "_w" +:+ pretty (qw args)
          +:+ "a" +:+ pretty (qa args))) ;;;
  ret (Worker args st.1 st.2 best_acc1).

(** Lines 130-168: evaluate-only short cut, otherwise skip-ahead and the
    epoch loop. *)
Definition evaluate_or_train (writer : bool) (w : worker) : M worker :=
  let args := w_args w in
  if evaluate args then
    emit EnterValidate ;;; ret w
  else
    skip_ahead args ;;;
    w <- for_each (epoch_body writer) (py_range (start_epoch args) (epochs args)) w ;;
    when writer (emit WriterClose) ;;;
    ret w.

(** Lines 64-128 of [main_worker]: everything before the evaluate check.
    [env_rank] is [os.environ["RANK"]] when set.  [None] is the [return]
    after key-map generation; otherwise the writer ([true] when it is not
    [None]) and the state the rest of the function starts from. *)
Definition prepare (env_rank : option Z) (gpu0 : option Z) (ngpus_per_node : Z)
    (args : Args) (best_acc1 : Qc) : M (option (bool * worker)) :=
  let args := set_gpu gpu0 args in
  match gpu args with Some g => emit (Print (MsgUseGpu g)) | None => ret tt end ;;;
  args <- join_group env_rank ngpus_per_node args ;;
  let args := if gen_map args then set_qw_qa (-1) (-1) args else args in
  am <- create_model args ;;
  let args := am.1 in
  let model := am.2 in
  emit (Print MsgModel) ;;;
  if gen_map args then
    emit GenKeyMap ;;; ret None
  else
    emit ProcessModel ;;;
    let p := process_model args (model, fresh_optimizer) in
    let args := p.1 in
    let writer := has_writer args ngpus_per_node in
    when (((qw args <=? 0) && (qa args <=? 0)) || evaluate args)
      (when writer (emit ModelInfo)) ;;;
    let args := set_batch_num train_batches args in
    ret (Some (writer, Worker args p.2.1 p.2.2 best_acc1)).

(** [main_worker], lines 62-168.  [best_acc1] is the module-level
    variable ([0] when the module is loaded).  The Python function returns
    nothing; the value here is the state of the process at that point,
    [None] after key-map generation. *)
Definition main_worker (env_rank : option Z) (gpu0 : option Z) (ngpus_per_node : Z)
    (args : Args) (best_acc1 : Qc) : M (option worker) :=
  prepared <- prepare env_rank gpu0 ngpus_per_node args best_acc1 ;;
  match prepared with
  | None => ret None
  | Some (writer, w) => w <- evaluate_or_train writer w ;; ret (Some w)
  end.

End with_env.
End Imagenet.

(** * Reading runs *)

#[global] Instance byte_eq_dec : EqDecision Byte.byte := Byte.byte_eq_dec.
#[global] Instance checkpoint_eq_dec : EqDecision checkpoint.
Proof. solve_decision. Defined.
#[global] Instance file_eq_dec : EqDecision file.
Proof. solve_decision. Defined.
#[global] Instance exn_eq_dec : EqDecision exn.
Proof. solve_decision. Defined.
#[global] Instance message_eq_dec : EqDecision message.
Proof. solve_decision. Defined.
#[global] Instance batch_eq_dec : EqDecision batch.
Proof. solve_decision. Defined.
#[global] Instance event_eq_dec : EqDecision event.
Proof. solve_decision. Defined.
#[global] Instance result_eq_dec `{EqDecision A} : EqDecision (result A).
Proof. solve_decision. Defined.

Definition is_train (e : event) : bool :=
  match e with EnterTrain _ => true | _ => false end.
Definition is_validate (e : event) : bool :=
  match e with EnterValidate => true | _ => false end.
Definition is_optimizer_step (e : event) : bool :=
  match e with OptimizerStep => true | _ => false end.
Definition is_lr_step (e : event) : bool :=
  match e with SchedulerStep => true | _ => false end.
Definition is_dnq_step (e : event) : bool :=
  match e with DnqStep => true | _ => false end.
Definition is_file_write (e : event) : bool :=
  match e with OpenWrite _ | CloseWrite _ _ => true | _ => false end.

(** How many events of a trace satisfy [p]. *)
Definition count (p : event → bool) (tr : list event) : nat :=
  length (List.filter p tr).

(** The events that precede the first one satisfying [stop]. *)
Fixpoint before_first (stop : event → bool) (tr : list event) : list event :=
  match tr with
  | [] => []
  | e :: tr => if stop e then [] else e :: before_first stop tr
  end.

(** The epochs for which [train] was entered, in order. *)
Definition trained_epochs (tr : list event) : list Z :=
  omap (λ e, match e with EnterTrain n => Some n | _ => None end) tr.

(** The checkpoint dictionaries completely written, with their paths, in
    order. *)
Definition records (tr : list event) : list (string * checkpoint) :=
  omap (λ e, match e with
             | CloseWrite p (FCheckpoint c) => Some (p, c)
             | _ => None
             end) tr.

(** The checkpoint dictionaries completely written to path [p]. *)
Definition records_at (p : string) (tr : list event) : list checkpoint :=
  omap (λ pc : string * checkpoint,
          if bool_decide (pc.1 = p) then Some pc.2 else None) (records tr).

(** The file store after a prefix of the file events of a run: what a
    process crash at that point leaves behind. *)
Definition apply_event (fs : gmap string file) (e : event) : gmap string file :=
  match e with
  | OpenWrite p => <[p := FPartial]> fs
  | CloseWrite p f => <[p := f]> fs
  | _ => fs
  end.
Definition replay (tr : list event) (fs : gmap string file) : gmap string file :=
  foldl apply_event fs tr.

(** What the loops of the MNIST script compute when they run to their end:
    the batches a validation pass looks at, the mean its meter reports,
    and the parameters and optimizer state after a training pass. *)
Definition evaluated_batches (args : Mnist.Args) (loader : Mnist.val_loader) : list batch :=
  if Mnist.extract_inner_data args then [Mnist.first_batch loader]
  else Mnist.val_batches loader.

Definition top1_meter `{Mnist.Collaborators} (model : blob) (top1 : meter)
    (batches : list batch) : meter :=
  foldl (λ m b, meter_add m (Mnist.top1_acc model b * Qc_of_Z (Z.pos (batch_size b)))%Qc
                  (Z.pos (batch_size b))) top1 batches.

Definition val_result `{Mnist.Collaborators} (args : Mnist.Args) (model : blob)
    (loader : Mnist.val_loader) : Qc :=
  meter_mean (top1_meter model meter0 (evaluated_batches args loader)).

Definition trained `{Mnist.Collaborators} (st : blob * blob) (batches : list batch) : blob * blob :=
  foldl Mnist.sgd_step st batches.

(** The two files of a run prefix. *)
Definition latest_path (prefix : string) : string := prefix +:+ "checkpoint.pth.tar".
Definition best_path (prefix : string) : string := prefix +:+ "best.pth.tar".

(** A write is crash-atomic for path [p] when every prefix of the run
    leaves under [p] either what was there before or the final content. *)
Definition crash_atomic {A} (m : M A) (fs : gmap string file) (p : string) : Prop :=
  ∀ k, replay (take k (trace (m fs))) fs !! p = fs !! p
     ∨ replay (take k (trace (m fs))) fs !! p = store (m fs) !! p.

(** The events of the batch loops of [train] and [validate]. *)
Definition inner_event (e : event) : bool :=
  match e with
  | Print _ | Forward _ | OptimizerStep | AddScalar _ _ => true
  | _ => false
  end.

(** The events of one iteration of an epoch loop that does not reach its
    checkpoint. *)
Definition loop_event (e : event) : bool := inner_event e || is_validate e.

(** The dictionary the MNIST loop saves after [epoch], and its prefix. *)
Definition mnist_record (args : Mnist.Args) (epoch : Z) (st : blob * blob) (best : Qc) : checkpoint :=
  {| ck_epoch := epoch + 1; ck_arch := Mnist.arch args; ck_state_dict := st.1;
     ck_best_acc1 := best; ck_optimizer := st.2 |}.
Definition mnist_prefix (args : Mnist.Args) : string :=
  Mnist.log_name args +:+ "/" +:+ Mnist.arch args +:+ "_".

(** The dictionary the ImageNet loop saves after [epoch], and its prefix. *)
Definition imagenet_record (args : Imagenet.Args) (epoch : Z) (st : blob * blob) (best : Qc) : checkpoint :=
  {| ck_epoch := epoch + 1; ck_arch := Imagenet.arch args; ck_state_dict := st.1;
     ck_best_acc1 := best; ck_optimizer := st.2 |}.
Definition imagenet_prefix (args : Imagenet.Args) : string :=
  Imagenet.log_name args +:+ "/" +:+ Imagenet.arch args +:+ "_w" +:+ pretty (Imagenet.qw args)
    +:+ "a" +:+ pretty (Imagenet.qa args).

(** What one call of [save_checkpoint] writes completely. *)
Definition saved_records (prefix : string) (c : checkpoint) (is_best : bool)
  : list (string * checkpoint) :=
  (latest_path prefix, c) :: if is_best then [(best_path prefix, c)] else [].

(** The [best_acc1] fields of the dictionaries written, in order. *)
Definition bests (tr : list event) : list Qc :=
  (λ pc : string * checkpoint, ck_best_acc1 pc.2) <$> records tr.

(** The events of the ImageNet loop body around training and validation. *)
Definition imagenet_epoch_events (args : Imagenet.Args) (epoch : Z) : list event :=
  (if Imagenet.distributed args then [SetEpoch epoch] else []) ++
  [EnterTrain epoch; SchedulerStep; DnqStep; EnterValidate].

Definition imagenet_scalar_events `{Imagenet.Env} (args : Imagenet.Args) (epoch : Z)
    (model : blob) : list event :=
  [AddScalar "val/acc1" epoch; AddScalar "val/acc5" epoch] ++
  (if Imagenet.debug args && Imagenet.has_dnq_conv model
   then [AddScalar "val/nbits" epoch] else []).

(** The events of the part of a worker that precedes the evaluate check:
    messages, reads, and writes of files that are not checkpoint
    dictionaries. *)
Definition setup_event (e : event) : bool :=
  match e with
  | Print _ | ReadFile _ | OpenWrite _ | InitProcessGroup _ _ | ProcessModel
  | ModelInfo | GenKeyMap => true
  | CloseWrite _ f => match f with FCheckpoint _ => false | _ => true end
  | _ => false
  end.

(** Every event of every run of [m] satisfies [P]. *)
Definition emits {A} (P : event → Prop) (m : M A) : Prop :=
  ∀ fs, Forall P (trace (m fs)).

(** One iteration of an epoch loop started with best metric [b]: when it
    completes, whatever it wrote carries the new best metric, which is at
    least [b]; when it raises, it wrote no dictionary. *)
Definition step_tracks {S} (best : S → Qc)
    (x : result S * gmap string file * list event) (b : Qc) : Prop :=
  match outcome x with
  | Ok s' => (b ≤ best s')%Qc ∧ Forall (λ q, q = best s') (bests (trace x))
  | Raise _ => bests (trace x) = []
  end.

(** The result of an early-stopped validation pass is flagged when it can
    be told apart from every result a complete pass returns. *)
Definition early_stop_flagged `{Mnist.Collaborators} : Prop :=
  ∀ args loader model fs, Mnist.extract_inner_data args = true →
  ∀ args' loader' fs', Mnist.extract_inner_data args' = false →
    outcome (Mnist.validate loader model args fs) ≠
    outcome (Mnist.validate loader' model args' fs').

(** The state of the ImageNet worker after one epoch: training, then the
    best-metric update on the validation result. *)
Definition imagenet_step `{Imagenet.Env} (w : Imagenet.worker) (epoch : Z) : Imagenet.worker :=
  let st := Imagenet.train_epoch epoch (Imagenet.w_model w, Imagenet.w_optimizer w) in
  Imagenet.Worker (Imagenet.w_args w) st.1 st.2
    (py_max (Imagenet.evaluate_model st.1).1 (Imagenet.w_best_acc1 w)).

(** [m] never changes the file store. *)
Definition reads_only {A} (m : M A) : Prop := ∀ fs, store (m fs) = fs.

(** Whatever [m] returns satisfies [Q]. *)
Definition returns {A} (Q : A → Prop) (m : M A) : Prop :=
  ∀ fs a, outcome (m fs) = Ok a → Q a.

(** The command line [a] with [--start-epoch n]. *)
Definition imagenet_with_start (n : Z) (a : Imagenet.Args) : Imagenet.Args := {|
  Imagenet.arch := Imagenet.arch a; Imagenet.epochs := Imagenet.epochs a;
  Imagenet.start_epoch := n;
  Imagenet.evaluate := Imagenet.evaluate a; Imagenet.pretrained := Imagenet.pretrained a;
  Imagenet.gen_map := Imagenet.gen_map a;
  Imagenet.gpu := Imagenet.gpu a; Imagenet.distributed := Imagenet.distributed a;
  Imagenet.multiprocessing_distributed := Imagenet.multiprocessing_distributed a;
  Imagenet.dist_url := Imagenet.dist_url a;
  Imagenet.rank := Imagenet.rank a; Imagenet.world_size := Imagenet.world_size a;
  Imagenet.qa := Imagenet.qa a; Imagenet.qw := Imagenet.qw a;
  Imagenet.debug := Imagenet.debug a; Imagenet.log_name := Imagenet.log_name a;
  Imagenet.batch_num := Imagenet.batch_num a |}.



(** The parameters after the optional rewriting of the model
    (mnist/main.py 204-214). *)
Definition rewritten `{Mnist.Collaborators} (args : Mnist.Args) (model : blob) : blob :=
  let model := if Mnist.bn_fusion args then Mnist.fuse_bn model else model in
  if Mnist.quant_bias_scale args then Mnist.quantize_scale_and_bias model else model.

(** A run is a fresh start at epoch 0 when its first training pass is
    epoch 0. *)
Definition fresh_start (tr : list event) : Prop :=
  head (trained_epochs tr) = Some 0.


(** The events of the batch loop of [validate]. *)
Definition eval_event (e : event) : bool :=
  match e with
  | Print _ | Forward _ => true
  | _ => false
  end.

(** * The entry points *)

(** [main] of mnist/main.py, lines 110-128.  Seeding and the two warnings
    leave the modelled state alone; the worker is called with the GPU of
    the command line. *)
Module MnistMain.

Definition main `{Mnist.Collaborators} (args : Mnist.Args) (best_acc1 : Qc)
    (train_loader : list batch) (loader : Mnist.val_loader) : M (option Mnist.worker) :=
  Mnist.main_worker (Mnist.gpu args) args best_acc1 train_loader loader.

End MnistMain.

(** [main] of imagenet/main.py, lines 19-59. *)
Module ImagenetMain.

Definition set_world_size (n : Z) (a : Imagenet.Args) : Imagenet.Args := {|
  Imagenet.arch := Imagenet.arch a; Imagenet.epochs := Imagenet.epochs a;
  Imagenet.start_epoch := Imagenet.start_epoch a;
  Imagenet.evaluate := Imagenet.evaluate a; Imagenet.pretrained := Imagenet.pretrained a;
  Imagenet.gen_map := Imagenet.gen_map a;
  Imagenet.gpu := Imagenet.gpu a; Imagenet.distributed := Imagenet.distributed a;
  Imagenet.multiprocessing_distributed := Imagenet.multiprocessing_distributed a;
  Imagenet.dist_url := Imagenet.dist_url a;
  Imagenet.rank := Imagenet.rank a; Imagenet.world_size := n;
  Imagenet.qa := Imagenet.qa a; Imagenet.qw := Imagenet.qw a;
  Imagenet.debug := Imagenet.debug a; Imagenet.log_name := Imagenet.log_name a;
  Imagenet.batch_num := Imagenet.batch_num a |}.

Definition set_distributed (d : bool) (a : Imagenet.Args) : Imagenet.Args := {|
  Imagenet.arch := Imagenet.arch a; Imagenet.epochs := Imagenet.epochs a;
  Imagenet.start_epoch := Imagenet.start_epoch a;
  Imagenet.evaluate := Imagenet.evaluate a; Imagenet.pretrained := Imagenet.pretrained a;
  Imagenet.gen_map := Imagenet.gen_map a;
  Imagenet.gpu := Imagenet.gpu a; Imagenet.distributed := d;
  Imagenet.multiprocessing_distributed := Imagenet.multiprocessing_distributed a;
  Imagenet.dist_url := Imagenet.dist_url a;
  Imagenet.rank := Imagenet.rank a; Imagenet.world_size := Imagenet.world_size a;
  Imagenet.qa := Imagenet.qa a; Imagenet.qw := Imagenet.qw a;
  Imagenet.debug := Imagenet.debug a; Imagenet.log_name := Imagenet.log_name a;
  Imagenet.batch_num := Imagenet.batch_num a |}.

(** Lines 42-43: [args.world_size = int(os.environ["WORLD_SIZE"])];
    [env_world_size] is that variable when it is set. *)
Definition read_world_size (env_world_size : option Z) (args : Imagenet.Args)
  : result Imagenet.Args :=
  if bool_decide (Imagenet.dist_url args = "env://") && (Imagenet.world_size args =? -1) then
    match env_world_size with
    | Some n => Ok (set_world_size n args)
    | None => Raise KeyError
    end
  else Ok args.

(** Lines 42-59.  [ngpus_per_node] is [torch.cuda.device_count()].  The
    result lists the calls of [main_worker] that [main] makes, each with
    its [gpu] argument and the [args] object it is handed: one per process
    index under [mp.spawn], a single call otherwise.  Seeding and the
    warnings (lines 28-40) leave the modelled state alone. *)
Definition main (env_world_size : option Z) (ngpus_per_node : Z) (args : Imagenet.Args)
  : result (list (option Z * Imagenet.Args)) :=
  match read_world_size env_world_size args with
  | Raise e => Raise e
  | Ok args =>
      let args :=
        set_distributed ((1 <? Imagenet.world_size args)
                         || Imagenet.multiprocessing_distributed args) args in
      if Imagenet.multiprocessing_distributed args then
        let args := set_world_size (ngpus_per_node * Imagenet.world_size args) args in
        Ok ((λ i, (Some i, args)) <$> py_range 0 ngpus_per_node)
      else
        Ok [(Imagenet.gpu args, args)]
  end.

End ImagenetMain.

(** * More readings of a run *)

(** The batches handed to the model, in order. *)
Definition forwarded (tr : list event) : list batch :=
  omap (λ e, match e with Forward b => Some b | _ => None end) tr.

(** The global steps logged under [tag], in order. *)
Definition scalar_steps (tag : string) (tr : list event) : list Z :=
  omap (λ e, match e with
             | AddScalar t s => if bool_decide (t = tag) then Some s else None
             | _ => None
             end) tr.

(** The calls of [dist.init_process_group]: world size and rank. *)
Definition init_calls (tr : list event) : list (Z * Z) :=
  omap (λ e, match e with InitProcessGroup ws r => Some (ws, r) | _ => None end) tr.

(** The files read, in order. *)
Definition reads (tr : list event) : list string :=
  omap (λ e, match e with ReadFile p => Some p | _ => None end) tr.

(** The paths opened for writing, in order. *)
Definition written_paths (tr : list event) : list string :=
  omap (λ e, match e with OpenWrite p => Some p | _ => None end) tr.

Definition is_init_group (e : event) : bool :=
  match e with InitProcessGroup _ _ => true | _ => false end.

(** [s.endswith(suffix)] *)
Definition ends_with (suffix s : string) : bool :=
  let n := String.length s in
  let k := String.length suffix in
  (k <=? n)%nat && String.eqb (String.substring (n - k) k s) suffix.

(** The number of samples of a list of batches, and the sum over them of
    accuracy times batch size. *)
Definition samples (bs : list batch) : Z :=
  foldr (λ b n, Z.pos (batch_size b) + n) 0 bs.
Definition weighted_acc `{Mnist.Collaborators} (model : blob) (bs : list batch) : Qc :=
  foldr (λ b s, (Mnist.top1_acc model b * Qc_of_Z (Z.pos (batch_size b)) + s)%Qc)
    (Qc_of_Z 0) bs.

(** The state of the MNIST worker after one epoch that reaches its end:
    a training pass, then the best-metric update on the validation
    result. *)
Definition mnist_step `{Mnist.Collaborators} (tl : list batch) (loader : Mnist.val_loader)
    (w : Mnist.worker) (epoch : Z) : Mnist.worker :=
  let st := trained (Mnist.w_model w, Mnist.w_optimizer w) tl in
  Mnist.Worker (Mnist.w_args w) st.1 st.2
    (py_max (val_result (Mnist.w_args w) st.1 loader) (Mnist.w_best_acc1 w)).

(** The arguments of the epoch loop of the MNIST worker: the log
    directory is rewritten before the loop (mnist/main.py 262). *)
Definition mnist_loop_args (args : Mnist.Args) : Mnist.Args :=
  Mnist.set_log_name ("logger/" +:+ Mnist.arch args +:+ "_" +:+ Mnist.log_name args) args.

(** The best file of the run of [w] holds a dictionary whose recorded
    metric is the tracked best and is the validation result of the
    parameters stored with it. *)
Definition best_file_tracks `{Mnist.Collaborators} (loader : Mnist.val_loader)
    (w : Mnist.worker) (fs : gmap string file) : Prop :=
  ∃ c, fs !! best_path (mnist_prefix (Mnist.w_args w)) = Some (FCheckpoint c)
       ∧ ck_best_acc1 c = Mnist.w_best_acc1 w
       ∧ val_result (Mnist.w_args w) (ck_state_dict c) loader = ck_best_acc1 c.

(** The message of lines 135-136 of both workers. *)
Definition gpu_notice (gpu0 : option Z) : list event :=
  match gpu0 with Some g => [Print (MsgUseGpu g)] | None => [] end.

(** The epochs handed to [train_sampler.set_epoch], in order. *)
Definition sampler_epochs (tr : list event) : list Z :=
  omap (λ e, match e with SetEpoch n => Some n | _ => None end) tr.

(** [e] is the call [writer.close()]. *)
Definition is_writer_close (e : event) : bool :=
  match e with WriterClose => true | _ => false end.

(** * Scenarios *)

(** Concrete collaborators and command lines on which the properties below
    are exercised. *)
Module Scenario.

Definition q (n : Z) : Qc := Qc_of_Z n.

(** A one-sample batch with empty data, and one with a data byte. *)
Definition b0 : batch := Batch 1 [].
Definition b1 : batch := Batch 1 [Byte.x01].

(** A toy network whose parameters grow by the data of every training
    batch, and whose accuracy is 70% after one such step and 68% after
    two. *)
Definition lenet_70_68 : Mnist.Collaborators := {|
  Mnist.zoo_has := λ a, String.eqb a "lenet";
  Mnist.model_init := λ _ _ _ _, [];
  Mnist.fresh_optimizer := [];
  Mnist.sgd_step := λ st b, (batch_data b ++ st.1, st.2);
  Mnist.top1_acc := λ m _, q (nth (length m) [0; 70; 68] 0);
  Mnist.fuse_bn := λ m, m;
  Mnist.quantize_scale_and_bias := λ m, m;
  Mnist.state_dict_keys := λ _, ["conv1.weight"];
|}.

(** A toy network that classifies the samples of [b0] correctly and those
    of every other batch wrongly. *)
Definition lenet_first_batch : Mnist.Collaborators := {|
  Mnist.zoo_has := λ a, String.eqb a "lenet";
  Mnist.model_init := λ _ _ _ _, [];
  Mnist.fresh_optimizer := [];
  Mnist.sgd_step := λ st b, (batch_data b ++ st.1, st.2);
  Mnist.top1_acc := λ _ b, match batch_data b with [] => q 100 | _ => q 0 end;
  Mnist.fuse_bn := λ m, m;
  Mnist.quantize_scale_and_bias := λ m, m;
  Mnist.state_dict_keys := λ _, ["conv1.weight"];
|}.

(** [main.py data -a lenet --epochs 2 --gpu 0] *)
Definition mnist_args : Mnist.Args := {|
  Mnist.arch := "lenet"; Mnist.epochs := 2; Mnist.start_epoch := 0;
  Mnist.print_freq := 50; Mnist.evaluate := false; Mnist.pretrained := false;
  Mnist.resume := ""; Mnist.resume_after := ""; Mnist.log_name := "log";
  Mnist.gen_map := false; Mnist.original_model := ""; Mnist.bn_fusion := false;
  Mnist.quant_bias_scale := false; Mnist.extract_inner_data := false;
  Mnist.gpu := None; Mnist.gpus := None; Mnist.qa := 4; Mnist.qw := 4;
  Mnist.dali := false; Mnist.batch_num := 0 |}.

Definition mnist_worker : Mnist.worker :=
  Mnist.Worker mnist_args [] [] (q 0).

Definition loader2 : Mnist.val_loader := Mnist.ValLoader b0 [b1].

(** Two checkpoint dictionaries of one run: after the first and after the
    second epoch. *)
Definition ck_old : checkpoint :=
  {| ck_epoch := 1; ck_arch := "lenet"; ck_state_dict := [Byte.x01];
     ck_best_acc1 := q 70; ck_optimizer := [] |}.
Definition ck_new : checkpoint :=
  {| ck_epoch := 2; ck_arch := "lenet"; ck_state_dict := [Byte.x01; Byte.x01];
     ck_best_acc1 := q 70; ck_optimizer := [] |}.

(** [main.py data -a lenet --epochs 2 --gpu 0 --extract-inner-data] *)
Definition mnist_args_extract : Mnist.Args := {|
  Mnist.arch := "lenet"; Mnist.epochs := 2; Mnist.start_epoch := 0;
  Mnist.print_freq := 50; Mnist.evaluate := false; Mnist.pretrained := false;
  Mnist.resume := ""; Mnist.resume_after := ""; Mnist.log_name := "log";
  Mnist.gen_map := false; Mnist.original_model := ""; Mnist.bn_fusion := false;
  Mnist.quant_bias_scale := false; Mnist.extract_inner_data := true;
  Mnist.gpu := None; Mnist.gpus := None; Mnist.qa := 4; Mnist.qw := 4;
  Mnist.dali := false; Mnist.batch_num := 0 |}.

Definition loader1 : Mnist.val_loader := Mnist.ValLoader b0 [].

(** [main.py data -a resnet18 --epochs 2], not distributed. *)
Definition imagenet_args : Imagenet.Args := {|
  Imagenet.arch := "resnet18"; Imagenet.epochs := 2; Imagenet.start_epoch := 0;
  Imagenet.evaluate := false; Imagenet.pretrained := false; Imagenet.gen_map := false;
  Imagenet.gpu := None; Imagenet.distributed := false;
  Imagenet.multiprocessing_distributed := false; Imagenet.dist_url := "";
  Imagenet.rank := 0; Imagenet.world_size := 1; Imagenet.qa := 4; Imagenet.qw := 4;
  Imagenet.debug := false; Imagenet.log_name := "log"; Imagenet.batch_num := 0 |}.

(** A toy ImageNet environment: one known architecture, [process_model]
    resumes at epoch [resumed_at], training adds a byte to the parameters,
    accuracy is 70% after one epoch and 68% after two. *)
Definition resnet_env (resumed_at : Z) (writer : bool) : Imagenet.Env := {|
  Imagenet.torchvision_has := λ a, String.eqb a "resnet18";
  Imagenet.extra_has := λ _, false;
  Imagenet.torchvision_init := λ _ _, [];
  Imagenet.extra_init := λ _ _ _, [];
  Imagenet.fresh_optimizer := [];
  Imagenet.process_model := λ a st, (imagenet_with_start resumed_at a, st);
  Imagenet.train_batches := 1;
  Imagenet.has_writer := λ _ _, writer;
  Imagenet.train_epoch := λ _ st, (Byte.x01 :: st.1, st.2);
  Imagenet.evaluate_model := λ m, (q (nth (length m) [0; 70; 68] 0), q 0);
  Imagenet.has_dnq_conv := λ _, false;
|}.

Definition imagenet_worker : Imagenet.worker :=
  Imagenet.Worker imagenet_args [] [] (q 0).

(** [main.py data -a lenet --epochs 3 --resume run_checkpoint.pth.tar],
    and a file store that holds the checkpoint written after epoch 1. *)
Definition mnist_args_resume : Mnist.Args := {|
  Mnist.arch := "lenet"; Mnist.epochs := 3; Mnist.start_epoch := 0;
  Mnist.print_freq := 50; Mnist.evaluate := false; Mnist.pretrained := false;
  Mnist.resume := "run_checkpoint.pth.tar"; Mnist.resume_after := "";
  Mnist.log_name := "log";
  Mnist.gen_map := false; Mnist.original_model := ""; Mnist.bn_fusion := false;
  Mnist.quant_bias_scale := false; Mnist.extract_inner_data := false;
  Mnist.gpu := None; Mnist.gpus := None; Mnist.qa := 4; Mnist.qw := 4;
  Mnist.dali := false; Mnist.batch_num := 0 |}.

Definition store_with_checkpoint : gmap string file :=
  {[ "run_checkpoint.pth.tar" := FCheckpoint ck_new ]}.

(** [main.py data -a lenet --epochs 6 --start-epoch 5 --resume missing.pth.tar] *)
Definition mnist_args_missing : Mnist.Args := {|
  Mnist.arch := "lenet"; Mnist.epochs := 6; Mnist.start_epoch := 5;
  Mnist.print_freq := 50; Mnist.evaluate := false; Mnist.pretrained := false;
  Mnist.resume := "missing.pth.tar"; Mnist.resume_after := "";
  Mnist.log_name := "log";
  Mnist.gen_map := false; Mnist.original_model := ""; Mnist.bn_fusion := false;
  Mnist.quant_bias_scale := false; Mnist.extract_inner_data := false;
  Mnist.gpu := None; Mnist.gpus := None; Mnist.qa := 4; Mnist.qw := 4;
  Mnist.dali := false; Mnist.batch_num := 0 |}.

(** [main.py data -a lenet --gen-map --original-model lenet -e] *)
Definition mnist_args_gen_map : Mnist.Args := {|
  Mnist.arch := "lenet"; Mnist.epochs := 2; Mnist.start_epoch := 0;
  Mnist.print_freq := 50; Mnist.evaluate := true; Mnist.pretrained := false;
  Mnist.resume := ""; Mnist.resume_after := ""; Mnist.log_name := "log";
  Mnist.gen_map := true; Mnist.original_model := "lenet"; Mnist.bn_fusion := false;
  Mnist.quant_bias_scale := false; Mnist.extract_inner_data := false;
  Mnist.gpu := None; Mnist.gpus := None; Mnist.qa := 4; Mnist.qw := 4;
  Mnist.dali := false; Mnist.batch_num := 0 |}.


End Scenario.

(** Further command lines and stores on which the properties of the
    set-up, of the loops and of the entry points are exercised. *)
Module Cases.

(** [main.py data -a lenet --epochs 2 --gpu 0 --dali] *)
Definition mnist_args_dali : Mnist.Args := {|
  Mnist.arch := "lenet"; Mnist.epochs := 2; Mnist.start_epoch := 0;
  Mnist.print_freq := 50; Mnist.evaluate := false; Mnist.pretrained := false;
  Mnist.resume := ""; Mnist.resume_after := ""; Mnist.log_name := "log";
  Mnist.gen_map := false; Mnist.original_model := ""; Mnist.bn_fusion := false;
  Mnist.quant_bias_scale := false; Mnist.extract_inner_data := false;
  Mnist.gpu := Some 0; Mnist.gpus := None; Mnist.qa := 4; Mnist.qw := 4;
  Mnist.dali := true; Mnist.batch_num := 0 |}.


(** [main.py data -a lenet --epochs 2 --gpu 0], two batches per epoch. *)
Definition mnist_args_gpu : Mnist.Args := {|
  Mnist.arch := "lenet"; Mnist.epochs := 2; Mnist.start_epoch := 0;
  Mnist.print_freq := 50; Mnist.evaluate := false; Mnist.pretrained := false;
  Mnist.resume := ""; Mnist.resume_after := ""; Mnist.log_name := "log";
  Mnist.gen_map := false; Mnist.original_model := ""; Mnist.bn_fusion := false;
  Mnist.quant_bias_scale := false; Mnist.extract_inner_data := false;
  Mnist.gpu := Some 0; Mnist.gpus := None; Mnist.qa := 4; Mnist.qw := 4;
  Mnist.dali := false; Mnist.batch_num := 2 |}.

(** [main.py data -a lenet --epochs 2 --gpu 0 --resume
    logger/lenet_log/lenet_checkpoint.pth.tar], and a store that holds the
    latest checkpoint of a finished two-epoch run. *)
Definition mnist_args_finished : Mnist.Args := {|
  Mnist.arch := "lenet"; Mnist.epochs := 2; Mnist.start_epoch := 0;
  Mnist.print_freq := 50; Mnist.evaluate := false; Mnist.pretrained := false;
  Mnist.resume := "logger/lenet_log/lenet_checkpoint.pth.tar";
  Mnist.resume_after := ""; Mnist.log_name := "log";
  Mnist.gen_map := false; Mnist.original_model := ""; Mnist.bn_fusion := false;
  Mnist.quant_bias_scale := false; Mnist.extract_inner_data := false;
  Mnist.gpu := Some 0; Mnist.gpus := None; Mnist.qa := 4; Mnist.qw := 4;
  Mnist.dali := false; Mnist.batch_num := 0 |}.

Definition store_finished : gmap string file :=
  {[ "logger/lenet_log/lenet_checkpoint.pth.tar" := FCheckpoint Scenario.ck_new ]}.

(** [main.py data -a lenet --epochs 3 --gpu 0 --resume
    logger/lenet_log/lenet_checkpoint.pth.tar]: one more epoch on top of
    the run of [mnist_args_gpu]. *)
Definition mnist_args_continue : Mnist.Args := {|
  Mnist.arch := "lenet"; Mnist.epochs := 3; Mnist.start_epoch := 0;
  Mnist.print_freq := 50; Mnist.evaluate := false; Mnist.pretrained := false;
  Mnist.resume := "logger/lenet_log/lenet_checkpoint.pth.tar";
  Mnist.resume_after := ""; Mnist.log_name := "log";
  Mnist.gen_map := false; Mnist.original_model := ""; Mnist.bn_fusion := false;
  Mnist.quant_bias_scale := false; Mnist.extract_inner_data := false;
  Mnist.gpu := Some 0; Mnist.gpus := None; Mnist.qa := 4; Mnist.qw := 4;
  Mnist.dali := false; Mnist.batch_num := 0 |}.

(** [main.py data -a lenet --epochs 3 --gpu 0 --resume run_checkpoint.pth.tar
    --quant-bias-scale] *)
Definition mnist_args_quant : Mnist.Args := {|
  Mnist.arch := "lenet"; Mnist.epochs := 3; Mnist.start_epoch := 0;
  Mnist.print_freq := 50; Mnist.evaluate := false; Mnist.pretrained := false;
  Mnist.resume := "run_checkpoint.pth.tar"; Mnist.resume_after := "";
  Mnist.log_name := "log";
  Mnist.gen_map := false; Mnist.original_model := ""; Mnist.bn_fusion := false;
  Mnist.quant_bias_scale := true; Mnist.extract_inner_data := false;
  Mnist.gpu := Some 0; Mnist.gpus := None; Mnist.qa := 4; Mnist.qw := 4;
  Mnist.dali := false; Mnist.batch_num := 0 |}.

(** [main.py data -a lenet --epochs 3 --gpu 0 --resume-after
    run_checkpoint.pth.tar] *)
Definition mnist_args_resume_after : Mnist.Args := {|
  Mnist.arch := "lenet"; Mnist.epochs := 3; Mnist.start_epoch := 0;
  Mnist.print_freq := 50; Mnist.evaluate := false; Mnist.pretrained := false;
  Mnist.resume := ""; Mnist.resume_after := "run_checkpoint.pth.tar";
  Mnist.log_name := "log";
  Mnist.gen_map := false; Mnist.original_model := ""; Mnist.bn_fusion := false;
  Mnist.quant_bias_scale := false; Mnist.extract_inner_data := false;
  Mnist.gpu := Some 0; Mnist.gpus := None; Mnist.qa := 4; Mnist.qw := 4;
  Mnist.dali := false; Mnist.batch_num := 0 |}.

(** [main.py data -a lenet --epochs 3 --gpu 0 --resume lenet.pth], and the
    store a run resumed from [run_checkpoint.pth.tar] leaves behind, which
    holds the weights-only file [lenet.pth]. *)
Definition mnist_args_weights : Mnist.Args := {|
  Mnist.arch := "lenet"; Mnist.epochs := 3; Mnist.start_epoch := 0;
  Mnist.print_freq := 50; Mnist.evaluate := false; Mnist.pretrained := false;
  Mnist.resume := "lenet.pth"; Mnist.resume_after := "";
  Mnist.log_name := "log";
  Mnist.gen_map := false; Mnist.original_model := ""; Mnist.bn_fusion := false;
  Mnist.quant_bias_scale := false; Mnist.extract_inner_data := false;
  Mnist.gpu := Some 0; Mnist.gpus := None; Mnist.qa := 4; Mnist.qw := 4;
  Mnist.dali := false; Mnist.batch_num := 0 |}.

Definition store_after_resume : gmap string file :=
  store (Mnist.prepare (H:=Scenario.lenet_70_68) (Some 0) Scenario.mnist_args_resume
           (Scenario.q 0) [Scenario.b1] Scenario.store_with_checkpoint).

(** [main.py data -a vgg --gpu 0] *)
Definition mnist_args_unknown : Mnist.Args := {|
  Mnist.arch := "vgg"; Mnist.epochs := 2; Mnist.start_epoch := 0;
  Mnist.print_freq := 50; Mnist.evaluate := false; Mnist.pretrained := false;
  Mnist.resume := ""; Mnist.resume_after := ""; Mnist.log_name := "log";
  Mnist.gen_map := false; Mnist.original_model := ""; Mnist.bn_fusion := false;
  Mnist.quant_bias_scale := false; Mnist.extract_inner_data := false;
  Mnist.gpu := Some 0; Mnist.gpus := None; Mnist.qa := 4; Mnist.qw := 4;
  Mnist.dali := false; Mnist.batch_num := 0 |}.

(** [main.py data -a lenet]: neither [--gpu] nor [--gpus]. *)
Definition mnist_args_no_device : Mnist.Args := {|
  Mnist.arch := "lenet"; Mnist.epochs := 2; Mnist.start_epoch := 0;
  Mnist.print_freq := 50; Mnist.evaluate := false; Mnist.pretrained := false;
  Mnist.resume := ""; Mnist.resume_after := ""; Mnist.log_name := "log";
  Mnist.gen_map := false; Mnist.original_model := ""; Mnist.bn_fusion := false;
  Mnist.quant_bias_scale := false; Mnist.extract_inner_data := false;
  Mnist.gpu := None; Mnist.gpus := None; Mnist.qa := 4; Mnist.qw := 4;
  Mnist.dali := false; Mnist.batch_num := 0 |}.

(** [main.py data -a resnet18 --epochs 2 --multiprocessing-distributed
    --dist-url tcp://10.0.0.1:23456 --world-size 2 --rank 1]: the second
    of two nodes. *)
Definition imagenet_args_mp : Imagenet.Args := {|
  Imagenet.arch := "resnet18"; Imagenet.epochs := 2; Imagenet.start_epoch := 0;
  Imagenet.evaluate := false; Imagenet.pretrained := false; Imagenet.gen_map := false;
  Imagenet.gpu := None; Imagenet.distributed := false;
  Imagenet.multiprocessing_distributed := true;
  Imagenet.dist_url := "tcp://10.0.0.1:23456";
  Imagenet.rank := 1; Imagenet.world_size := 2; Imagenet.qa := 4; Imagenet.qw := 4;
  Imagenet.debug := false; Imagenet.log_name := "log"; Imagenet.batch_num := 0 |}.

(** [main.py data -a resnet18 --epochs 2 --dist-url env://] with the
    defaults [--world-size -1 --rank -1]. *)
Definition imagenet_args_env : Imagenet.Args := {|
  Imagenet.arch := "resnet18"; Imagenet.epochs := 2; Imagenet.start_epoch := 0;
  Imagenet.evaluate := false; Imagenet.pretrained := false; Imagenet.gen_map := false;
  Imagenet.gpu := None; Imagenet.distributed := true;
  Imagenet.multiprocessing_distributed := false;
  Imagenet.dist_url := "env://";
  Imagenet.rank := -1; Imagenet.world_size := -1; Imagenet.qa := 4; Imagenet.qw := 4;
  Imagenet.debug := false; Imagenet.log_name := "log"; Imagenet.batch_num := 0 |}.

(** [main.py data -a vgg99 --epochs 2] *)
Definition imagenet_args_unknown : Imagenet.Args := {|
  Imagenet.arch := "vgg99"; Imagenet.epochs := 2; Imagenet.start_epoch := 0;
  Imagenet.evaluate := false; Imagenet.pretrained := false; Imagenet.gen_map := false;
  Imagenet.gpu := None; Imagenet.distributed := false;
  Imagenet.multiprocessing_distributed := false; Imagenet.dist_url := "";
  Imagenet.rank := 0; Imagenet.world_size := 1; Imagenet.qa := 4; Imagenet.qw := 4;
  Imagenet.debug := false; Imagenet.log_name := "log"; Imagenet.batch_num := 0 |}.

(** [main.py data -a resnet18 --gen-map] *)
Definition imagenet_args_gen_map : Imagenet.Args := {|
  Imagenet.arch := "resnet18"; Imagenet.epochs := 2; Imagenet.start_epoch := 0;
  Imagenet.evaluate := false; Imagenet.pretrained := false; Imagenet.gen_map := true;
  Imagenet.gpu := None; Imagenet.distributed := false;
  Imagenet.multiprocessing_distributed := false; Imagenet.dist_url := "";
  Imagenet.rank := 0; Imagenet.world_size := 1; Imagenet.qa := 4; Imagenet.qw := 4;
  Imagenet.debug := false; Imagenet.log_name := "log"; Imagenet.batch_num := 0 |}.

(** [main.py data -a lenet -e --gpu 0 --resume run_checkpoint.pth.tar] *)
Definition mnist_args_evaluate_resumed : Mnist.Args := {|
  Mnist.arch := "lenet"; Mnist.epochs := 3; Mnist.start_epoch := 0;
  Mnist.print_freq := 50; Mnist.evaluate := true; Mnist.pretrained := false;
  Mnist.resume := "run_checkpoint.pth.tar"; Mnist.resume_after := "";
  Mnist.log_name := "log";
  Mnist.gen_map := false; Mnist.original_model := ""; Mnist.bn_fusion := false;
  Mnist.quant_bias_scale := false; Mnist.extract_inner_data := false;
  Mnist.gpu := Some 0; Mnist.gpus := None; Mnist.qa := 4; Mnist.qw := 4;
  Mnist.dali := false; Mnist.batch_num := 0 |}.


End Cases.

(** * Properties *)

(** ** The monad *)

Section monad_facts.
Context {A B : Type}.
Implicit Types (m : M A) (k : A → M B) (fs : gmap string file).

Lemma outcome_bind m k fs :
  outcome (bind m k fs) =
  match outcome (m fs) with
  | Ok a => outcome (k a (store (m fs)))
  | Raise e => Raise e
  end.
Proof.
  unfold bind, outcome, store. destruct (m fs) as [[[a|e] fs1] t1]; simpl; [|done].
  by destruct (k a fs1) as [[r fs2] t2].
Qed.

Lemma store_bind m k fs :
  store (bind m k fs) =
  match outcome (m fs) with
  | Ok a => store (k a (store (m fs)))
  | Raise e => store (m fs)
  end.
Proof.
  unfold bind, outcome, store. destruct (m fs) as [[[a|e] fs1] t1]; simpl; [|done].
  by destruct (k a fs1) as [[r fs2] t2].
Qed.

Lemma trace_bind m k fs :
  trace (bind m k fs) =
  trace (m fs) ++
  match outcome (m fs) with
  | Ok a => trace (k a (store (m fs)))
  | Raise e => []
  end.
Proof.
  unfold bind, outcome, store, trace. destruct (m fs) as [[[a|e] fs1] t1]; simpl.
  - by destruct (k a fs1) as [[r fs2] t2].
  - by rewrite app_nil_r.
Qed.

End monad_facts.

Lemma run_eta {A} (x : result A * gmap string file * list event) :
  x = (outcome x, store x, trace x).
Proof. by destruct x as [[??]?]. Qed.

Lemma run_ext {A} (x : result A * gmap string file * list event) r fs t :
  outcome x = r → store x = fs → trace x = t → x = (r, fs, t).
Proof. intros <- <- <-. apply run_eta. Qed.

(** Rewriting a run into its three projections, one bind at a time. *)
Ltac mproj :=
  repeat first
    [ rewrite outcome_bind | rewrite store_bind | rewrite trace_bind ].

(** Evaluating the primitive computations without unfolding the loops. *)
Ltac msimpl :=
  cbn [outcome store trace emit ret raise when get_fs put_file fst snd app].
Ltac mstep := repeat (progress (mproj; msimpl)).

(** ** Writing and copying files *)

Lemma write_file_run p f fs :
  write_file p f fs = (Ok tt, <[p := f]> fs, [OpenWrite p; CloseWrite p f]).
Proof.
  unfold write_file, bind, put_file, emit; simpl.
  by rewrite insert_insert_eq.
Qed.

Lemma torch_save_run obj p fs :
  torch_save obj p fs = (Ok tt, <[p := obj]> fs, [OpenWrite p; CloseWrite p obj]).
Proof. apply write_file_run. Qed.

Lemma copyfile_run src dst f fs :
  src ≠ dst → fs !! src = Some f →
  copyfile src dst fs =
  (Ok tt, <[dst := f]> fs, [ReadFile src; OpenWrite dst; CloseWrite dst f]).
Proof.
  intros Hne Hsrc. unfold copyfile. rewrite bool_decide_eq_false_2 by done.
  unfold bind at 1, get_fs at 1. rewrite Hsrc.
  unfold bind at 1, emit at 1. by rewrite write_file_run.
Qed.

Lemma append_inj_l (p s1 s2 : string) : p +:+ s1 = p +:+ s2 → s1 = s2.
Proof. induction p as [|c p IH]; simpl; [done|]. intros [=]. auto. Qed.

Lemma latest_best_distinct prefix : latest_path prefix ≠ best_path prefix.
Proof. intros Heq. apply append_inj_l in Heq. discriminate. Qed.

Lemma save_checkpoint_run state is_best prefix fs :
  Mnist.save_checkpoint state is_best prefix fs =
  (Ok tt,
   (if is_best then <[best_path prefix := FCheckpoint state]> else id)
     (<[latest_path prefix := FCheckpoint state]> fs),
   [OpenWrite (latest_path prefix); CloseWrite (latest_path prefix) (FCheckpoint state)] ++
   (if is_best then
      [ReadFile (latest_path prefix); OpenWrite (best_path prefix);
       CloseWrite (best_path prefix) (FCheckpoint state)]
    else [])).
Proof.
  unfold Mnist.save_checkpoint. fold (latest_path prefix) (best_path prefix).
  unfold bind at 1. rewrite torch_save_run.
  destruct is_best; simpl; [|done].
  rewrite (copyfile_run _ _ (FCheckpoint state)); [done|apply latest_best_distinct|].
  apply lookup_insert_eq.
Qed.

Lemma imagenet_save_checkpoint_eq state is_best prefix :
  Imagenet.save_checkpoint state is_best prefix = Mnist.save_checkpoint state is_best prefix.
Proof. reflexivity. Qed.

(** ** Traces *)

Lemma count_app p t1 t2 : count p (t1 ++ t2) = (count p t1 + count p t2)%nat.
Proof. unfold count. by rewrite List.filter_app, length_app. Qed.

Lemma count_cons p e tr :
  count p (e :: tr) = ((if p e then 1 else 0) + count p tr)%nat.
Proof. unfold count. simpl. by destruct (p e). Qed.

Lemma count_none p tr : Forall (λ e, p e = false) tr → count p tr = 0%nat.
Proof.
  induction 1 as [|e tr He _ IH]; [done|]. by rewrite count_cons, He, IH.
Qed.

Lemma records_app t1 t2 : records (t1 ++ t2) = records t1 ++ records t2.
Proof. unfold records. apply omap_app. Qed.

Lemma trained_epochs_app t1 t2 :
  trained_epochs (t1 ++ t2) = trained_epochs t1 ++ trained_epochs t2.
Proof. unfold trained_epochs. apply omap_app. Qed.

Lemma inner_records tr : Forall (λ e, inner_event e = true) tr → records tr = [].
Proof.
  induction 1 as [|e tr He _ IH]; [done|].
  destruct e; try discriminate He; exact IH.
Qed.


(** ** The MNIST batch loops *)

Section mnist_loops.
Context `{Mnist.Collaborators}.
Implicit Types (args : Mnist.Args) (fs : gmap string file).

Lemma at_print_freq_run args i fs :
  Mnist.at_print_freq args i fs =
  if Mnist.print_freq args =? 0 then (Raise ZeroDivisionError, fs, [])
  else (Ok (i mod Mnist.print_freq args =? 0), fs, []).
Proof. unfold Mnist.at_print_freq. by destruct (_ =? 0). Qed.

Lemma validate_loop_store args model i batches top1 fs :
  store (Mnist.validate_loop args model i batches top1 fs) = fs.
Proof.
  revert i top1 fs. induction batches as [|b rest IH]; intros i top1 fs; [done|].
  simpl. mproj. simpl. destruct (Mnist.extract_inner_data args); [done|].
  mproj. rewrite at_print_freq_run. destruct (_ =? 0); [done|]. simpl.
  mproj. destruct (_ =? 0); simpl; apply IH.
Qed.

Lemma validate_loop_inner args model i batches top1 fs :
  Forall (λ e, inner_event e = true)
    (trace (Mnist.validate_loop args model i batches top1 fs)).
Proof.
  revert i top1 fs. induction batches as [|b rest IH]; intros i top1 fs; [by constructor|].
  simpl. mproj. simpl. constructor; [done|].
  destruct (Mnist.extract_inner_data args); [by repeat constructor|].
  mproj. rewrite at_print_freq_run. destruct (_ =? 0); [by constructor|]. simpl.
  mproj. destruct (_ =? 0); simpl; [constructor; [done|]|]; apply IH.
Qed.

Lemma validate_loop_outcome args model i batches top1 fs :
  outcome (Mnist.validate_loop args model i batches top1 fs) =
  if Mnist.extract_inner_data args then Ok (top1_meter model top1 (take 1 batches))
  else if bool_decide (batches = []) || negb (Mnist.print_freq args =? 0)
       then Ok (top1_meter model top1 batches)
       else Raise ZeroDivisionError.
Proof.
  revert i top1 fs. induction batches as [|b rest IH]; intros i top1 fs.
  { simpl. by destruct (Mnist.extract_inner_data args). }
  simpl. mproj. simpl. destruct (Mnist.extract_inner_data args) eqn:Hx; [done|].
  mproj. rewrite at_print_freq_run. destruct (_ =? 0) eqn:Hpf; [done|]. simpl.
  mproj. destruct (i `mod` _ =? 0); simpl; rewrite IH; simpl; by rewrite orb_true_r.
Qed.

Lemma validate_store loader model args fs :
  store (Mnist.validate loader model args fs) = fs.
Proof.
  unfold Mnist.validate. mstep. rewrite validate_loop_store.
  destruct (outcome _); [by mstep|done].
Qed.

Lemma validate_outcome loader model args fs :
  outcome (Mnist.validate loader model args fs) =
  if Mnist.extract_inner_data args || negb (Mnist.print_freq args =? 0)
  then Ok (val_result args model loader)
  else Raise ZeroDivisionError.
Proof.
  unfold Mnist.validate. mstep. rewrite validate_loop_outcome.
  unfold val_result, evaluated_batches, Mnist.val_batches.
  destruct (Mnist.extract_inner_data args); [by mstep|].
  rewrite bool_decide_eq_false_2 by done.
  destruct (_ =? 0); [done|by mstep].
Qed.

Lemma validate_trace loader model args fs :
  ∃ t, trace (Mnist.validate loader model args fs) = EnterValidate :: t
       ∧ Forall (λ e, inner_event e = true) t.
Proof.
  unfold Mnist.validate. mstep. eexists; split; [done|].
  apply Forall_app; split; [apply validate_loop_inner|].
  destruct (outcome _); [|by constructor]. mstep. by repeat constructor.
Qed.

Lemma validate_loop_eval args model i batches top1 fs :
  Forall (λ e, eval_event e = true)
    (trace (Mnist.validate_loop args model i batches top1 fs)).
Proof.
  revert i top1 fs. induction batches as [|b rest IH]; intros i top1 fs; [by constructor|].
  simpl. mproj. simpl. constructor; [done|].
  destruct (Mnist.extract_inner_data args); [by repeat constructor|].
  mproj. rewrite at_print_freq_run. destruct (_ =? 0); [by constructor|]. simpl.
  mproj. destruct (_ =? 0); simpl; [constructor; [done|]|]; apply IH.
Qed.

Lemma validate_trace_eval loader model args fs :
  ∃ t, trace (Mnist.validate loader model args fs) = EnterValidate :: t
       ∧ Forall (λ e, eval_event e = true) t.
Proof.
  unfold Mnist.validate. mstep. eexists; split; [done|].
  apply Forall_app; split; [apply validate_loop_eval|].
  destruct (outcome _); [|by constructor]. mstep. by repeat constructor.
Qed.

Lemma validate_early_stop loader model args fs :
  Mnist.extract_inner_data args = true →
  Mnist.validate loader model args fs =
  (Ok (val_result args model loader), fs,
   [EnterValidate; Forward (Mnist.first_batch loader); Print MsgEarlyStop;
    Print (MsgAcc1 (val_result args model loader))]).
Proof.
  intros Hx. unfold Mnist.validate, val_result, evaluated_batches, Mnist.val_batches.
  simpl. rewrite Hx. reflexivity.
Qed.

Lemma train_loop_store args epoch base i batches st fs :
  store (Mnist.train_loop args epoch base i batches st fs) = fs.
Proof.
  revert i st fs. induction batches as [|b rest IH]; intros i st fs; [done|].
  simpl. mproj. destruct (Mnist.dali args); [done|]. simpl.
  mproj. simpl. mproj. simpl.
  rewrite at_print_freq_run. destruct (_ =? 0); [done|]. simpl.
  mproj. destruct (i `mod` _ =? 0); simpl; apply IH.
Qed.

Lemma train_loop_inner args epoch base i batches st fs :
  Forall (λ e, inner_event e = true)
    (trace (Mnist.train_loop args epoch base i batches st fs)).
Proof.
  revert i st fs. induction batches as [|b rest IH]; intros i st fs; [by constructor|].
  simpl. mproj. destruct (Mnist.dali args); [by constructor|]. simpl.
  mproj. simpl. mproj. simpl. repeat (constructor; [done|]).
  rewrite at_print_freq_run. destruct (_ =? 0); [by constructor|]. simpl.
  mproj. destruct (i `mod` _ =? 0); simpl; [constructor; [done|]|]; apply IH.
Qed.

Lemma train_loop_outcome args epoch base i batches st fs :
  outcome (Mnist.train_loop args epoch base i batches st fs) =
  if bool_decide (batches = []) then Ok st
  else if Mnist.dali args then Raise IndexError
  else if Mnist.print_freq args =? 0 then Raise ZeroDivisionError
  else Ok (trained st batches).
Proof.
  revert i st fs. induction batches as [|b rest IH]; intros i st fs; [done|].
  simpl. mproj. destruct (Mnist.dali args) eqn:Hd; [done|]. simpl.
  mproj. simpl. mproj. simpl.
  rewrite at_print_freq_run. destruct (_ =? 0) eqn:Hpf; [done|]. simpl.
  mproj. destruct (i `mod` _ =? 0); simpl; rewrite IH;
    by destruct rest.
Qed.

Lemma train_store tl st epoch args fs :
  store (Mnist.train tl st epoch args fs) = fs.
Proof. unfold Mnist.train. mproj. simpl. apply train_loop_store. Qed.

Lemma train_outcome tl st epoch args fs :
  outcome (Mnist.train tl st epoch args fs) =
  if bool_decide (tl = []) then Ok st
  else if Mnist.dali args then Raise IndexError
  else if Mnist.print_freq args =? 0 then Raise ZeroDivisionError
  else Ok (trained st tl).
Proof. unfold Mnist.train. mproj. simpl. apply train_loop_outcome. Qed.

Lemma train_trace tl st epoch args fs :
  ∃ t, trace (Mnist.train tl st epoch args fs) = EnterTrain epoch :: t
       ∧ Forall (λ e, inner_event e = true) t.
Proof.
  unfold Mnist.train. mproj. simpl. eexists; split; [done|]. apply train_loop_inner.
Qed.

Lemma train_returns tl st epoch args fs st' :
  outcome (Mnist.train tl st epoch args fs) = Ok st' → st' = trained st tl.
Proof.
  rewrite train_outcome. case_bool_decide as Htl.
  - intros [= <-]. by subst tl.
  - destruct (Mnist.dali args); [done|]. destruct (_ =? 0); [done|]. by intros [= <-].
Qed.

(** One iteration of the MNIST epoch loop either completes, and is then
    described by the pure summaries, or raises before any file is touched. *)
Lemma mnist_epoch_body_cases tl loader epoch w fs :
  let args := Mnist.w_args w in
  let st := trained (Mnist.w_model w, Mnist.w_optimizer w) tl in
  let acc1 := val_result args st.1 loader in
  let best := py_max acc1 (Mnist.w_best_acc1 w) in
  let is_best := py_gt acc1 (Mnist.w_best_acc1 w) in
  (∃ t1 t2,
     Forall (λ e, inner_event e = true) t1 ∧ Forall (λ e, inner_event e = true) t2 ∧
     Mnist.epoch_body tl loader epoch w fs =
     (Ok (Mnist.Worker args st.1 st.2 best),
      store (Mnist.save_checkpoint (mnist_record args epoch st best) is_best
               (mnist_prefix args) fs),
      SchedulerStep :: EnterTrain epoch :: t1 ++ EnterValidate :: t2 ++
      [AddScalar "val/acc1" epoch; AddScalar "train/lr" epoch] ++
      trace (Mnist.save_checkpoint (mnist_record args epoch st best) is_best
               (mnist_prefix args) fs)))
  ∨ (∃ e t,
       Forall (λ e, loop_event e = true) t ∧
       Mnist.epoch_body tl loader epoch w fs =
       (Raise e, fs, SchedulerStep :: EnterTrain epoch :: t)).
Proof.
  intros args st acc1 best is_best.
  destruct (train_trace tl (Mnist.w_model w, Mnist.w_optimizer w) epoch args fs)
    as (t1 & Ht1 & Hin1).
  assert (Forall (λ e, loop_event e = true) t1) as Hl1.
  { eapply Forall_impl; [exact Hin1|]. intros e He. unfold loop_event. by rewrite He. }
  destruct (outcome (Mnist.train tl (Mnist.w_model w, Mnist.w_optimizer w) epoch args fs))
    as [st'|e] eqn:Ho1.
  2:{ right. exists e, t1. split; [done|]. apply run_ext; unfold Mnist.epoch_body;
      fold args; mstep; rewrite ?Ho1, ?Ht1, ?train_store; msimpl; try done.
      by rewrite app_nil_r. }
  pose proof (train_returns _ _ _ _ _ _ Ho1) as ->. fold st in Ho1.
  destruct (Mnist.dali args) eqn:Hd.
  { right. exists AttributeError, t1. split; [done|]. apply run_ext; unfold Mnist.epoch_body;
      fold args; mstep; rewrite ?Ho1, ?Ht1, ?train_store, ?Hd; mstep; try done.
      by rewrite app_nil_r. }
  destruct (validate_trace loader st.1 args fs) as (t2 & Ht2 & Hin2).
  pose proof (validate_outcome loader st.1 args fs) as Ho2. fold acc1 in Ho2.
  destruct (Mnist.extract_inner_data args || negb (Mnist.print_freq args =? 0)).
  - left. exists t1, t2. split; [done|]. split; [done|].
    apply run_ext; unfold Mnist.epoch_body; fold args; mstep;
      rewrite ?Ho1, ?Ht1, ?train_store, ?Hd; mstep;
      rewrite ?Ho2, ?Ht2, ?validate_store; mstep;
      rewrite ?save_checkpoint_run; msimpl; try done.
    rewrite app_nil_r. simpl. unfold mnist_prefix, mnist_record, best, is_best.
    by rewrite ?save_checkpoint_run.
  - right. exists ZeroDivisionError, (t1 ++ EnterValidate :: t2). split.
    { apply Forall_app; split; [done|]. constructor; [done|].
      eapply Forall_impl; [exact Hin2|]. intros e He. unfold loop_event. by rewrite He. }
    apply run_ext; unfold Mnist.epoch_body; fold args; mstep;
      rewrite ?Ho1, ?Ht1, ?train_store, ?Hd; mstep;
      rewrite ?Ho2, ?Ht2, ?validate_store; mstep; try done.
    by rewrite app_nil_r.
Qed.

End mnist_loops.

(** ** Records written by a save *)

Lemma save_checkpoint_records state is_best prefix fs :
  records (trace (Mnist.save_checkpoint state is_best prefix fs)) =
  saved_records prefix state is_best.
Proof. rewrite save_checkpoint_run. by destruct is_best. Qed.

Lemma no_write_records tr :
  Forall (λ e, is_file_write e = false) tr → records tr = [].
Proof.
  induction 1 as [|e tr He _ IH]; [done|].
  destruct e; try discriminate He; exact IH.
Qed.

Lemma records_skip e tr : is_file_write e = false → records (e :: tr) = records tr.
Proof. by destruct e. Qed.

Lemma loop_no_write tr :
  Forall (λ e, loop_event e = true) tr → Forall (λ e, is_file_write e = false) tr.
Proof. intros Htr. eapply Forall_impl; [exact Htr|]. by intros []. Qed.

Lemma bests_app t1 t2 : bests (t1 ++ t2) = bests t1 ++ bests t2.
Proof. unfold bests. by rewrite records_app, fmap_app. Qed.

Lemma py_gt_spec (a b : Qc) : py_gt a b = true ↔ (b < a)%Qc.
Proof. unfold py_gt. apply bool_decide_eq_true. Qed.

Lemma py_gt_false (a b : Qc) : py_gt a b = false ↔ (a ≤ b)%Qc.
Proof. unfold py_gt. rewrite bool_decide_eq_false. symmetry. apply Qcle_ngt. Qed.

Lemma py_max_ge_r (a b : Qc) : (b ≤ py_max a b)%Qc.
Proof.
  unfold py_max. destruct (py_gt b a) eqn:Hgt; [apply Qcle_refl|].
  by apply py_gt_false.
Qed.

Lemma py_max_cases (a b : Qc) :
  (py_gt a b = true ∧ py_max a b = a) ∨ (py_gt a b = false ∧ py_max a b = b).
Proof.
  unfold py_max. destruct (py_gt a b) eqn:Hab, (py_gt b a) eqn:Hba; auto.
  - apply py_gt_spec in Hab, Hba. destruct (Qclt_not_le _ _ Hab). by apply Qclt_le_weak.
  - apply py_gt_false in Hab, Hba. right. split; [done|]. by apply Qcle_antisym.
Qed.

(** ** The ImageNet epoch loop *)

Section imagenet_loop.
Context `{Imagenet.Env}.

Lemma imagenet_epoch_body_run writer epoch w fs :
  let args := Imagenet.w_args w in
  let st := Imagenet.train_epoch epoch (Imagenet.w_model w, Imagenet.w_optimizer w) in
  let acc1 := (Imagenet.evaluate_model st.1).1 in
  let best := py_max acc1 (Imagenet.w_best_acc1 w) in
  let is_best := py_gt acc1 (Imagenet.w_best_acc1 w) in
  let save := Mnist.save_checkpoint (imagenet_record args epoch st best) is_best
                (imagenet_prefix args) fs in
  Imagenet.epoch_body writer epoch w fs =
  (Ok (Imagenet.Worker args st.1 st.2 best),
   (if writer then store save else fs),
   imagenet_epoch_events args epoch ++
   (if writer then imagenet_scalar_events args epoch st.1 ++ trace save else [])).
Proof.
  intros args st acc1 best is_best save.
  unfold Imagenet.epoch_body. fold args st acc1 best is_best.
  rewrite imagenet_save_checkpoint_eq.
  change (Mnist.save_checkpoint _ is_best _) with
    (Mnist.save_checkpoint (imagenet_record args epoch st best) is_best (imagenet_prefix args)).
  unfold imagenet_epoch_events, imagenet_scalar_events.
  apply run_ext; mstep.
  - destruct (Imagenet.distributed args), writer; mstep; try done;
      destruct (_ && _); mstep; rewrite ?save_checkpoint_run; by msimpl.
  - destruct (Imagenet.distributed args), writer; mstep; try done;
      destruct (_ && _); mstep; subst save; rewrite ?save_checkpoint_run; by msimpl.
  - destruct (Imagenet.distributed args), writer; mstep; try done;
      destruct (_ && _); mstep; subst save; rewrite ?save_checkpoint_run; msimpl;
      by rewrite ?app_nil_r.
Qed.

End imagenet_loop.

(** ** Events of a computation *)

Section emits_facts.
Context (P : event → Prop).

Lemma emits_ret {A} (a : A) : emits P (ret a).
Proof. intros fs. constructor. Qed.

Lemma emits_raise {A} e : emits P (raise (A:=A) e).
Proof. intros fs. constructor. Qed.

Lemma emits_emit e : P e → emits P (emit e).
Proof. intros He fs. by repeat constructor. Qed.

Lemma emits_get_fs : emits P get_fs.
Proof. intros fs. constructor. Qed.

Lemma emits_put_file p f : emits P (put_file p f).
Proof. intros fs. constructor. Qed.

Lemma emits_bind {A B} (m : M A) (k : A → M B) :
  emits P m → (∀ a, emits P (k a)) → emits P (bind m k).
Proof.
  intros Hm Hk fs. rewrite trace_bind. apply Forall_app; split; [apply Hm|].
  destruct (outcome (m fs)); [apply Hk|constructor].
Qed.

Lemma emits_when c m : emits P m → emits P (when c m).
Proof. destruct c; [done|]. intros _. apply emits_ret. Qed.

Lemma emits_for_each {A S} (body : A → S → M S) l s :
  (∀ a s, emits P (body a s)) → emits P (for_each body l s).
Proof.
  intros Hbody. revert s. induction l as [|a l IH]; intros s; simpl.
  - apply emits_ret.
  - apply emits_bind; [apply Hbody|]. intros s'. apply IH.
Qed.

Lemma emits_isfile p : emits P (isfile p).
Proof. intros fs. constructor. Qed.

Lemma emits_write_file p f :
  P (OpenWrite p) → P (CloseWrite p f) → emits P (write_file p f).
Proof. intros Ho Hc fs. rewrite write_file_run. by repeat constructor. Qed.

Lemma emits_torch_load p : P (ReadFile p) → emits P (torch_load p).
Proof.
  intros Hr. unfold torch_load. apply emits_bind; [apply emits_get_fs|]. intros fs0.
  destruct (fs0 !! p) as [f|]; [|apply emits_raise].
  apply emits_bind; [by apply emits_emit|]. intros _.
  destruct f; first [apply emits_ret | apply emits_raise].
Qed.

Lemma emits_as_checkpoint f : emits P (as_checkpoint f).
Proof. destruct f; first [apply emits_ret | apply emits_raise]. Qed.

Lemma emits_get_state_dict f : emits P (get_state_dict f).
Proof. destruct f; first [apply emits_ret | apply emits_raise]. Qed.

End emits_facts.

(** Decomposing a computation into its primitives. *)
Ltac emits_tac :=
  repeat first
    [ apply emits_ret | apply emits_raise | apply emits_get_fs | apply emits_put_file
    | apply emits_isfile | apply emits_as_checkpoint | apply emits_get_state_dict
    | apply emits_emit; done
    | apply emits_write_file; done
    | apply emits_torch_load; done
    | apply emits_when
    | apply emits_for_each; intros ??
    | apply emits_bind; [|intros ?]
    | match goal with
      | |- emits _ (if ?c then _ else _) => destruct c
      | |- emits _ (match ?c with _ => _ end) => destruct c
      end ].

Section mnist_prepare.
Context `{Mnist.Collaborators}.

Lemma mnist_prepare_events gpu0 args best tl :
  emits (λ e, setup_event e = true) (Mnist.prepare gpu0 args best tl).
Proof.
  unfold Mnist.prepare, Mnist.create_model, Mnist.generate_key_map,
    Mnist.select_device, Mnist.resume_checkpoint, Mnist.rewrite_model,
    Mnist.resume_after_rewrite, Mnist.extract_inner, torch_save.
  emits_tac.
Qed.

End mnist_prepare.

Section imagenet_prepare.
Context `{Imagenet.Env}.

Lemma imagenet_prepare_events env_rank gpu0 ngpus args best :
  emits (λ e, setup_event e = true) (Imagenet.prepare env_rank gpu0 ngpus args best).
Proof.
  unfold Imagenet.prepare, Imagenet.join_group, Imagenet.create_model.
  emits_tac.
Qed.

End imagenet_prepare.

(** ** The best metric along an epoch loop *)

Lemma sorted_prepend (b b1 : Qc) (same rest : list Qc) :
  (b ≤ b1)%Qc → Forall (λ q, q = b1) same →
  StronglySorted Qcle (b1 :: rest) →
  StronglySorted Qcle (b :: same ++ rest).
Proof.
  intros Hb Hsame Hs. apply StronglySorted_cons in Hs as [Hall Hs].
  assert (StronglySorted Qcle (same ++ rest)) as Hsr.
  { induction Hsame as [|q same -> Hsame' IH]; simpl; [done|].
    apply StronglySorted_cons. split; [|done].
    apply Forall_app; split; [|done].
    eapply Forall_impl; [exact Hsame'|]. intros ? ->. apply Qcle_refl. }
  apply StronglySorted_cons. split; [|done].
  apply Forall_app; split.
  - eapply Forall_impl; [exact Hsame|]. by intros ? ->.
  - eapply Forall_impl; [exact Hall|]. intros q Hq. by apply Qcle_trans with b1.
Qed.

Lemma for_each_tracks {A S} (best : S → Qc) (body : A → S → M S) :
  (∀ a s fs, step_tracks best (body a s fs) (best s)) →
  ∀ l s fs,
    StronglySorted Qcle (best s :: bests (trace (for_each body l s fs))) ∧
    (∀ s', outcome (for_each body l s fs) = Ok s' →
           Forall (λ q, q ≤ best s')%Qc (best s :: bests (trace (for_each body l s fs)))).
Proof.
  intros Hbody l. induction l as [|a l IH]; intros s fs.
  { simpl. split; [repeat constructor|]. intros s' [= <-].
    repeat constructor. apply Qcle_refl. }
  simpl. mproj. specialize (Hbody a s fs). unfold step_tracks in Hbody.
  destruct (outcome (body a s fs)) as [s1|e].
  - destruct Hbody as [Hle Hsame].
    destruct (IH s1 (store (body a s fs))) as [Hs Hb].
    rewrite bests_app. split; [by apply sorted_prepend with (best s1)|].
    intros s' Hs'. specialize (Hb s' Hs').
    apply Forall_cons in Hb as [Hb1 Hb].
    constructor; [by apply Qcle_trans with (best s1)|].
    apply Forall_app; split; [|done].
    eapply Forall_impl; [exact Hsame|]. by intros ? ->.
  - rewrite app_nil_r, Hbody. split; [repeat constructor|done].
Qed.

Lemma bests_saved_records prefix c is_best :
  Forall (λ q, q = ck_best_acc1 c)
    ((λ pc : string * checkpoint, ck_best_acc1 pc.2) <$> saved_records prefix c is_best).
Proof. destruct is_best; by repeat constructor. Qed.

Lemma mnist_epoch_step_tracks `{Mnist.Collaborators} tl loader epoch w fs :
  step_tracks Mnist.w_best_acc1 (Mnist.epoch_body tl loader epoch w fs)
    (Mnist.w_best_acc1 w).
Proof.
  unfold step_tracks.
  destruct (mnist_epoch_body_cases tl loader epoch w fs)
    as [(t1 & t2 & Ht1 & Ht2 & ->)|(e & t & Ht & ->)]; msimpl.
  - split; [apply py_max_ge_r|].
    unfold bests.
    change (SchedulerStep :: EnterTrain epoch :: t1 ++ ?r)
      with ([SchedulerStep; EnterTrain epoch] ++ t1 ++ r).
    change (EnterValidate :: t2 ++ ?r) with ([EnterValidate] ++ t2 ++ r).
    rewrite !records_app, !records_skip, save_checkpoint_records by done.
    rewrite (inner_records t1), (inner_records t2) by done. simpl.
    apply (bests_saved_records _ (mnist_record _ _ _ _)).
  - unfold bests.
    change (SchedulerStep :: EnterTrain epoch :: t)
      with ([SchedulerStep; EnterTrain epoch] ++ t).
    rewrite records_app, (no_write_records t) by by apply loop_no_write. done.
Qed.

Lemma imagenet_epoch_step_tracks `{Imagenet.Env} writer epoch w fs :
  step_tracks Imagenet.w_best_acc1 (Imagenet.epoch_body writer epoch w fs)
    (Imagenet.w_best_acc1 w).
Proof.
  unfold step_tracks. rewrite imagenet_epoch_body_run. msimpl.
  split; [apply py_max_ge_r|].
  unfold bests, imagenet_epoch_events, imagenet_scalar_events.
  rewrite !records_app.
  destruct (Imagenet.distributed (Imagenet.w_args w)), writer; simpl;
    try by constructor.
  all: rewrite records_app, save_checkpoint_records;
    destruct (_ && _); apply (bests_saved_records _ (imagenet_record _ _ _ _)).
Qed.

(** ** Whole runs *)

Lemma setup_records tr : Forall (λ e, setup_event e = true) tr → records tr = [].
Proof.
  induction 1 as [|e tr He _ IH]; [done|].
  destruct e as [| | | | | | | | | | | | | | | | |? []]; try discriminate He; exact IH.
Qed.

Lemma sorted_records_at p tr :
  StronglySorted Qcle (bests tr) →
  StronglySorted Qcle (ck_best_acc1 <$> records_at p tr).
Proof.
  unfold bests, records_at. induction (records tr) as [|[p' c] l IH]; simpl; [done|].
  intros [Hall Hs]%StronglySorted_cons. case_bool_decide; simpl; [|auto].
  apply StronglySorted_cons. split; [|auto].
  clear -Hall. induction l as [|[p'' c'] l IH]; simpl; [done|].
  apply Forall_cons in Hall as [Hc Hall]. case_bool_decide; simpl; auto.
Qed.

Section mnist_runs.
Context `{Mnist.Collaborators}.

Lemma mnist_main_worker_run gpu0 args best tl loader fs :
  let x := Mnist.prepare gpu0 args best tl fs in
  Mnist.main_worker gpu0 args best tl loader fs =
  match outcome x with
  | Ok (Some w) =>
      let y := Mnist.evaluate_or_train tl loader w (store x) in
      (match outcome y with Ok w' => Ok (Some w') | Raise e => Raise e end,
       store y, trace x ++ trace y)
  | Ok None => (Ok None, store x, trace x)
  | Raise e => (Raise e, store x, trace x)
  end.
Proof.
  intros x. unfold Mnist.main_worker. fold x.
  destruct (outcome x) as [[w|]|e] eqn:Hx.
  - apply run_ext; mstep; fold x; rewrite Hx; mstep; try done;
      destruct (outcome (Mnist.evaluate_or_train _ _ _ _)); msimpl;
      by rewrite ?app_nil_r.
  - apply run_ext; mstep; fold x; rewrite Hx; msimpl; by rewrite ?app_nil_r.
  - apply run_ext; mstep; fold x; rewrite Hx; msimpl; by rewrite ?app_nil_r.
Qed.

Lemma mnist_evaluate_or_train_tracks tl loader w fs :
  StronglySorted Qcle
    (Mnist.w_best_acc1 w :: bests (trace (Mnist.evaluate_or_train tl loader w fs))).
Proof.
  unfold Mnist.evaluate_or_train. destruct (Mnist.evaluate (Mnist.w_args w)).
  - destruct (validate_trace loader (Mnist.w_model w) (Mnist.w_args w) fs)
      as (t & Ht & Hin).
    mproj. rewrite Ht.
    destruct (outcome (Mnist.validate _ _ _ _)); msimpl; rewrite app_nil_r;
      unfold bests; rewrite records_skip, inner_records by done;
      repeat constructor.
  - mstep. rewrite write_file_run. msimpl.
    change (bests (_ :: _ :: _ :: ?t)) with (bests t).
    exact (proj1 (for_each_tracks Mnist.w_best_acc1 _
                    (mnist_epoch_step_tracks tl loader) _
                    (Mnist.Worker _ _ _ _) _)).
Qed.

Lemma mnist_main_worker_sorted gpu0 args best tl loader fs :
  StronglySorted Qcle (bests (trace (Mnist.main_worker gpu0 args best tl loader fs))).
Proof.
  rewrite mnist_main_worker_run. cbv zeta.
  pose proof (mnist_prepare_events gpu0 args best tl fs) as Hpre.
  apply setup_records in Hpre.
  destruct (outcome (Mnist.prepare gpu0 args best tl fs)) as [[w|]|e]; msimpl.
  - unfold bests. rewrite records_app, Hpre. simpl.
    pose proof (mnist_evaluate_or_train_tracks tl loader w
                  (store (Mnist.prepare gpu0 args best tl fs))) as Hs.
    by apply StronglySorted_cons in Hs as [_ Hs].
  - unfold bests. rewrite Hpre. constructor.
  - unfold bests. rewrite Hpre. constructor.
Qed.

End mnist_runs.

Section imagenet_runs.
Context `{Imagenet.Env}.

Lemma imagenet_main_worker_run env_rank gpu0 ngpus args best fs :
  let x := Imagenet.prepare env_rank gpu0 ngpus args best fs in
  Imagenet.main_worker env_rank gpu0 ngpus args best fs =
  match outcome x with
  | Ok (Some (writer, w)) =>
      let y := Imagenet.evaluate_or_train writer w (store x) in
      (match outcome y with Ok w' => Ok (Some w') | Raise e => Raise e end,
       store y, trace x ++ trace y)
  | Ok None => (Ok None, store x, trace x)
  | Raise e => (Raise e, store x, trace x)
  end.
Proof.
  intros x. unfold Imagenet.main_worker. fold x.
  destruct (outcome x) as [[[writer w]|]|e] eqn:Hx.
  - apply run_ext; mstep; fold x; rewrite Hx; mstep; try done;
      destruct (outcome (Imagenet.evaluate_or_train _ _ _)); msimpl;
      by rewrite ?app_nil_r.
  - apply run_ext; mstep; fold x; rewrite Hx; msimpl; by rewrite ?app_nil_r.
  - apply run_ext; mstep; fold x; rewrite Hx; msimpl; by rewrite ?app_nil_r.
Qed.

Lemma imagenet_loop_ok writer l w fs :
  ∃ w', outcome (for_each (Imagenet.epoch_body writer) l w fs) = Ok w'.
Proof.
  revert w fs. induction l as [|a l IH]; intros w fs; simpl; [by eexists|].
  mproj. rewrite imagenet_epoch_body_run. msimpl. apply IH.
Qed.

Lemma skip_ahead_run args fs :
  Imagenet.skip_ahead args fs =
  (Ok tt, fs, replicate (Z.to_nat (Imagenet.start_epoch args)) SchedulerStep).
Proof.
  unfold Imagenet.skip_ahead, py_range. rewrite Z.sub_0_r.
  generalize (Z.to_nat (Imagenet.start_epoch args)) as n. intros n.
  generalize 0%nat as k. induction n as [|n IH]; intros k; [done|].
  simpl. unfold bind at 1. msimpl. by rewrite IH.
Qed.

Lemma imagenet_evaluate_or_train_tracks writer w fs :
  StronglySorted Qcle
    (Imagenet.w_best_acc1 w :: bests (trace (Imagenet.evaluate_or_train writer w fs))).
Proof.
  unfold Imagenet.evaluate_or_train. destruct (Imagenet.evaluate (Imagenet.w_args w)).
  - mstep. repeat constructor.
  - mstep. rewrite skip_ahead_run. msimpl.
    rewrite !bests_app.
    assert (∀ n, bests (replicate n SchedulerStep) = []) as ->.
    { intros n. by induction n. }
    simpl.
    destruct (imagenet_loop_ok writer
                (py_range (Imagenet.start_epoch (Imagenet.w_args w))
                   (Imagenet.epochs (Imagenet.w_args w))) w fs) as [w' Hw'].
    rewrite Hw'.
    assert (bests (trace ((when writer (emit WriterClose) ;;; ret w')
                            (store (for_each (Imagenet.epoch_body writer)
                               (py_range (Imagenet.start_epoch (Imagenet.w_args w))
                                  (Imagenet.epochs (Imagenet.w_args w))) w fs)))) = []) as ->.
    { by destruct writer. }
    rewrite app_nil_r.
    exact (proj1 (for_each_tracks Imagenet.w_best_acc1 _
                    (imagenet_epoch_step_tracks writer) _ _ _)).
Qed.

Lemma imagenet_main_worker_sorted env_rank gpu0 ngpus args best fs :
  StronglySorted Qcle
    (bests (trace (Imagenet.main_worker env_rank gpu0 ngpus args best fs))).
Proof.
  rewrite imagenet_main_worker_run. cbv zeta.
  pose proof (imagenet_prepare_events env_rank gpu0 ngpus args best fs) as Hpre.
  apply setup_records in Hpre.
  destruct (outcome (Imagenet.prepare env_rank gpu0 ngpus args best fs))
    as [[[writer w]|]|e]; msimpl.
  - unfold bests. rewrite records_app, Hpre. simpl.
    pose proof (imagenet_evaluate_or_train_tracks writer w
                  (store (Imagenet.prepare env_rank gpu0 ngpus args best fs))) as Hs.
    by apply StronglySorted_cons in Hs as [_ Hs].
  - unfold bests. rewrite Hpre. constructor.
  - unfold bests. rewrite Hpre. constructor.
Qed.

End imagenet_runs.

(** ** C3: the best metric never decreases *)

(** C3.  In both workers the tracked [best_acc1] after any sequence of
    epochs is at least its value before them, and in every run the
    [best_acc1] fields of the dictionaries written to any one path (in
    particular to the "best" file) are in non-decreasing order. *)
Theorem C3_best_metric_monotone :
  (∀ (C : Mnist.Collaborators) tl loader (l : list Z) w fs w',
     outcome (for_each (Mnist.epoch_body tl loader) l w fs) = Ok w' →
     (Mnist.w_best_acc1 w ≤ Mnist.w_best_acc1 w')%Qc) ∧
  (∀ (C : Mnist.Collaborators) gpu0 args best0 tl loader fs p,
     StronglySorted Qcle
       (ck_best_acc1 <$>
        records_at p (trace (Mnist.main_worker gpu0 args best0 tl loader fs)))) ∧
  (∀ (E : Imagenet.Env) writer (l : list Z) w fs,
     ∃ w', outcome (for_each (Imagenet.epoch_body writer) l w fs) = Ok w' ∧
           (Imagenet.w_best_acc1 w ≤ Imagenet.w_best_acc1 w')%Qc) ∧
  (∀ (E : Imagenet.Env) env_rank gpu0 ngpus args best0 fs p,
     StronglySorted Qcle
       (ck_best_acc1 <$>
        records_at p (trace (Imagenet.main_worker env_rank gpu0 ngpus args best0 fs)))).
Proof.
  repeat split.
  - intros C tl loader l w fs w' Hw'.
    destruct (for_each_tracks Mnist.w_best_acc1 _
                (mnist_epoch_step_tracks tl loader) l w fs) as [_ Hb].
    specialize (Hb w' Hw'). by apply Forall_cons in Hb as [Hb _].
  - intros. apply sorted_records_at, mnist_main_worker_sorted.
  - intros E writer l w fs.
    destruct (imagenet_loop_ok writer l w fs) as [w' Hw']. exists w'. split; [done|].
    destruct (for_each_tracks Imagenet.w_best_acc1 _
                (imagenet_epoch_step_tracks writer) l w fs) as [_ Hb].
    specialize (Hb w' Hw'). by apply Forall_cons in Hb as [Hb _].
  - intros. apply sorted_records_at, imagenet_main_worker_sorted.
Qed.

Lemma C3_witness :
  ∃ w', outcome (for_each (Mnist.epoch_body (H:=Scenario.lenet_70_68)
                             [Scenario.b1] Scenario.loader2)
                   [0; 1] Scenario.mnist_worker ∅) = Ok w'
        ∧ (Mnist.w_best_acc1 Scenario.mnist_worker ≤ Mnist.w_best_acc1 w')%Qc.
Proof.
  eexists. split; [vm_compute; reflexivity|].
  eapply (proj1 C3_best_metric_monotone Scenario.lenet_70_68
            [Scenario.b1] Scenario.loader2 [0; 1] Scenario.mnist_worker ∅).
  vm_compute. reflexivity.
Defined.

(** ** C7, C2, C5: what a save writes, and reading it back *)

Lemma records_at_saved_latest prefix c is_best :
  omap (λ pc : string * checkpoint,
          if bool_decide (pc.1 = latest_path prefix) then Some pc.2 else None)
    (saved_records prefix c is_best) = [c].
Proof.
  unfold saved_records. simpl. rewrite bool_decide_eq_true_2 by done.
  destruct is_best; simpl; [|done].
  rewrite bool_decide_eq_false_2; [done|].
  intros Heq. by apply (latest_best_distinct prefix).
Qed.

Lemma records_at_saved_best prefix c is_best :
  omap (λ pc : string * checkpoint,
          if bool_decide (pc.1 = best_path prefix) then Some pc.2 else None)
    (saved_records prefix c is_best) = if is_best then [c] else [].
Proof.
  unfold saved_records. simpl.
  rewrite bool_decide_eq_false_2 by apply latest_best_distinct.
  destruct is_best; simpl; [|done]. by rewrite bool_decide_eq_true_2.
Qed.

Lemma save_checkpoint_store_latest state is_best prefix fs :
  store (Mnist.save_checkpoint state is_best prefix fs) !! latest_path prefix
  = Some (FCheckpoint state).
Proof.
  rewrite save_checkpoint_run. msimpl. destruct is_best; simpl.
  - rewrite lookup_insert_ne by (intros Heq; by apply (latest_best_distinct prefix)).
    apply lookup_insert_eq.
  - apply lookup_insert_eq.
Qed.

Lemma save_checkpoint_store_best state is_best prefix fs :
  store (Mnist.save_checkpoint state is_best prefix fs) !! best_path prefix
  = if is_best then Some (FCheckpoint state) else fs !! best_path prefix.
Proof.
  rewrite save_checkpoint_run. msimpl. destruct is_best; simpl.
  - apply lookup_insert_eq.
  - by rewrite lookup_insert_ne by apply latest_best_distinct.
Qed.

Lemma mnist_epoch_body_completed `{Mnist.Collaborators} tl loader epoch w fs w' :
  outcome (Mnist.epoch_body tl loader epoch w fs) = Ok w' →
  let args := Mnist.w_args w in
  let acc1 := val_result args (Mnist.w_model w') loader in
  let c := mnist_record args epoch (Mnist.w_model w', Mnist.w_optimizer w')
             (Mnist.w_best_acc1 w') in
  let is_best := py_gt acc1 (Mnist.w_best_acc1 w) in
  w' = Mnist.Worker args (trained (Mnist.w_model w, Mnist.w_optimizer w) tl).1
         (trained (Mnist.w_model w, Mnist.w_optimizer w) tl).2
         (py_max acc1 (Mnist.w_best_acc1 w)) ∧
  records (trace (Mnist.epoch_body tl loader epoch w fs)) =
    saved_records (mnist_prefix args) c is_best ∧
  store (Mnist.epoch_body tl loader epoch w fs) =
    store (Mnist.save_checkpoint c is_best (mnist_prefix args) fs).
Proof.
  destruct (mnist_epoch_body_cases tl loader epoch w fs)
    as [(t1 & t2 & Ht1 & Ht2 & ->)|(e & t & Ht & ->)]; msimpl; [|done].
  intros [= <-]. cbn [Mnist.w_model Mnist.w_optimizer Mnist.w_best_acc1].
  split; [done|]. split; [|done].
  change (SchedulerStep :: EnterTrain epoch :: t1 ++ ?r)
    with ([SchedulerStep; EnterTrain epoch] ++ t1 ++ r).
  change (EnterValidate :: t2 ++ ?r) with ([EnterValidate] ++ t2 ++ r).
  rewrite !records_app, !records_skip, save_checkpoint_records by done.
  by rewrite (inner_records t1), (inner_records t2) by done.
Qed.

(** C7.  [save_checkpoint] always returns, always writes the dictionary
    to the latest file, and writes it to the best file -- a different
    path -- exactly when [is_best]; after a copy both files hold the same
    dictionary.  Every epoch of the MNIST loop that reaches its end has
    made exactly this save, with [is_best] the comparison of that epoch. *)
Theorem C7_latest_always_best_iff_is_best :
  (∀ state is_best prefix fs,
     let x := Mnist.save_checkpoint state is_best prefix fs in
     outcome x = Ok tt ∧
     latest_path prefix ≠ best_path prefix ∧
     records_at (latest_path prefix) (trace x) = [state] ∧
     records_at (best_path prefix) (trace x) = (if is_best then [state] else []) ∧
     store x !! latest_path prefix = Some (FCheckpoint state) ∧
     store x !! best_path prefix =
       (if is_best then store x !! latest_path prefix else fs !! best_path prefix)) ∧
  (∀ (C : Mnist.Collaborators) tl loader epoch w fs w',
     outcome (Mnist.epoch_body tl loader epoch w fs) = Ok w' →
     let x := Mnist.epoch_body tl loader epoch w fs in
     let args := Mnist.w_args w in
     let c := mnist_record args epoch (Mnist.w_model w', Mnist.w_optimizer w')
                (Mnist.w_best_acc1 w') in
     let is_best := py_gt (val_result args (Mnist.w_model w') loader)
                      (Mnist.w_best_acc1 w) in
     records_at (latest_path (mnist_prefix args)) (trace x) = [c] ∧
     records_at (best_path (mnist_prefix args)) (trace x) = (if is_best then [c] else []) ∧
     store x = store (Mnist.save_checkpoint c is_best (mnist_prefix args) fs)).
Proof.
  split.
  - intros state is_best prefix fs x. subst x.
    rewrite save_checkpoint_store_latest, save_checkpoint_store_best.
    unfold records_at. rewrite save_checkpoint_records.
    rewrite records_at_saved_latest, records_at_saved_best.
    rewrite save_checkpoint_run. msimpl.
    repeat split; try done. apply latest_best_distinct.
  - intros C tl loader epoch w fs w' Hw' x args c is_best.
    destruct (mnist_epoch_body_completed tl loader epoch w fs w' Hw')
      as (_ & Hrec & Hstore).
    subst x. unfold records_at. rewrite Hrec.
    by rewrite records_at_saved_latest, records_at_saved_best.
Qed.

Lemma C7_witness :
  ∃ w', outcome (Mnist.epoch_body (H:=Scenario.lenet_70_68) [Scenario.b1]
                   Scenario.loader2 0 Scenario.mnist_worker ∅) = Ok w'
        ∧ records_at (latest_path (mnist_prefix Scenario.mnist_args))
            (trace (Mnist.epoch_body (H:=Scenario.lenet_70_68) [Scenario.b1]
                      Scenario.loader2 0 Scenario.mnist_worker ∅))
          = [mnist_record Scenario.mnist_args 0 (Mnist.w_model w', Mnist.w_optimizer w')
               (Mnist.w_best_acc1 w')].
Proof.
  eexists. split; [vm_compute; reflexivity|].
  eapply (proj2 C7_latest_always_best_iff_is_best Scenario.lenet_70_68
            [Scenario.b1] Scenario.loader2 0 Scenario.mnist_worker ∅).
  vm_compute. reflexivity.
Defined.

Lemma torch_load_checkpoint p c fs :
  fs !! p = Some (FCheckpoint c) →
  torch_load p fs = (Ok (FCheckpoint c), fs, [ReadFile p]).
Proof. intros Hp. unfold torch_load, bind, get_fs. by rewrite Hp. Qed.

Lemma latest_path_nonempty prefix : latest_path prefix ≠ "".
Proof. unfold latest_path. by destruct prefix. Qed.

Section mnist_resume.
Context `{Mnist.Collaborators}.

Lemma resume_checkpoint_valid w fs c :
  let args := Mnist.w_args w in
  Mnist.resume args ≠ "" →
  fs !! Mnist.resume args = Some (FCheckpoint c) →
  Mnist.quant_bias_scale args = false →
  Mnist.resume_checkpoint w fs =
  (Ok (Mnist.Worker (Mnist.set_start_epoch (ck_epoch c) args) (ck_state_dict c)
         (ck_optimizer c) (ck_best_acc1 c)),
   <[Mnist.arch args +:+ ".pth" := FStateDict (ck_state_dict c)]> fs,
   [Print (MsgLoadingCheckpoint (Mnist.resume args)); ReadFile (Mnist.resume args);
    Print (MsgLoadedCheckpoint (Mnist.resume args) (ck_epoch c) (ck_best_acc1 c));
    Print (MsgSaveOnlyWeights (Mnist.arch args));
    OpenWrite (Mnist.arch args +:+ ".pth");
    CloseWrite (Mnist.arch args +:+ ".pth") (FStateDict (ck_state_dict c))]).
Proof.
  intros args Hne Hfile Hq. unfold Mnist.resume_checkpoint. fold args.
  rewrite bool_decide_eq_false_2 by done.
  unfold bind at 1, isfile, bind at 1, get_fs, ret. rewrite Hfile.
  rewrite bool_decide_eq_true_2 by done.
  unfold bind at 1, emit at 1. unfold bind at 1. rewrite (torch_load_checkpoint _ c) by done.
  unfold bind at 1, get_state_dict, ret. rewrite Hq.
  unfold bind at 1, as_checkpoint, ret.
  unfold bind at 1, emit at 1. unfold bind at 1, emit at 1.
  unfold bind at 1. by rewrite torch_save_run.
Qed.

Lemma resume_checkpoint_missing w fs :
  let args := Mnist.w_args w in
  Mnist.resume args ≠ "" →
  fs !! Mnist.resume args = None →
  Mnist.resume_checkpoint w fs = (Ok w, fs, [Print (MsgNoCheckpoint (Mnist.resume args))]).
Proof.
  intros args Hne Hfile. unfold Mnist.resume_checkpoint. fold args.
  rewrite bool_decide_eq_false_2 by done.
  unfold bind at 1, isfile, bind at 1, get_fs, ret. rewrite Hfile.
  rewrite bool_decide_eq_false_2 by (by intros [??]).
  reflexivity.
Qed.

End mnist_resume.

(** C2.  Loading the file a save has written returns the dictionary that
    was saved: its epoch, its best metric and both state blobs.  At the
    end of an epoch of the MNIST loop that dictionary holds the number of
    completed epochs, the tracked best metric and the current parameters
    and optimizer state; resuming from the file puts exactly these values
    back into the worker. *)
Theorem C2_checkpoint_round_trip :
  (∀ state is_best prefix fs,
     let fs' := store (Mnist.save_checkpoint state is_best prefix fs) in
     torch_load (latest_path prefix) fs' =
     (Ok (FCheckpoint state), fs', [ReadFile (latest_path prefix)])) ∧
  (∀ (C : Mnist.Collaborators) tl loader epoch w fs w',
     outcome (Mnist.epoch_body tl loader epoch w fs) = Ok w' →
     outcome (torch_load (latest_path (mnist_prefix (Mnist.w_args w)))
                (store (Mnist.epoch_body tl loader epoch w fs))) =
     Ok (FCheckpoint
           {| ck_epoch := epoch + 1; ck_arch := Mnist.arch (Mnist.w_args w);
              ck_state_dict := Mnist.w_model w';
              ck_best_acc1 := Mnist.w_best_acc1 w';
              ck_optimizer := Mnist.w_optimizer w' |})) ∧
  (∀ (C : Mnist.Collaborators) state is_best prefix fs w,
     Mnist.resume (Mnist.w_args w) = latest_path prefix →
     Mnist.quant_bias_scale (Mnist.w_args w) = false →
     outcome (Mnist.resume_checkpoint w
                (store (Mnist.save_checkpoint state is_best prefix fs))) =
     Ok (Mnist.Worker (Mnist.set_start_epoch (ck_epoch state) (Mnist.w_args w))
           (ck_state_dict state) (ck_optimizer state) (ck_best_acc1 state))).
Proof.
  repeat split.
  - intros state is_best prefix fs fs'. apply torch_load_checkpoint.
    apply save_checkpoint_store_latest.
  - intros C tl loader epoch w fs w' Hw'.
    destruct (mnist_epoch_body_completed tl loader epoch w fs w' Hw')
      as (_ & _ & ->).
    rewrite (torch_load_checkpoint _ _ _ (save_checkpoint_store_latest _ _ _ _)).
    reflexivity.
  - intros C state is_best prefix fs w Hres Hq.
    rewrite (resume_checkpoint_valid w _ state); [done| | |done].
    + rewrite Hres. apply latest_path_nonempty.
    + rewrite Hres. apply save_checkpoint_store_latest.
Qed.

Lemma C2_witness :
  ∃ w', outcome (Mnist.epoch_body (H:=Scenario.lenet_70_68) [Scenario.b1]
                   Scenario.loader2 0 Scenario.mnist_worker ∅) = Ok w'
        ∧ outcome (torch_load (latest_path (mnist_prefix Scenario.mnist_args))
                     (store (Mnist.epoch_body (H:=Scenario.lenet_70_68) [Scenario.b1]
                               Scenario.loader2 0 Scenario.mnist_worker ∅))) =
          Ok (FCheckpoint
                {| ck_epoch := 0 + 1; ck_arch := "lenet";
                   ck_state_dict := Mnist.w_model w';
                   ck_best_acc1 := Mnist.w_best_acc1 w';
                   ck_optimizer := Mnist.w_optimizer w' |}).
Proof.
  eexists. split; [vm_compute; reflexivity|].
  eapply (proj1 (proj2 C2_checkpoint_round_trip) Scenario.lenet_70_68
            [Scenario.b1] Scenario.loader2 0 Scenario.mnist_worker ∅).
  vm_compute. reflexivity.
Defined.

(** The file store a run ends with is the replay of its file events. *)
Lemma save_checkpoint_replay state is_best prefix fs :
  replay (trace (Mnist.save_checkpoint state is_best prefix fs)) fs
  = store (Mnist.save_checkpoint state is_best prefix fs).
Proof.
  rewrite save_checkpoint_run. msimpl. unfold replay.
  destruct is_best; simpl; by rewrite !insert_insert_eq.
Qed.

(** C5 (as the code has it).  [save_checkpoint] opens the final names
    themselves for writing -- the latest file, and the best file for the
    copy -- and no other path; a crash after a file is opened and before
    its content is complete leaves an incomplete file under that final
    name. *)
Theorem C5_writes_go_to_final_names :
  ∀ state is_best prefix fs,
    let x := Mnist.save_checkpoint state is_best prefix fs in
    Forall (λ e, ∀ p, e = OpenWrite p → p = latest_path prefix ∨ p = best_path prefix)
      (trace x) ∧
    replay (trace x) fs = store x ∧
    replay (take 1 (trace x)) fs !! latest_path prefix = Some FPartial ∧
    (if is_best
     then replay (take 4 (trace x)) fs !! best_path prefix = Some FPartial
     else True).
Proof.
  intros state is_best prefix fs x. subst x.
  split; [|split; [apply save_checkpoint_replay|]].
  - rewrite save_checkpoint_run. msimpl.
    destruct is_best; simpl;
      repeat (apply Forall_cons_2; [intros p [=]; subst; auto|]); apply Forall_nil_2.
  - rewrite save_checkpoint_run. msimpl. unfold replay.
    destruct is_best; simpl; rewrite ?lookup_insert_eq; done.
Qed.

(** C5 as stated fails: overwriting the latest checkpoint of a run, a
    crash right after the file is opened leaves neither the old nor the
    new dictionary under the final name. *)
Lemma C5_counterexample :
  ¬ crash_atomic (Mnist.save_checkpoint Scenario.ck_new false "run_")
      {[ "run_checkpoint.pth.tar" := FCheckpoint Scenario.ck_old ]}
      (latest_path "run_").
Proof.
  intros Hatomic. destruct (Hatomic 1%nat) as [Heq|Heq];
    vm_compute in Heq; discriminate Heq.
Qed.

(** ** C4: an epoch is best exactly when it beats the tracked metric *)

Lemma py_max_decide (a b : Qc) :
  py_max a b = if bool_decide (b < a)%Qc then a else b.
Proof.
  destruct (py_max_cases a b) as [[Hgt ->]|[Hgt ->]];
    unfold py_gt in Hgt; by rewrite Hgt.
Qed.

Lemma imagenet_epoch_body_records `{Imagenet.Env} writer epoch w fs :
  let args := Imagenet.w_args w in
  let st := Imagenet.train_epoch epoch (Imagenet.w_model w, Imagenet.w_optimizer w) in
  let acc1 := (Imagenet.evaluate_model st.1).1 in
  records (trace (Imagenet.epoch_body writer epoch w fs)) =
  if writer
  then saved_records (imagenet_prefix args)
         (imagenet_record args epoch st (py_max acc1 (Imagenet.w_best_acc1 w)))
         (py_gt acc1 (Imagenet.w_best_acc1 w))
  else [].
Proof.
  intros args st acc1. rewrite imagenet_epoch_body_run. msimpl.
  unfold imagenet_epoch_events, imagenet_scalar_events.
  rewrite !records_app.
  destruct (Imagenet.distributed (Imagenet.w_args w)), writer; simpl; try done.
  all: rewrite records_app, save_checkpoint_records; by destruct (_ && _).
Qed.

(** C4.  [is_best] is the strict comparison of the epoch's validation
    accuracy with the tracked best metric, so a tie is not best.  In both
    epoch loops the best file is written in an epoch exactly when that
    comparison holds, and the tracked metric becomes the accuracy then and
    is unchanged otherwise.  Validations of 70 and then 68 from a fresh
    worker give [is_best] true and then false, and the best metric stays
    at 70. *)
Theorem C4_is_best_iff_strictly_greater :
  (∀ acc best : Qc, py_gt acc best = true ↔ (best < acc)%Qc) ∧
  (∀ best : Qc, py_gt best best = false ∧ py_max best best = best) ∧
  (∀ (C : Mnist.Collaborators) tl loader epoch w fs w',
     outcome (Mnist.epoch_body tl loader epoch w fs) = Ok w' →
     let args := Mnist.w_args w in
     let acc1 := val_result args (Mnist.w_model w') loader in
     let c := mnist_record args epoch (Mnist.w_model w', Mnist.w_optimizer w')
                (Mnist.w_best_acc1 w') in
     records_at (best_path (mnist_prefix args))
       (trace (Mnist.epoch_body tl loader epoch w fs)) =
       (if bool_decide (Mnist.w_best_acc1 w < acc1)%Qc then [c] else []) ∧
     Mnist.w_best_acc1 w' =
       (if bool_decide (Mnist.w_best_acc1 w < acc1)%Qc then acc1
        else Mnist.w_best_acc1 w)) ∧
  (∀ (E : Imagenet.Env) epoch w fs,
     let args := Imagenet.w_args w in
     let st := Imagenet.train_epoch epoch (Imagenet.w_model w, Imagenet.w_optimizer w) in
     let acc1 := (Imagenet.evaluate_model st.1).1 in
     ∃ w', outcome (Imagenet.epoch_body true epoch w fs) = Ok w' ∧
       records_at (best_path (imagenet_prefix args))
         (trace (Imagenet.epoch_body true epoch w fs)) =
         (if bool_decide (Imagenet.w_best_acc1 w < acc1)%Qc
          then [imagenet_record args epoch st (Imagenet.w_best_acc1 w')] else []) ∧
       Imagenet.w_best_acc1 w' =
         (if bool_decide (Imagenet.w_best_acc1 w < acc1)%Qc then acc1
          else Imagenet.w_best_acc1 w)) ∧
  (py_gt (Scenario.q 70) (Scenario.q 0) = true ∧
   py_max (Scenario.q 70) (Scenario.q 0) = Scenario.q 70 ∧
   py_gt (Scenario.q 68) (Scenario.q 70) = false ∧
   py_max (Scenario.q 68) (Scenario.q 70) = Scenario.q 70) ∧
  (let x := for_each (Mnist.epoch_body (H:=Scenario.lenet_70_68) [Scenario.b1]
                        Scenario.loader2) [0; 1] Scenario.mnist_worker ∅ in
   bests (trace x) = [Scenario.q 70; Scenario.q 70; Scenario.q 70] ∧
   ck_epoch <$> records_at (best_path (mnist_prefix Scenario.mnist_args)) (trace x) = [1] ∧
   ck_epoch <$> records_at (latest_path (mnist_prefix Scenario.mnist_args)) (trace x)
     = [1; 2]).
Proof.
  split; [exact py_gt_spec|]. split.
  { intros best. split.
    - apply py_gt_false, Qcle_refl.
    - unfold py_max. by destruct (py_gt best best). }
  split.
  { intros C tl loader epoch w fs w' Hw' args acc1 c.
    destruct (mnist_epoch_body_completed tl loader epoch w fs w' Hw')
      as (Hw & Hrec & _).
    unfold records_at. rewrite Hrec, records_at_saved_best. split; [done|].
    pose proof (f_equal Mnist.w_best_acc1 Hw) as Hb. simpl in Hb.
    exact (eq_trans Hb (py_max_decide _ _)). }
  split.
  { intros E epoch w fs args st acc1. eexists. split.
    { rewrite imagenet_epoch_body_run. reflexivity. }
    unfold records_at. rewrite imagenet_epoch_body_records, records_at_saved_best.
    simpl. fold args st acc1. by rewrite py_max_decide. }
  split.
  { repeat split; apply (bool_decide_unpack _); by vm_compute. }
  repeat split; apply (bool_decide_unpack _); by vm_compute.
Qed.

Lemma C4_witness :
  ∃ w', outcome (Mnist.epoch_body (H:=Scenario.lenet_70_68) [Scenario.b1]
                   Scenario.loader2 0 Scenario.mnist_worker ∅) = Ok w'
        ∧ Mnist.w_best_acc1 w' =
          (if bool_decide
                (Mnist.w_best_acc1 Scenario.mnist_worker <
                 val_result (H:=Scenario.lenet_70_68) Scenario.mnist_args
                   (Mnist.w_model w') Scenario.loader2)%Qc
           then val_result (H:=Scenario.lenet_70_68) Scenario.mnist_args
                  (Mnist.w_model w') Scenario.loader2
           else Mnist.w_best_acc1 Scenario.mnist_worker).
Proof.
  eexists. split; [vm_compute; reflexivity|].
  eapply (proj1 (proj2 (proj2 C4_is_best_iff_strictly_greater))
            Scenario.lenet_70_68 [Scenario.b1] Scenario.loader2 0
            Scenario.mnist_worker ∅).
  vm_compute. reflexivity.
Defined.

(** ** C8: the early-stopped validation pass *)

Lemma Qc_of_Z_pos_ne_0 (p : positive) : Qc_of_Z (Z.pos p) ≠ Qc_of_Z 0.
Proof. intros Heq. apply (f_equal this) in Heq. discriminate Heq. Qed.

Lemma first_batch_mean `{Mnist.Collaborators} model (b : batch) :
  meter_mean (top1_meter model meter0 [b]) = Mnist.top1_acc model b.
Proof.
  unfold top1_meter, meter_mean, meter_add, meter0. simpl.
  replace (Qc_of_Z 0) with 0%Qc by (by apply Qc_is_canon).
  rewrite Qcplus_0_l. apply Qcdiv_mult_l.
  replace 0%Qc with (Qc_of_Z 0) by (by apply Qc_is_canon).
  apply Qc_of_Z_pos_ne_0.
Qed.

Lemma val_result_early_stop `{Mnist.Collaborators} args model loader :
  Mnist.extract_inner_data args = true →
  val_result args model loader = Mnist.top1_acc model (Mnist.first_batch loader).
Proof.
  intros Hx. unfold val_result, evaluated_batches. rewrite Hx. apply first_batch_mean.
Qed.

(** C8 (as the code has it).  In early-stop mode the validation pass runs
    the model on exactly the first batch, prints the early-stop notice
    and returns the accuracy of that batch as a plain number; the epoch
    loop takes it for the validation accuracy of the epoch, so it enters
    the best-metric update and the checkpoint. *)
Theorem C8_early_stop_first_batch_only :
  (∀ (C : Mnist.Collaborators) loader model args fs,
     Mnist.extract_inner_data args = true →
     let acc := Mnist.top1_acc model (Mnist.first_batch loader) in
     Mnist.validate loader model args fs =
     (Ok acc, fs,
      [EnterValidate; Forward (Mnist.first_batch loader); Print MsgEarlyStop;
       Print (MsgAcc1 acc)])) ∧
  (∀ (C : Mnist.Collaborators) tl loader epoch w fs w',
     Mnist.extract_inner_data (Mnist.w_args w) = true →
     outcome (Mnist.epoch_body tl loader epoch w fs) = Ok w' →
     let acc := Mnist.top1_acc (Mnist.w_model w') (Mnist.first_batch loader) in
     Mnist.w_best_acc1 w' = py_max acc (Mnist.w_best_acc1 w) ∧
     (ck_best_acc1 <$> records_at (latest_path (mnist_prefix (Mnist.w_args w)))
                         (trace (Mnist.epoch_body tl loader epoch w fs)))
       = [py_max acc (Mnist.w_best_acc1 w)]).
Proof.
  split.
  - intros C loader model args fs Hx acc.
    rewrite validate_early_stop by done. by rewrite val_result_early_stop.
  - intros C tl loader epoch w fs w' Hx Hw' acc.
    destruct (mnist_epoch_body_completed tl loader epoch w fs w' Hw')
      as (Hw & Hrec & _).
    pose proof (f_equal Mnist.w_best_acc1 Hw) as Hb. simpl in Hb.
    rewrite val_result_early_stop in Hb by done. split; [done|].
    unfold records_at. rewrite Hrec, records_at_saved_latest. simpl. by rewrite Hb.
Qed.

Lemma C8_witness :
  Mnist.validate (H:=Scenario.lenet_first_batch) Scenario.loader2 []
    Scenario.mnist_args_extract ∅ =
  (Ok (Mnist.top1_acc (Collaborators:=Scenario.lenet_first_batch) [] Scenario.b0), ∅,
   [EnterValidate; Forward Scenario.b0; Print MsgEarlyStop;
    Print (MsgAcc1 (Mnist.top1_acc (Collaborators:=Scenario.lenet_first_batch) []
                      Scenario.b0))]).
Proof.
  apply (proj1 C8_early_stop_first_batch_only Scenario.lenet_first_batch
           Scenario.loader2 [] Scenario.mnist_args_extract ∅).
  reflexivity.
Defined.

(** C8 as stated fails: the number an early-stopped pass returns carries
    no mark.  On a two-batch loader it is 100 where the complete pass
    gives 50, it equals what a complete pass over a one-batch loader
    returns, and the epoch loop stores it as the best metric in both
    checkpoint files. *)
Lemma C8_counterexample :
  ¬ early_stop_flagged (H:=Scenario.lenet_first_batch) ∧
  val_result (H:=Scenario.lenet_first_batch) Scenario.mnist_args_extract []
    Scenario.loader2 = Scenario.q 100 ∧
  val_result (H:=Scenario.lenet_first_batch) Scenario.mnist_args []
    Scenario.loader2 = Scenario.q 50 ∧
  bests (trace (Mnist.epoch_body (H:=Scenario.lenet_first_batch) [Scenario.b1]
                  Scenario.loader2 0
                  (Mnist.Worker Scenario.mnist_args_extract [] [] (Scenario.q 0)) ∅))
  = [Scenario.q 100; Scenario.q 100].
Proof.
  split.
  - intros Hflag.
    apply (Hflag Scenario.mnist_args_extract Scenario.loader2 [] ∅ eq_refl
             Scenario.mnist_args Scenario.loader1 ∅ eq_refl).
    apply (bool_decide_unpack _). by vm_compute.
  - repeat split; apply (bool_decide_unpack _); by vm_compute.
Qed.

(** ** Store and results of a computation *)

Lemma reads_only_ret {A} (a : A) : reads_only (ret a).
Proof. done. Qed.
Lemma reads_only_raise {A} e : reads_only (raise (A:=A) e).
Proof. done. Qed.
Lemma reads_only_emit e : reads_only (emit e).
Proof. done. Qed.
Lemma reads_only_get_fs : reads_only get_fs.
Proof. done. Qed.
Lemma reads_only_isfile p : reads_only (isfile p).
Proof. done. Qed.
Lemma reads_only_bind {A B} (m : M A) (k : A → M B) :
  reads_only m → (∀ a, reads_only (k a)) → reads_only (bind m k).
Proof.
  intros Hm Hk fs. rewrite store_bind, Hm. destruct (outcome (m fs)); [apply Hk|done].
Qed.
Lemma reads_only_when c m : reads_only m → reads_only (when c m).
Proof. by destruct c. Qed.
Lemma reads_only_for_each {A S} (body : A → S → M S) l s :
  (∀ a s, reads_only (body a s)) → reads_only (for_each body l s).
Proof.
  intros Hbody. revert s. induction l as [|a l IH]; intros s; simpl; [done|].
  apply reads_only_bind; [apply Hbody|]. intros s'. apply IH.
Qed.

Ltac reads_only_tac :=
  repeat first
    [ apply reads_only_ret | apply reads_only_raise | apply reads_only_emit
    | apply reads_only_get_fs | apply reads_only_isfile
    | apply reads_only_when
    | apply reads_only_for_each; intros ??
    | apply reads_only_bind; [|intros ?]
    | match goal with
      | |- reads_only (if ?c then _ else _) => destruct c
      | |- reads_only (match ?c with _ => _ end) => destruct c
      end ].

Lemma returns_ret {A} (Q : A → Prop) a : Q a → returns Q (ret a).
Proof. by intros Ha fs a' [= <-]. Qed.
Lemma returns_raise {A} (Q : A → Prop) e : returns Q (raise e).
Proof. by intros fs a. Qed.
Lemma returns_bind_with {A B} (Q1 : A → Prop) (Q : B → Prop) (m : M A) (k : A → M B) :
  returns Q1 m → (∀ a, Q1 a → returns Q (k a)) → returns Q (bind m k).
Proof.
  intros Hm Hk fs b. rewrite outcome_bind.
  destruct (outcome (m fs)) as [a|e] eqn:Ha; [|done]. by apply Hk, (Hm fs).
Qed.
Lemma returns_bind {A B} (Q : B → Prop) (m : M A) (k : A → M B) :
  (∀ a, returns Q (k a)) → returns Q (bind m k).
Proof.
  intros Hk. apply (returns_bind_with (λ _, True)); [done|]. intros a _. apply Hk.
Qed.

Ltac returns_tac :=
  repeat first
    [ apply returns_raise
    | apply returns_ret
    | apply returns_bind; intros ?
    | match goal with
      | |- returns _ (if ?c then _ else _) => destruct c
      | |- returns _ (match ?c with _ => _ end) => destruct c
      end ].

(** ** C10: an ImageNet worker without a metric writer *)

Section imagenet_no_writer.
Context `{Imagenet.Env}.

Lemma imagenet_loop_outcome writer l w fs :
  outcome (for_each (Imagenet.epoch_body writer) l w fs) = Ok (foldl imagenet_step w l).
Proof.
  revert w fs. induction l as [|e l IH]; intros w fs; simpl; [done|].
  mproj. rewrite imagenet_epoch_body_run. msimpl. apply IH.
Qed.

Lemma imagenet_loop_no_writer l w fs :
  for_each (Imagenet.epoch_body false) l w fs =
  (Ok (foldl imagenet_step w l), fs,
   concat (imagenet_epoch_events (Imagenet.w_args w) <$> l)).
Proof.
  revert w fs. induction l as [|e l IH]; intros w fs; simpl; [done|].
  unfold bind. rewrite imagenet_epoch_body_run. rewrite IH. simpl.
  by rewrite app_nil_r.
Qed.

Lemma imagenet_epoch_events_trained args l :
  trained_epochs (concat (imagenet_epoch_events args <$> l)) = l.
Proof.
  induction l as [|e l IH]; csimpl; [done|].
  rewrite trained_epochs_app, IH. unfold imagenet_epoch_events.
  by destruct (Imagenet.distributed args).
Qed.

Lemma imagenet_epoch_events_validations args l :
  count is_validate (concat (imagenet_epoch_events args <$> l)) = length l.
Proof.
  induction l as [|e l IH]; csimpl; [done|].
  rewrite count_app, IH. unfold imagenet_epoch_events.
  by destruct (Imagenet.distributed args).
Qed.

Lemma imagenet_epoch_events_no_write args l :
  Forall (λ e, is_file_write e = false) (concat (imagenet_epoch_events args <$> l)).
Proof.
  induction l as [|e l IH]; csimpl; [constructor|].
  apply Forall_app; split; [|done]. unfold imagenet_epoch_events.
  destruct (Imagenet.distributed args); by repeat constructor.
Qed.

Lemma imagenet_evaluate_or_train_no_writer w fs :
  let args := Imagenet.w_args w in
  let l := py_range (Imagenet.start_epoch args) (Imagenet.epochs args) in
  Imagenet.evaluate_or_train false w fs =
  if Imagenet.evaluate args then (Ok w, fs, [EnterValidate])
  else (Ok (foldl imagenet_step w l), fs,
        replicate (Z.to_nat (Imagenet.start_epoch args)) SchedulerStep ++
        concat (imagenet_epoch_events args <$> l)).
Proof.
  intros args l. unfold Imagenet.evaluate_or_train. fold args.
  destruct (Imagenet.evaluate args); [done|].
  unfold bind at 1. rewrite skip_ahead_run.
  unfold bind at 1. fold l. rewrite imagenet_loop_no_writer. simpl.
  by rewrite app_nil_r.
Qed.

Lemma replicate_no_write n :
  Forall (λ e, is_file_write e = false) (replicate n SchedulerStep).
Proof. induction n; by constructor. Qed.

Lemma imagenet_prepare_no_write env_rank gpu0 ngpus args best :
  emits (λ e, is_file_write e = false) (Imagenet.prepare env_rank gpu0 ngpus args best).
Proof.
  unfold Imagenet.prepare, Imagenet.join_group, Imagenet.create_model.
  emits_tac.
Qed.

Lemma imagenet_prepare_store env_rank gpu0 ngpus args best :
  reads_only (Imagenet.prepare env_rank gpu0 ngpus args best).
Proof.
  unfold Imagenet.prepare, Imagenet.join_group, Imagenet.create_model.
  reads_only_tac.
Qed.

Lemma imagenet_prepare_writer env_rank gpu0 ngpus args best :
  returns (λ o, ∀ writer w, o = Some (writer, w) →
                ∃ a, writer = Imagenet.has_writer a ngpus)
    (Imagenet.prepare env_rank gpu0 ngpus args best).
Proof.
  unfold Imagenet.prepare, Imagenet.join_group, Imagenet.create_model.
  returns_tac; intros ?? [=]; subst; by eexists.
Qed.

End imagenet_no_writer.

Lemma imagenet_evaluate_or_train_outcome `{Imagenet.Env} writer w fs :
  outcome (Imagenet.evaluate_or_train writer w fs) =
  Ok (if Imagenet.evaluate (Imagenet.w_args w) then w
      else foldl imagenet_step w
             (py_range (Imagenet.start_epoch (Imagenet.w_args w))
                (Imagenet.epochs (Imagenet.w_args w)))).
Proof.
  unfold Imagenet.evaluate_or_train. destruct (Imagenet.evaluate _); [done|].
  mproj. rewrite skip_ahead_run. msimpl. rewrite imagenet_loop_outcome.
  by destruct writer.
Qed.

(** C10.  When [get_summary_writer] returns [None], a run of the ImageNet
    worker writes no file and so no checkpoint, latest or best; its epoch
    loop still trains and validates once per epoch and ends in the same
    state, best metric included, as the loop of a worker with a writer. *)
Theorem C10_no_writer_no_checkpoint :
  (∀ (E : Imagenet.Env) env_rank gpu0 ngpus args best0 fs,
     (∀ a, Imagenet.has_writer a ngpus = false) →
     let x := Imagenet.main_worker env_rank gpu0 ngpus args best0 fs in
     Forall (λ e, is_file_write e = false) (trace x) ∧
     records (trace x) = [] ∧
     store x = fs) ∧
  (∀ (E : Imagenet.Env) w fs,
     Imagenet.evaluate (Imagenet.w_args w) = false →
     let l := py_range (Imagenet.start_epoch (Imagenet.w_args w))
                (Imagenet.epochs (Imagenet.w_args w)) in
     let x := Imagenet.evaluate_or_train false w fs in
     store x = fs ∧
     trained_epochs (trace x) = l ∧
     count is_validate (trace x) = length l ∧
     outcome x = Ok (foldl imagenet_step w l) ∧
     outcome x = outcome (Imagenet.evaluate_or_train true w fs)).
Proof.
  split.
  - intros E env_rank gpu0 ngpus args best0 fs Hnone x.
    assert (Forall (λ e, is_file_write e = false) (trace x) ∧ store x = fs) as [Hw Hs].
    { subst x. rewrite imagenet_main_worker_run. cbv zeta.
      pose proof (imagenet_prepare_no_write env_rank gpu0 ngpus args best0 fs) as Hpre.
      pose proof (imagenet_prepare_store env_rank gpu0 ngpus args best0 fs) as Hst.
      pose proof (imagenet_prepare_writer env_rank gpu0 ngpus args best0 fs) as Hwr.
      destruct (outcome (Imagenet.prepare env_rank gpu0 ngpus args best0 fs))
        as [[[writer w]|]|e]; msimpl; [|done..].
      destruct (Hwr _ eq_refl writer w eq_refl) as [a ->]. rewrite Hnone.
      rewrite imagenet_evaluate_or_train_no_writer.
      destruct (Imagenet.evaluate (Imagenet.w_args w)); msimpl.
      - split; [|done]. apply Forall_app; split; [done|]. by repeat constructor.
      - split; [|done]. apply Forall_app; split; [done|].
        apply Forall_app; split;
          [apply replicate_no_write|apply imagenet_epoch_events_no_write]. }
    repeat split; [done| |done]. by apply no_write_records.
  - intros E w fs Hev l x. subst x.
    rewrite !imagenet_evaluate_or_train_outcome.
    rewrite imagenet_evaluate_or_train_no_writer. rewrite Hev. msimpl. fold l.
    split; [done|]. split; [|split; [|done]].
    + rewrite trained_epochs_app, imagenet_epoch_events_trained.
      assert (∀ n, trained_epochs (replicate n SchedulerStep) = []) as ->; [|done].
      intros n. by induction n.
    + rewrite count_app, imagenet_epoch_events_validations.
      assert (∀ n, count is_validate (replicate n SchedulerStep) = 0%nat) as ->; [|done].
      intros n. by induction n.
Qed.

Lemma C10_witness :
  let x := Imagenet.main_worker (H:=Scenario.resnet_env 0 false) None None 1
             Scenario.imagenet_args (Scenario.q 0) ∅ in
  Forall (λ e, is_file_write e = false) (trace x) ∧ records (trace x) = [] ∧ store x = ∅.
Proof.
  apply (proj1 C10_no_writer_no_checkpoint (Scenario.resnet_env 0 false)).
  intros a. reflexivity.
Defined.

(** ** C1: where a resumed run starts *)

Lemma py_range_cons lo hi : lo < hi → py_range lo hi = lo :: py_range (lo + 1) hi.
Proof.
  intros Hlt. unfold py_range.
  replace (Z.to_nat (hi - lo)) with (S (Z.to_nat (hi - (lo + 1)))) by lia.
  csimpl. f_equal; [lia|]. rewrite <-fmap_S_seq, <-list_fmap_compose.
  apply list_fmap_ext. intros _ i _. simpl. lia.
Qed.

Lemma count_replicate_lr n : count is_lr_step (replicate n SchedulerStep) = n.
Proof. induction n as [|n IH]; [done|]. simpl. by rewrite count_cons, IH. Qed.

Lemma replicate_not (stop : event → bool) n :
  stop SchedulerStep = false → Forall (λ e, stop e = false) (replicate n SchedulerStep).
Proof. intros Hs. induction n; by constructor. Qed.

Section imagenet_resume.
Context `{Imagenet.Env}.




Lemma imagenet_evaluate_or_train_trace writer w fs :
  let args := Imagenet.w_args w in
  Imagenet.evaluate args = false →
  trace (Imagenet.evaluate_or_train writer w fs) =
  replicate (Z.to_nat (Imagenet.start_epoch args)) SchedulerStep ++
  trace (for_each (Imagenet.epoch_body writer)
           (py_range (Imagenet.start_epoch args) (Imagenet.epochs args)) w fs) ++
  (if writer then [WriterClose] else []).
Proof.
  intros args Hev. unfold Imagenet.evaluate_or_train. fold args. rewrite Hev.
  mproj. rewrite skip_ahead_run. msimpl. rewrite imagenet_loop_outcome.
  by destruct writer.
Qed.



End imagenet_resume.

Section mnist_prepare_runs.
Context `{Mnist.Collaborators}.

Lemma create_model_known args fs :
  Mnist.zoo_has (Mnist.arch args) = true →
  Mnist.create_model args fs =
  (Ok (Some (Mnist.model_init (Mnist.arch args) (Mnist.pretrained args)
               (Mnist.qw args) (Mnist.qa args))), fs,
   [Print (if Mnist.pretrained args then MsgUsingPretrained (Mnist.arch args)
           else MsgCreatingModel (Mnist.arch args))]).
Proof. intros Hzoo. unfold Mnist.create_model. unfold bind, emit. by rewrite Hzoo. Qed.

Lemma select_device_ok args fs :
  is_Some (Mnist.gpu args) ∨ is_Some (Mnist.gpus args) →
  outcome (Mnist.select_device args fs) = Ok tt ∧ store (Mnist.select_device args fs) = fs.
Proof.
  unfold Mnist.select_device.
  intros [[g Hg]|[g Hg]]; rewrite Hg; [destruct (Mnist.gpus args)|destruct (Mnist.gpu args)];
    done.
Qed.

Lemma rewrite_model_run args model fs :
  outcome (Mnist.rewrite_model args model fs) = Ok (rewritten args model)
  ∧ store (Mnist.rewrite_model args model fs) = fs.
Proof.
  unfold Mnist.rewrite_model, rewritten.
  by destruct (Mnist.bn_fusion args), (Mnist.quant_bias_scale args).
Qed.

Lemma resume_after_none args model fs :
  Mnist.resume_after args = "" →
  Mnist.resume_after_rewrite args model fs = (Ok model, fs, []).
Proof. intros Hr. unfold Mnist.resume_after_rewrite. by rewrite Hr. Qed.

Lemma extract_inner_ok args model fs :
  outcome (Mnist.extract_inner args model fs) = Ok tt.
Proof.
  unfold Mnist.extract_inner. destruct (Mnist.extract_inner_data args); [|done].
  msimpl. mstep.
  generalize (Mnist.state_dict_keys model). intros keys. revert fs.
  induction keys as [|k keys IH]; intros fs; [done|].
  simpl. mproj. rewrite write_file_run. msimpl. apply IH.
Qed.

Lemma mnist_prepare_outcome gpu0 args best tl fs w' :
  let w0 := Mnist.Worker (Mnist.set_gpu gpu0 args)
              (Mnist.model_init (Mnist.arch args) (Mnist.pretrained args)
                 (Mnist.qw args) (Mnist.qa args))
              Mnist.fresh_optimizer best in
  Mnist.gen_map args = false →
  Mnist.zoo_has (Mnist.arch args) = true →
  is_Some gpu0 ∨ is_Some (Mnist.gpus args) →
  outcome (Mnist.resume_checkpoint w0 fs) = Ok w' →
  Mnist.resume_after (Mnist.w_args w') = "" →
  outcome (Mnist.prepare gpu0 args best tl fs) =
  Ok (Some (Mnist.Worker
              (Mnist.set_batch_num (Z.of_nat (length tl)) (Mnist.w_args w'))
              (rewritten (Mnist.w_args w') (Mnist.w_model w'))
              (Mnist.w_optimizer w') (Mnist.w_best_acc1 w'))).
Proof.
  intros w0 Hgen Hzoo Hdev Hres Hafter. unfold Mnist.prepare.
  cbn [Mnist.gen_map Mnist.set_gpu Mnist.gpu]. rewrite Hgen.
  assert (∀ fs1, Mnist.create_model (Mnist.set_gpu gpu0 args) fs1 =
                 (Ok (Some (Mnist.w_model w0)), fs1,
                  [Print (if Mnist.pretrained args then MsgUsingPretrained (Mnist.arch args)
                          else MsgCreatingModel (Mnist.arch args))])) as Hcreate.
  { intros fs1. by rewrite create_model_known. }
  assert (∀ fs1, outcome (Mnist.select_device (Mnist.set_gpu gpu0 args) fs1) = Ok tt ∧
                 store (Mnist.select_device (Mnist.set_gpu gpu0 args) fs1) = fs1) as Hsel.
  { intros fs1. by apply select_device_ok. }
  assert (store (match gpu0 with
                 | Some g => emit (Print (MsgUseGpu g))
                 | None => ret tt
                 end fs) = fs ∧
          outcome (match gpu0 with
                   | Some g => emit (Print (MsgUseGpu g))
                   | None => ret tt
                   end fs) = Ok tt) as [Hs0 Ho0] by by destruct gpu0.
  mproj. rewrite Ho0, Hs0. mproj. rewrite Hcreate. msimpl. cbn [Mnist.gen_map Mnist.set_gpu].
  rewrite Hgen. mstep.
  destruct (Hsel fs) as [-> ->]. mstep.
  change (Mnist.Worker _ (Mnist.w_model w0) _ _) with w0. rewrite Hres. mstep.
  destruct (rewrite_model_run (Mnist.w_args w') (Mnist.w_model w')
              (store (Mnist.resume_checkpoint w0 fs))) as [-> ->].
  mstep. rewrite resume_after_none by done. msimpl. mstep.
  rewrite extract_inner_ok. by mstep.
Qed.

Lemma mnist_loop_first tl loader N hi w fs :
  N < hi →
  head (trained_epochs
          (trace (for_each (Mnist.epoch_body tl loader) (py_range N hi) w fs)))
  = Some N ∧
  before_first is_train
    (trace (for_each (Mnist.epoch_body tl loader) (py_range N hi) w fs))
  = [SchedulerStep].
Proof.
  intros Hhi. rewrite py_range_cons by done. simpl. mproj.
  by destruct (mnist_epoch_body_cases tl loader N w fs)
    as [(t1 & t2 & Ht1 & Ht2 & ->)|(e & t & Ht & ->)].
Qed.

Lemma mnist_evaluate_or_train_first tl loader w fs :
  let args := Mnist.w_args w in
  Mnist.evaluate args = false →
  Mnist.start_epoch args < Mnist.epochs args →
  head (trained_epochs (trace (Mnist.evaluate_or_train tl loader w fs)))
  = Some (Mnist.start_epoch args).
Proof.
  intros args Hev Hlt. unfold Mnist.evaluate_or_train. fold args. rewrite Hev.
  mstep. rewrite write_file_run. msimpl.
  change (trained_epochs (_ :: _ :: _ :: ?t)) with (trained_epochs t).
  by apply mnist_loop_first.
Qed.

End mnist_prepare_runs.

Lemma setup_trained_epochs tr :
  Forall (λ e, setup_event e = true) tr → trained_epochs tr = [].
Proof.
  induction 1 as [|e tr He _ IH]; [done|].
  destruct e; try discriminate He; exact IH.
Qed.


Lemma setup_count p tr :
  (∀ e, setup_event e = true → p e = false) →
  Forall (λ e, setup_event e = true) tr → count p tr = 0%nat.
Proof. intros Hp Htr. apply count_none. eapply Forall_impl; eauto. Qed.




(** ** C6: resuming from a path that is not a file *)

Section mnist_missing.
Context `{Mnist.Collaborators}.

Lemma mnist_prepare_trace_resume gpu0 args best tl fs :
  let w0 := Mnist.Worker (Mnist.set_gpu gpu0 args)
              (Mnist.model_init (Mnist.arch args) (Mnist.pretrained args)
                 (Mnist.qw args) (Mnist.qa args))
              Mnist.fresh_optimizer best in
  Mnist.gen_map args = false →
  Mnist.zoo_has (Mnist.arch args) = true →
  is_Some gpu0 ∨ is_Some (Mnist.gpus args) →
  ∃ pre post, trace (Mnist.prepare gpu0 args best tl fs)
              = pre ++ trace (Mnist.resume_checkpoint w0 fs) ++ post.
Proof.
  intros w0 Hgen Hzoo Hdev. unfold Mnist.prepare.
  cbn [Mnist.gen_map Mnist.set_gpu Mnist.gpu]. rewrite Hgen.
  assert (∀ fs1, Mnist.create_model (Mnist.set_gpu gpu0 args) fs1 =
                 (Ok (Some (Mnist.w_model w0)), fs1,
                  [Print (if Mnist.pretrained args then MsgUsingPretrained (Mnist.arch args)
                          else MsgCreatingModel (Mnist.arch args))])) as Hcreate.
  { intros fs1. by rewrite create_model_known. }
  assert (∀ fs1, outcome (Mnist.select_device (Mnist.set_gpu gpu0 args) fs1) = Ok tt ∧
                 store (Mnist.select_device (Mnist.set_gpu gpu0 args) fs1) = fs1) as Hsel.
  { intros fs1. by apply select_device_ok. }
  assert (store (match gpu0 with
                 | Some g => emit (Print (MsgUseGpu g))
                 | None => ret tt
                 end fs) = fs ∧
          outcome (match gpu0 with
                   | Some g => emit (Print (MsgUseGpu g))
                   | None => ret tt
                   end fs) = Ok tt) as [Hs0 Ho0] by by destruct gpu0.
  mproj. rewrite Ho0, Hs0. mproj. rewrite Hcreate. msimpl. cbn [Mnist.gen_map Mnist.set_gpu].
  rewrite Hgen. mstep.
  destruct (Hsel fs) as [-> ->]. mstep.
  change (Mnist.Worker _ (Mnist.w_model w0) _ _) with w0.
  match goal with
  | |- ∃ pre post, ?a ++ ?e1 :: ?e2 :: ?b ++ ?r ++ ?c = _ =>
      exists (a ++ e1 :: e2 :: b), c
  end.
  by rewrite <-app_assoc.
Qed.

End mnist_missing.

(** C6 (as the code has it).  When [--resume] names a path that is not a
    file, the resume step prints its notice, raises nothing and leaves
    the worker and the file store as they were; the run then proceeds as
    without [--resume], its first training pass being the configured
    start epoch (0 unless [--start-epoch] is given). *)
Theorem C6_missing_checkpoint_is_not_fatal :
  (∀ (C : Mnist.Collaborators) w fs,
     Mnist.resume (Mnist.w_args w) ≠ "" →
     fs !! Mnist.resume (Mnist.w_args w) = None →
     Mnist.resume_checkpoint w fs =
     (Ok w, fs, [Print (MsgNoCheckpoint (Mnist.resume (Mnist.w_args w)))])) ∧
  (∀ (C : Mnist.Collaborators) gpu0 args best0 tl loader fs,
     Mnist.gen_map args = false →
     Mnist.zoo_has (Mnist.arch args) = true →
     is_Some gpu0 ∨ is_Some (Mnist.gpus args) →
     Mnist.resume args ≠ "" →
     fs !! Mnist.resume args = None →
     Mnist.resume_after args = "" →
     Mnist.evaluate args = false →
     Mnist.start_epoch args < Mnist.epochs args →
     let tr := trace (Mnist.main_worker gpu0 args best0 tl loader fs) in
     Print (MsgNoCheckpoint (Mnist.resume args)) ∈ tr ∧
     head (trained_epochs tr) = Some (Mnist.start_epoch args) ∧
     outcome (Mnist.prepare gpu0 args best0 tl fs) =
     Ok (Some (Mnist.Worker
                 (Mnist.set_batch_num (Z.of_nat (length tl)) (Mnist.set_gpu gpu0 args))
                 (rewritten args
                    (Mnist.model_init (Mnist.arch args) (Mnist.pretrained args)
                       (Mnist.qw args) (Mnist.qa args)))
                 Mnist.fresh_optimizer best0))).
Proof.
  split.
  - intros C w fs Hne Hfile. by apply resume_checkpoint_missing.
  - intros C gpu0 args best0 tl loader fs Hgen Hzoo Hdev Hres Hfile Hafter Hev Hlt tr.
    set (w0 := Mnist.Worker (Mnist.set_gpu gpu0 args)
                 (Mnist.model_init (Mnist.arch args) (Mnist.pretrained args)
                    (Mnist.qw args) (Mnist.qa args))
                 Mnist.fresh_optimizer best0).
    assert (Mnist.resume_checkpoint w0 fs =
            (Ok w0, fs, [Print (MsgNoCheckpoint (Mnist.resume args))])) as Hmiss.
    { by apply (resume_checkpoint_missing w0 fs). }
    assert (outcome (Mnist.prepare gpu0 args best0 tl fs) =
            Ok (Some (Mnist.Worker
                        (Mnist.set_batch_num (Z.of_nat (length tl)) (Mnist.set_gpu gpu0 args))
                        (rewritten args (Mnist.w_model w0))
                        Mnist.fresh_optimizer best0))) as Hprep.
    { rewrite (mnist_prepare_outcome gpu0 args best0 tl fs w0); try done.
      fold w0. by rewrite Hmiss. }
    destruct (mnist_prepare_trace_resume gpu0 args best0 tl fs Hgen Hzoo Hdev)
      as (pre & post & Htr).
    fold w0 in Htr. rewrite Hmiss in Htr. cbn [trace snd] in Htr.
    pose proof (mnist_prepare_events gpu0 args best0 tl fs) as Hpre.
    subst tr. rewrite mnist_main_worker_run. cbv zeta. rewrite Hprep. msimpl.
    split; [|split; [|done]].
    + rewrite Htr, !elem_of_app, elem_of_cons. auto.
    + rewrite trained_epochs_app, (setup_trained_epochs _ Hpre). simpl.
      by rewrite mnist_evaluate_or_train_first.
Qed.

Lemma C6_witness :
  Mnist.resume_checkpoint
    (Mnist.Worker Scenario.mnist_args_missing [] [] (Scenario.q 0)) ∅ =
  (Ok (Mnist.Worker Scenario.mnist_args_missing [] [] (Scenario.q 0)), ∅,
   [Print (MsgNoCheckpoint "missing.pth.tar")]).
Proof.
  apply (proj1 C6_missing_checkpoint_is_not_fatal Scenario.lenet_70_68
           (Mnist.Worker Scenario.mnist_args_missing [] [] (Scenario.q 0)) ∅).
  - discriminate.
  - reflexivity.
Defined.

(** C6 as stated fails: with [--start-epoch 5] and a resume path that is
    not a file, the run does not start at epoch 0. *)
Lemma C6_counterexample :
  (∅ : gmap string file) !! Mnist.resume Scenario.mnist_args_missing = None ∧
  ¬ fresh_start
      (trace (Mnist.main_worker (H:=Scenario.lenet_70_68) (Some 0)
                Scenario.mnist_args_missing (Scenario.q 0) [Scenario.b1]
                Scenario.loader2 ∅)).
Proof.
  split; [done|]. intros Hfresh. vm_compute in Hfresh. discriminate Hfresh.
Qed.

(** ** C9: the evaluate-only flag *)

Section mnist_evaluate.
Context `{Mnist.Collaborators}.




End mnist_evaluate.





(** * Further properties of the two scripts *)

(** ** Auxiliary facts *)
(** ** Readings of traces *)

Lemma forwarded_app t1 t2 : forwarded (t1 ++ t2) = forwarded t1 ++ forwarded t2.
Proof. apply omap_app. Qed.

Lemma scalar_steps_app tag t1 t2 :
  scalar_steps tag (t1 ++ t2) = scalar_steps tag t1 ++ scalar_steps tag t2.
Proof. apply omap_app. Qed.

Lemma init_calls_app t1 t2 : init_calls (t1 ++ t2) = init_calls t1 ++ init_calls t2.
Proof. apply omap_app. Qed.

Lemma reads_app t1 t2 : reads (t1 ++ t2) = reads t1 ++ reads t2.
Proof. apply omap_app. Qed.

Lemma written_paths_app t1 t2 :
  written_paths (t1 ++ t2) = written_paths t1 ++ written_paths t2.
Proof. apply omap_app. Qed.

Section mnist_batches.
Context `{Mnist.Collaborators}.

(** A training pass that reaches its end: one forward pass, one optimizer
    step and one pair of scalars per batch, in loader order. *)
Lemma train_loop_pass args epoch base i batches st fs :
  Mnist.dali args = false → Mnist.print_freq args ≠ 0 →
  let tr := trace (Mnist.train_loop args epoch base i batches st fs) in
  forwarded tr = batches ∧
  count is_optimizer_step tr = length batches ∧
  scalar_steps "train/loss" tr = seqZ (base + i) (Z.of_nat (length batches)) ∧
  scalar_steps "train/acc1" tr = seqZ (base + i) (Z.of_nat (length batches)) ∧
  trained_epochs tr = [] ∧ count is_validate tr = 0%nat ∧ count is_lr_step tr = 0%nat ∧
  scalar_steps "val/acc1" tr = [].
Proof.
  intros Hd Hpf. revert i st fs.
  induction batches as [|b rest IH]; intros i st fs; [done|].
  cbn [Mnist.train_loop]. rewrite Hd. mstep. rewrite at_print_freq_run.
  apply Z.eqb_neq in Hpf as Hpf'. rewrite Hpf'. mstep.
  destruct (IH (i + 1) (Mnist.sgd_step st b) fs) as (IH1 & IH2 & IH3 & IH4 & IH5 & IH6 & IH7 & IH8).
  rewrite (seqZ_cons (base + i)) by (cbn [length]; lia).
  replace (Z.succ (base + i)) with (base + (i + 1)) by lia.
  replace (Z.pred (Z.of_nat (length (b :: rest)))) with (Z.of_nat (length rest))
    by (cbn [length]; lia).
  destruct (i `mod` _ =? 0); mstep; cbn [length];
    rewrite ?count_cons; cbn [forwarded scalar_steps trained_epochs omap list_omap
      is_optimizer_step is_validate is_lr_step];
    repeat split; try (f_equal; done); try done; try (cbn; congruence).
Qed.

(** The events of a validation pass are forward passes and messages. *)
Lemma eval_events_silent tr :
  Forall (λ e, eval_event e = true) tr →
  count is_optimizer_step tr = 0%nat ∧ count is_lr_step tr = 0%nat ∧
  count is_validate tr = 0%nat ∧ trained_epochs tr = [] ∧
  (∀ tag, scalar_steps tag tr = []) ∧ records tr = [] ∧ written_paths tr = [].
Proof.
  induction 1 as [|e tr He _ IH]; [done|].
  destruct IH as (? & ? & ? & ? & ? & ? & ?).
  destruct e; try discriminate He; rewrite ?count_cons; cbn; repeat split; auto.
Qed.

Lemma validate_loop_forwarded args model i batches top1 fs :
  Mnist.extract_inner_data args = true ∨ Mnist.print_freq args ≠ 0 →
  forwarded (trace (Mnist.validate_loop args model i batches top1 fs)) =
  if Mnist.extract_inner_data args then take 1 batches else batches.
Proof.
  intros Hok. revert i top1 fs.
  induction batches as [|b rest IH]; intros i top1 fs.
  { by destruct (Mnist.extract_inner_data args). }
  cbn [Mnist.validate_loop]. mstep.
  destruct (Mnist.extract_inner_data args) eqn:Hx; [done|].
  destruct Hok as [|Hpf]; [done|]. apply Z.eqb_neq in Hpf.
  mstep. rewrite at_print_freq_run, Hpf. mstep.
  destruct (i `mod` _ =? 0); mstep; cbn [forwarded omap list_omap];
    fold (forwarded (trace (Mnist.validate_loop args model (i + 1) rest
      (meter_add top1 (Mnist.top1_acc model b * Qc_of_Z (Z.pos (batch_size b)))%Qc
         (Z.pos (batch_size b))) fs))); by rewrite IH.
Qed.

Lemma validate_forwarded loader model args fs :
  Mnist.extract_inner_data args = true ∨ Mnist.print_freq args ≠ 0 →
  forwarded (trace (Mnist.validate loader model args fs)) = evaluated_batches args loader.
Proof.
  intros Hok. unfold Mnist.validate. mstep. cbn [forwarded omap list_omap].
  fold (forwarded (trace (Mnist.validate_loop args model 0 (Mnist.val_batches loader)
                            meter0 fs) ++
                   match outcome (Mnist.validate_loop args model 0 (Mnist.val_batches loader)
                                    meter0 fs) with
                   | Ok a => trace ((emit (Print (MsgAcc1 (meter_mean a))) ;;;
                                     ret (meter_mean a)) fs)
                   | Raise _ => []
                   end)).
  rewrite forwarded_app, validate_loop_forwarded by done.
  unfold evaluated_batches, Mnist.val_batches.
  destruct (outcome _); mstep; cbn; destruct (Mnist.extract_inner_data args);
    by rewrite ?app_nil_r.
Qed.

(** The meter of a validation pass holds the sum of accuracy times batch
    size and the number of samples. *)
Lemma top1_meter_sums model m batches :
  top1_meter model m batches =
  Meter (m_sum m + weighted_acc model batches)%Qc (m_n m + samples batches).
Proof.
  unfold top1_meter. revert m. induction batches as [|b rest IH]; intros m.
  { destruct m as [s n]. cbn [foldl weighted_acc samples foldr m_sum m_n].
    f_equal; [symmetry; exact (Qcplus_0_r _)|lia]. }
  cbn [foldl]. rewrite IH. cbn [meter_add m_sum m_n weighted_acc samples foldr].
  fold (samples rest). fold (weighted_acc model rest).
  f_equal; [|lia]. by rewrite Qcplus_assoc.
Qed.

Lemma samples_pos b batches : 0 < samples (b :: batches).
Proof.
  revert b. induction batches as [|b' rest IH]; intros b; cbn [samples foldr]; [lia|].
  specialize (IH b'). cbn [samples foldr] in IH. lia.
Qed.

Lemma val_result_weighted_mean args model loader :
  val_result args model loader =
  (weighted_acc model (evaluated_batches args loader) /
   Qc_of_Z (samples (evaluated_batches args loader)))%Qc.
Proof.
  unfold val_result, meter_mean. rewrite top1_meter_sums. cbn [m_sum m_n meter0].
  rewrite Z.add_0_l. f_equal. exact (Qcplus_0_l _).
Qed.

End mnist_batches.

(** ** Arithmetic of the validation meter *)

Lemma samples_nonneg batches : 0 ≤ samples batches.
Proof. induction batches as [|b rest IH]; cbn [samples foldr]; [done|]. fold (samples rest). lia. Qed.

Lemma weighted_acc_bounds `{Mnist.Collaborators} model (lo hi : Qc) batches :
  Forall (λ b, lo ≤ Mnist.top1_acc model b ∧ Mnist.top1_acc model b ≤ hi)%Qc batches →
  (lo * Qc_of_Z (samples batches) ≤ weighted_acc model batches)%Qc ∧
  (weighted_acc model batches ≤ hi * Qc_of_Z (samples batches))%Qc.
Proof.
  induction 1 as [|b rest [Hlo Hhi] _ [IHlo IHhi]].
  { cbn [samples weighted_acc foldr]. rewrite Z2Qc_inj_0, !Qcmult_0_r.
    split; apply Qcle_refl. }
  cbn [samples weighted_acc foldr]. fold (samples rest). fold (weighted_acc model rest).
  rewrite Z2Qc_inj_add, !Qcmult_plus_distr_r.
  assert (0 ≤ Qc_of_Z (Z.pos (batch_size b)))%Qc as Hpos
    by (rewrite <-Z2Qc_inj_0; by apply Z2Qc_inj_le).
  split; apply Qcplus_le_compat; try done; by apply Qcmult_le_compat_r.
Qed.

Lemma mean_bounds (lo hi w n : Qc) :
  (0 < n)%Qc → (lo * n ≤ w)%Qc → (w ≤ hi * n)%Qc → (lo ≤ w / n ∧ w / n ≤ hi)%Qc.
Proof.
  intros Hn Hlo Hhi.
  assert (n ≠ 0%Qc) as Hn0.
  { intros ->. by apply Qclt_not_eq in Hn. }
  assert (w / n * n = w)%Qc as Hw.
  { rewrite Qcmult_comm. by apply Qcmult_div_r. }
  split; apply (Qcmult_lt_0_le_reg_r _ _ n Hn); by rewrite Hw.
Qed.

Section mnist_epochs.
Context `{Mnist.Collaborators}.

Lemma train_first_batch_dali b rest st epoch args fs :
  Mnist.dali args = true →
  Mnist.train (b :: rest) st epoch args fs = (Raise IndexError, fs, [EnterTrain epoch]).
Proof. intros Hd. unfold Mnist.train. cbn [Mnist.train_loop]. by rewrite Hd. Qed.



(** One iteration of the epoch loop in terms of its training pass, its
    validation pass and its checkpoint. *)
Lemma mnist_epoch_body_run tl loader epoch w fs :
  let args := Mnist.w_args w in
  let t := Mnist.train tl (Mnist.w_model w, Mnist.w_optimizer w) epoch args fs in
  Mnist.epoch_body tl loader epoch w fs =
  match outcome t with
  | Raise e => (Raise e, fs, SchedulerStep :: trace t)
  | Ok st =>
      if Mnist.dali args then (Raise AttributeError, fs, SchedulerStep :: trace t)
      else
        let v := Mnist.validate loader st.1 args fs in
        match outcome v with
        | Raise e => (Raise e, fs, SchedulerStep :: trace t ++ trace v)
        | Ok acc1 =>
            let best := py_max acc1 (Mnist.w_best_acc1 w) in
            let s := Mnist.save_checkpoint (mnist_record args epoch st best)
                       (py_gt acc1 (Mnist.w_best_acc1 w)) (mnist_prefix args) fs in
            (Ok (Mnist.Worker args st.1 st.2 best), store s,
             SchedulerStep :: trace t ++ trace v ++
             [AddScalar "val/acc1" epoch; AddScalar "train/lr" epoch] ++ trace s)
        end
  end.
Proof.
  intros args t. subst t. cbv zeta.
  pose proof (train_store tl (Mnist.w_model w, Mnist.w_optimizer w) epoch args fs) as Hst.
  destruct (outcome (Mnist.train tl (Mnist.w_model w, Mnist.w_optimizer w) epoch args fs))
    as [st|e] eqn:Ho1.
  2:{ apply run_ext; unfold Mnist.epoch_body; fold args; mstep;
      rewrite ?Ho1, ?Hst; msimpl; rewrite ?app_nil_r; done. }
  destruct (Mnist.dali args) eqn:Hd.
  { apply run_ext; unfold Mnist.epoch_body; fold args; mstep;
      rewrite ?Ho1, ?Hst, ?Hd; mstep; rewrite ?app_nil_r; done. }
  destruct (outcome (Mnist.validate loader st.1 args fs)) as [acc1|e] eqn:Ho2.
  - apply run_ext; unfold Mnist.epoch_body; fold args; mstep;
      rewrite ?Ho1, ?Hst, ?Hd; mstep; rewrite ?Ho2; mstep;
      rewrite ?validate_store, ?save_checkpoint_run; msimpl; try done.
    rewrite app_nil_r. unfold mnist_prefix, mnist_record. by rewrite ?save_checkpoint_run.
  - apply run_ext; unfold Mnist.epoch_body; fold args; mstep;
      rewrite ?Ho1, ?Hst, ?Hd; mstep; rewrite ?Ho2; mstep;
      rewrite ?validate_store; rewrite ?app_nil_r; done.
Qed.

End mnist_epochs.

Section mnist_complete.
Context `{Mnist.Collaborators}.

Lemma trained_nil st : trained st [] = st.
Proof. done. Qed.

Lemma train_pass tl st epoch args fs :
  Mnist.dali args = false → Mnist.print_freq args ≠ 0 →
  let x := Mnist.train tl st epoch args fs in
  outcome x = Ok (trained st tl) ∧ store x = fs ∧
  trained_epochs (trace x) = [epoch] ∧
  forwarded (trace x) = tl ∧
  count is_optimizer_step (trace x) = length tl ∧
  scalar_steps "train/loss" (trace x)
    = seqZ (epoch * Mnist.batch_num args) (Z.of_nat (length tl)) ∧
  scalar_steps "train/acc1" (trace x)
    = seqZ (epoch * Mnist.batch_num args) (Z.of_nat (length tl)) ∧
  count is_validate (trace x) = 0%nat ∧ count is_lr_step (trace x) = 0%nat ∧
  records (trace x) = [] ∧ scalar_steps "val/acc1" (trace x) = [].
Proof.
  intros Hd Hpf x. subst x.
  destruct (train_trace tl st epoch args fs) as (t & Ht & Hin).
  split.
  { rewrite train_outcome, Hd. apply Z.eqb_neq in Hpf. rewrite Hpf.
    case_bool_decide as Htl; [by subst tl|done]. }
  split; [apply train_store|].
  unfold Mnist.train in *. revert Ht. mstep. intros [= Ht].
  destruct (train_loop_pass args epoch (epoch * Mnist.batch_num args) 0 tl st fs Hd Hpf)
    as (H1 & H2 & H3 & H4 & H5 & H6 & H7 & H8).
  rewrite Z.add_0_r in H3, H4.
  rewrite !count_cons. cbn [trained_epochs forwarded scalar_steps omap list_omap
    is_optimizer_step is_validate is_lr_step].
  fold (trained_epochs (trace (Mnist.train_loop args epoch (epoch * Mnist.batch_num args) 0
                                 tl st fs))).
  rewrite H5.
  repeat split; try done.
  rewrite records_skip by done. apply inner_records. by rewrite Ht.
Qed.

Lemma validate_pass loader model args fs :
  Mnist.extract_inner_data args = true ∨ Mnist.print_freq args ≠ 0 →
  let x := Mnist.validate loader model args fs in
  outcome x = Ok (val_result args model loader) ∧ store x = fs ∧
  forwarded (trace x) = evaluated_batches args loader ∧
  count is_validate (trace x) = 1%nat ∧
  count is_optimizer_step (trace x) = 0%nat ∧ count is_lr_step (trace x) = 0%nat ∧
  trained_epochs (trace x) = [] ∧ (∀ tag, scalar_steps tag (trace x) = []) ∧
  records (trace x) = [] ∧ written_paths (trace x) = [].
Proof.
  intros Hok x. subst x.
  split.
  { rewrite validate_outcome. destruct Hok as [->|Hpf]; [done|].
    apply Z.eqb_neq in Hpf. rewrite Hpf. by rewrite orb_true_r. }
  split; [apply validate_store|].
  split; [by apply validate_forwarded|].
  destruct (validate_trace_eval loader model args fs) as (t & -> & Hev).
  destruct (eval_events_silent t Hev) as (H1 & H2 & H3 & H4 & H5 & H6 & H7).
  rewrite !count_cons. cbn [is_validate is_optimizer_step is_lr_step].
  rewrite H1, H2, H3. repeat split; try done.
Qed.

Lemma written_paths_save_checkpoint state is_best prefix fs :
  written_paths (trace (Mnist.save_checkpoint state is_best prefix fs)) =
  latest_path prefix :: if is_best then [best_path prefix] else [].
Proof. rewrite save_checkpoint_run. by destruct is_best. Qed.

Lemma save_checkpoint_quiet state is_best prefix fs :
  let tr := trace (Mnist.save_checkpoint state is_best prefix fs) in
  trained_epochs tr = [] ∧ forwarded tr = [] ∧ (∀ tag, scalar_steps tag tr = []) ∧
  count is_validate tr = 0%nat ∧ count is_lr_step tr = 0%nat ∧
  count is_optimizer_step tr = 0%nat.
Proof. cbv zeta. rewrite save_checkpoint_run. by destruct is_best. Qed.

(** An epoch of the MNIST loop that is not cut short by [--dali] or a zero
    print frequency. *)
Lemma mnist_epoch_body_normal tl loader epoch w fs :
  let args := Mnist.w_args w in
  Mnist.dali args = false → Mnist.print_freq args ≠ 0 →
  let x := Mnist.epoch_body tl loader epoch w fs in
  let w' := mnist_step tl loader w epoch in
  let s := Mnist.save_checkpoint
             (mnist_record args epoch (Mnist.w_model w', Mnist.w_optimizer w')
                (Mnist.w_best_acc1 w'))
             (py_gt (val_result args (Mnist.w_model w') loader) (Mnist.w_best_acc1 w))
             (mnist_prefix args) fs in
  outcome x = Ok w' ∧ store x = store s ∧
  trained_epochs (trace x) = [epoch] ∧
  count is_validate (trace x) = 1%nat ∧ count is_lr_step (trace x) = 1%nat ∧
  count is_optimizer_step (trace x) = length tl ∧
  forwarded (trace x) = tl ++ evaluated_batches args loader ∧
  scalar_steps "train/loss" (trace x)
    = seqZ (epoch * Mnist.batch_num args) (Z.of_nat (length tl)) ∧
  scalar_steps "val/acc1" (trace x) = [epoch] ∧
  records (trace x) = records (trace s) ∧
  written_paths (trace x) = written_paths (trace s).
Proof.
  intros args Hd Hpf x w' s. subst x.
  rewrite mnist_epoch_body_run. fold args.
  destruct (train_pass tl (Mnist.w_model w, Mnist.w_optimizer w) epoch args fs Hd Hpf)
    as (T1 & T2 & T3 & T4 & T5 & T6 & T7 & T8 & T9 & T10 & T12).
  rewrite T1, Hd. cbv zeta.
  destruct (validate_pass loader (trained (Mnist.w_model w, Mnist.w_optimizer w) tl).1
              args fs (or_intror Hpf))
    as (V1 & V2 & V3 & V4 & V5 & V6 & V7 & V8 & V9 & V10).
  rewrite V1.
  destruct (save_checkpoint_quiet
              (mnist_record args epoch (Mnist.w_model w', Mnist.w_optimizer w')
                 (Mnist.w_best_acc1 w'))
              (py_gt (val_result args (Mnist.w_model w') loader) (Mnist.w_best_acc1 w))
              (mnist_prefix args) fs) as (S1 & S2 & S3 & S4 & S5 & S6).
  fold s in S1, S2, S3, S4, S5, S6.
  assert (written_paths (trace (Mnist.train tl (Mnist.w_model w, Mnist.w_optimizer w)
                                  epoch args fs)) = []) as T11.
  { destruct (train_trace tl (Mnist.w_model w, Mnist.w_optimizer w) epoch args fs)
      as (t & -> & Hin). cbn [written_paths omap list_omap].
    clear -Hin. induction Hin as [|e t He _ IH]; [done|].
    destruct e; try discriminate He; exact IH. }
  match goal with |- context [[?a; ?b] ++ ?r] => set (sc := [a; b]) end.
  msimpl.
  match goal with
  | |- context [SchedulerStep :: ?r] => change (SchedulerStep :: r) with ([SchedulerStep] ++ r)
  end.
  rewrite !trained_epochs_app, !count_app, !forwarded_app, !scalar_steps_app,
    !records_app, !written_paths_app.
  rewrite T3, T4, T5, T6, T8, T9, T10, T11, T12, V3, V4, V5, V6, V7, V9, V10, !V8.
  fold w'. unfold mnist_record at 1 2 3 4 5 6 7 8 9. cbn [fst snd].
  change (Mnist.save_checkpoint _ _ _ _) with s.
  rewrite S1, S2, !S3, S4, S5, S6. subst sc.
  cbn. rewrite ?app_nil_r, ?Nat.add_0_r. repeat split; try done.
Qed.

Lemma records_at_app p t1 t2 :
  records_at p (t1 ++ t2) = records_at p t1 ++ records_at p t2.
Proof. unfold records_at. by rewrite records_app, omap_app. Qed.

Lemma mnist_loop_args_const tl loader l w :
  Mnist.w_args (foldl (mnist_step tl loader) w l) = Mnist.w_args w.
Proof. revert w. induction l as [|x l IH]; intros w; [done|]. cbn [foldl]. by rewrite IH. Qed.

(** The epoch loop of the MNIST worker when no epoch is cut short. *)
Lemma mnist_loop_normal tl loader l w fs :
  let args := Mnist.w_args w in
  Mnist.dali args = false → Mnist.print_freq args ≠ 0 →
  let x := for_each (Mnist.epoch_body tl loader) l w fs in
  let w' := foldl (mnist_step tl loader) w l in
  outcome x = Ok w' ∧
  trained_epochs (trace x) = l ∧
  count is_validate (trace x) = length l ∧
  count is_lr_step (trace x) = length l ∧
  count is_optimizer_step (trace x) = (length l * length tl)%nat ∧
  scalar_steps "train/loss" (trace x)
    = concat ((λ e, seqZ (e * Mnist.batch_num args) (Z.of_nat (length tl))) <$> l) ∧
  scalar_steps "val/acc1" (trace x) = l ∧
  ck_epoch <$> records_at (latest_path (mnist_prefix args)) (trace x)
    = (λ e, e + 1) <$> l ∧
  (∀ e, last l = Some e →
        store x !! latest_path (mnist_prefix args) =
        Some (FCheckpoint (mnist_record args e (Mnist.w_model w', Mnist.w_optimizer w')
                             (Mnist.w_best_acc1 w')))) ∧
  (l = [] → store x = fs).
Proof.
  cbv zeta. intros Hd Hpf. revert w fs Hd Hpf.
  induction l as [|ep l IH]; intros w fs Hd Hpf; [done|].
  destruct (mnist_epoch_body_normal tl loader ep w fs Hd Hpf)
    as (E1 & E2 & E3 & E4 & E5 & E6 & E7 & E8 & E9 & E10 & E11).
  cbv zeta in *.
  specialize (IH (mnist_step tl loader w ep)
                (store (Mnist.epoch_body tl loader ep w fs)) Hd Hpf).
  cbn [Mnist.w_args mnist_step] in IH.
  destruct IH as (I1 & I2 & I3 & I4 & I5 & I6 & I7 & I8 & I9 & I10).
  cbn [for_each foldl]. mstep. rewrite E1.
  rewrite !trained_epochs_app, !count_app, !scalar_steps_app, !records_at_app, fmap_app.
  rewrite E3, E4, E5, E6, E8, E9, I1, I2, I3, I4, I5, I6, I7, I8.
  unfold records_at at 1. rewrite E10, save_checkpoint_records, records_at_saved_latest.
  cbn [length fmap list_fmap concat app Nat.add Nat.mul ck_epoch mnist_record].
  repeat split; try done.
  intros e He. destruct l as [|ep' l].
  - injection He as <-. rewrite I10 by done. rewrite E2.
    apply save_checkpoint_store_latest.
  - apply I9. exact He.
Qed.

End mnist_complete.

Section mnist_setup.
Context `{Mnist.Collaborators}.

Lemma resume_after_rewrite_store args model :
  reads_only (Mnist.resume_after_rewrite args model).
Proof.
  unfold Mnist.resume_after_rewrite, torch_load, get_state_dict. reads_only_tac.
Qed.

(** The result of the set-up of the MNIST worker in terms of its resume
    step, its resume-after step and its dump of inner data, when the
    architecture is known, no key map is asked for and a device is given. *)
Lemma mnist_prepare_result gpu0 args best tl fs :
  let w0 := Mnist.Worker (Mnist.set_gpu gpu0 args)
              (Mnist.model_init (Mnist.arch args) (Mnist.pretrained args)
                 (Mnist.qw args) (Mnist.qa args))
              Mnist.fresh_optimizer best in
  let r := Mnist.resume_checkpoint w0 fs in
  Mnist.gen_map args = false →
  Mnist.zoo_has (Mnist.arch args) = true →
  is_Some gpu0 ∨ is_Some (Mnist.gpus args) →
  match outcome r with
  | Raise e =>
      outcome (Mnist.prepare gpu0 args best tl fs) = Raise e ∧
      store (Mnist.prepare gpu0 args best tl fs) = store r
  | Ok w' =>
      let a := Mnist.resume_after_rewrite (Mnist.w_args w')
                 (rewritten (Mnist.w_args w') (Mnist.w_model w')) (store r) in
      match outcome a with
      | Raise e =>
          outcome (Mnist.prepare gpu0 args best tl fs) = Raise e ∧
          store (Mnist.prepare gpu0 args best tl fs) = store r
      | Ok model =>
          outcome (Mnist.prepare gpu0 args best tl fs) =
          Ok (Some (Mnist.Worker
                      (Mnist.set_batch_num (Z.of_nat (length tl)) (Mnist.w_args w'))
                      model (Mnist.w_optimizer w') (Mnist.w_best_acc1 w'))) ∧
          store (Mnist.prepare gpu0 args best tl fs) =
          store (Mnist.extract_inner (Mnist.w_args w') model (store r))
      end
  end.
Proof.
  intros w0 r Hgen Hzoo Hdev. subst r. unfold Mnist.prepare.
  cbn [Mnist.gen_map Mnist.set_gpu Mnist.gpu]. rewrite Hgen.
  assert (∀ fs1, Mnist.create_model (Mnist.set_gpu gpu0 args) fs1 =
                 (Ok (Some (Mnist.w_model w0)), fs1,
                  [Print (if Mnist.pretrained args then MsgUsingPretrained (Mnist.arch args)
                          else MsgCreatingModel (Mnist.arch args))])) as Hcreate.
  { intros fs1. by rewrite create_model_known. }
  assert (∀ fs1, outcome (Mnist.select_device (Mnist.set_gpu gpu0 args) fs1) = Ok tt ∧
                 store (Mnist.select_device (Mnist.set_gpu gpu0 args) fs1) = fs1) as Hsel.
  { intros fs1. by apply select_device_ok. }
  assert (store (match gpu0 with
                 | Some g => emit (Print (MsgUseGpu g))
                 | None => ret tt
                 end fs) = fs ∧
          outcome (match gpu0 with
                   | Some g => emit (Print (MsgUseGpu g))
                   | None => ret tt
                   end fs) = Ok tt) as [Hs0 Ho0] by by destruct gpu0.
  mproj. rewrite Ho0, Hs0. mproj. rewrite Hcreate. msimpl. cbn [Mnist.gen_map Mnist.set_gpu].
  rewrite Hgen. mstep.
  destruct (Hsel fs) as [-> ->]. mstep.
  change (Mnist.Worker _ (Mnist.w_model w0) _ _) with w0.
  destruct (outcome (Mnist.resume_checkpoint w0 fs)) as [w'|e] eqn:Hres; [|done].
  mstep.
  destruct (rewrite_model_run (Mnist.w_args w') (Mnist.w_model w')
              (store (Mnist.resume_checkpoint w0 fs))) as [-> ->].
  mstep. cbv zeta.
  rewrite (resume_after_rewrite_store (Mnist.w_args w')
             (rewritten (Mnist.w_args w') (Mnist.w_model w'))
             (store (Mnist.resume_checkpoint w0 fs))).
  destruct (outcome (Mnist.resume_after_rewrite _ _ _)) as [model|e] eqn:Haft; [|done].
  mstep. rewrite extract_inner_ok. by mstep.
Qed.

End mnist_setup.

(** ** Ranges of epochs *)

Lemma py_range_empty lo hi : hi ≤ lo → py_range lo hi = [].
Proof. intros Hle. unfold py_range. by replace (Z.to_nat (hi - lo)) with 0%nat by lia. Qed.

Lemma length_py_range lo hi : length (py_range lo hi) = Z.to_nat (hi - lo).
Proof. unfold py_range. by rewrite length_fmap, length_seq. Qed.

Lemma py_range_ind (P : Z → Z → Prop) :
  (∀ lo hi, hi ≤ lo → P lo hi) →
  (∀ lo hi, lo < hi → P (lo + 1) hi → P lo hi) →
  ∀ lo hi, P lo hi.
Proof.
  intros Hbase Hstep lo hi.
  remember (Z.to_nat (hi - lo)) as k eqn:Hk. revert lo Hk.
  induction k as [|k IH]; intros lo Hk.
  - apply Hbase. lia.
  - apply Hstep; [lia|]. apply IH. lia.
Qed.

Lemma last_py_range lo hi : lo < hi → last (py_range lo hi) = Some (hi - 1).
Proof.
  revert lo hi. apply (py_range_ind (λ lo hi, lo < hi → last (py_range lo hi) = Some (hi - 1))).
  { intros; lia. }
  intros lo hi Hlt IH _. rewrite py_range_cons by done.
  destruct (decide (lo + 1 < hi)) as [Hlt'|Hge].
  - specialize (IH Hlt'). destruct (py_range (lo + 1) hi) eqn:Hr; [done|].
    exact IH.
  - rewrite (py_range_empty (lo + 1) hi) by lia. cbn. f_equal. lia.
Qed.

Lemma concat_seqZ_py_range n lo hi :
  0 ≤ n → lo ≤ hi →
  concat ((λ ep, seqZ (ep * n) n) <$> py_range lo hi) = seqZ (lo * n) ((hi - lo) * n).
Proof.
  intros Hn. revert lo hi.
  apply (py_range_ind (λ lo hi, lo ≤ hi →
    concat ((λ ep, seqZ (ep * n) n) <$> py_range lo hi) = seqZ (lo * n) ((hi - lo) * n))).
  { intros lo hi Hle1 Hle2. rewrite py_range_empty by done.
    replace (hi - lo) with 0 by lia. by rewrite seqZ_nil. }
  intros lo hi Hlt IH _. rewrite py_range_cons by done. csimpl.
  rewrite IH by lia.
  replace ((hi - lo) * n) with (n + (hi - (lo + 1)) * n) by lia.
  rewrite seqZ_app by nia. do 2 f_equal. lia.
Qed.

Lemma py_range_app lo mid hi :
  lo ≤ mid → mid ≤ hi → py_range lo mid ++ py_range mid hi = py_range lo hi.
Proof.
  revert lo mid.
  apply (py_range_ind (λ lo mid, lo ≤ mid → mid ≤ hi →
                                 py_range lo mid ++ py_range mid hi = py_range lo hi)).
  { intros lo mid Hle1 Hle2 Hle3. assert (mid = lo) as -> by lia.
    by rewrite (py_range_empty lo lo). }
  intros lo mid Hlt IH _ Hle. rewrite (py_range_cons lo mid), (py_range_cons lo hi) by lia.
  cbn [app]. f_equal. apply IH; lia.
Qed.

Section mnist_whole_runs.
Context `{Mnist.Collaborators}.

(** Without [--evaluate], the rest of the worker opens the metric writer,
    writes the description of the model and runs the epoch loop on the
    rewritten log directory. *)
Lemma mnist_evaluate_or_train_loop tl loader w fs :
  let args := mnist_loop_args (Mnist.w_args w) in
  let txt := Mnist.log_name args +:+ "/" +:+ Mnist.arch args +:+ ".txt" in
  let y := for_each (Mnist.epoch_body tl loader)
             (py_range (Mnist.start_epoch args) (Mnist.epochs args))
             (Mnist.Worker args (Mnist.w_model w) (Mnist.w_optimizer w)
                (Mnist.w_best_acc1 w))
             (<[txt := FOther]> fs) in
  Mnist.evaluate (Mnist.w_args w) = false →
  Mnist.evaluate_or_train tl loader w fs =
  (outcome y, store y,
   [WriterOpen (Mnist.log_name args); OpenWrite txt; CloseWrite txt FOther] ++ trace y).
Proof.
  intros args txt y Hev. unfold Mnist.evaluate_or_train. rewrite Hev.
  apply run_ext; mstep; rewrite write_file_run; msimpl; try done.
Qed.

Lemma mnist_prepare_batch_num gpu0 args best tl :
  returns (λ o, ∀ w, o = Some w → Mnist.batch_num (Mnist.w_args w) = Z.of_nat (length tl))
    (Mnist.prepare gpu0 args best tl).
Proof. unfold Mnist.prepare. returns_tac; intros w' Hw'; by simplify_eq. Qed.

End mnist_whole_runs.

Lemma setup_scalar_steps tag tr :
  Forall (λ e, setup_event e = true) tr → scalar_steps tag tr = [].
Proof.
  induction 1 as [|e tr He _ IH]; [done|].
  destruct e; try discriminate He; exact IH.
Qed.

Lemma setup_forwarded tr :
  Forall (λ e, setup_event e = true) tr → forwarded tr = [].
Proof.
  induction 1 as [|e tr He _ IH]; [done|].
  destruct e; try discriminate He; exact IH.
Qed.

Lemma setup_records_at p tr :
  Forall (λ e, setup_event e = true) tr → records_at p tr = [].
Proof. intros Hs. unfold records_at. by rewrite setup_records. Qed.

Section mnist_whole_runs_2.
Context `{Mnist.Collaborators}.

(** A whole run of the MNIST worker whose set-up returns [w] and whose
    epochs are not cut short. *)
Lemma mnist_main_worker_normal gpu0 args best0 tl loader fs w :
  outcome (Mnist.prepare gpu0 args best0 tl fs) = Ok (Some w) →
  let a := mnist_loop_args (Mnist.w_args w) in
  Mnist.evaluate a = false → Mnist.dali a = false → Mnist.print_freq a ≠ 0 →
  let x := Mnist.main_worker gpu0 args best0 tl loader fs in
  let l := py_range (Mnist.start_epoch a) (Mnist.epochs a) in
  let w' := foldl (mnist_step tl loader)
              (Mnist.Worker a (Mnist.w_model w) (Mnist.w_optimizer w) (Mnist.w_best_acc1 w))
              l in
  outcome x = Ok (Some w') ∧
  trained_epochs (trace x) = l ∧
  count is_validate (trace x) = length l ∧
  count is_lr_step (trace x) = length l ∧
  count is_optimizer_step (trace x) = (length l * length tl)%nat ∧
  scalar_steps "train/loss" (trace x)
    = concat ((λ e, seqZ (e * Mnist.batch_num a) (Z.of_nat (length tl))) <$> l) ∧
  scalar_steps "val/acc1" (trace x) = l ∧
  ck_epoch <$> records_at (latest_path (mnist_prefix a)) (trace x) = (λ e, e + 1) <$> l ∧
  (∀ e, last l = Some e →
        store x !! latest_path (mnist_prefix a) =
        Some (FCheckpoint (mnist_record a e (Mnist.w_model w', Mnist.w_optimizer w')
                             (Mnist.w_best_acc1 w')))).
Proof.
  intros Hprep a Hev Hd Hpf x l w'. subst x.
  rewrite mnist_main_worker_run. rewrite Hprep. cbv zeta.
  rewrite mnist_evaluate_or_train_loop by exact Hev. fold a.
  pose proof (mnist_prepare_events gpu0 args best0 tl fs) as Hsetup.
  set (txt := Mnist.log_name a +:+ "/" +:+ Mnist.arch a +:+ ".txt").
  set (w0 := Mnist.Worker a (Mnist.w_model w) (Mnist.w_optimizer w) (Mnist.w_best_acc1 w)).
  destruct (mnist_loop_normal tl loader l w0
              (<[txt := FOther]> (store (Mnist.prepare gpu0 args best0 tl fs))) Hd Hpf)
    as (L1 & L2 & L3 & L4 & L5 & L6 & L7 & L8 & L9 & _).
  cbn [Mnist.w_args w0] in L6, L8, L9. fold w' in L1, L9.
  cbn [outcome store trace fst snd]. fold l. rewrite L1.
  set (pre := [WriterOpen (Mnist.log_name a); OpenWrite txt; CloseWrite txt FOther]).
  assert (trained_epochs pre = [] ∧ count is_validate pre = 0%nat ∧
          count is_lr_step pre = 0%nat ∧ count is_optimizer_step pre = 0%nat ∧
          (∀ tag, scalar_steps tag pre = []) ∧
          (∀ p, records_at p pre = [])) as (P1 & P2 & P3 & P4 & P5 & P6) by done.
  rewrite !trained_epochs_app, !count_app, !scalar_steps_app, !records_at_app.
  rewrite setup_trained_epochs, (setup_scalar_steps "train/loss"),
    (setup_scalar_steps "val/acc1"), setup_records_at by done.
  rewrite (setup_count is_validate _ ltac:(by intros []) Hsetup).
  rewrite (setup_count is_lr_step _ ltac:(by intros []) Hsetup).
  rewrite (setup_count is_optimizer_step _ ltac:(by intros []) Hsetup).
  rewrite P1, P2, P3, P4, !P5, P6. cbn [app Nat.add].
  rewrite L2, L3, L4, L5, L6, L7, L8.
  repeat split; try done.
Qed.

End mnist_whole_runs_2.

(** ** Strings *)

Lemma string_length_append (p s : string) :
  String.length (p +:+ s) = (String.length p + String.length s)%nat.
Proof.
  induction p as [|c p IH]; [done|].
  change (String.length (String c p +:+ s)) with (S (String.length (p +:+ s))).
  by rewrite IH.
Qed.

Lemma substring_append_r (p s : string) n m :
  String.substring (String.length p + n) m (p +:+ s) = String.substring n m s.
Proof. induction p as [|c p IH]; [done|]. exact IH. Qed.

Lemma ends_with_append suffix (p s : string) :
  (String.length suffix ≤ String.length s)%nat →
  ends_with suffix (p +:+ s) = ends_with suffix s.
Proof.
  intros Hle. unfold ends_with. rewrite string_length_append.
  replace (String.length p + String.length s - String.length suffix)%nat
    with (String.length p + (String.length s - String.length suffix))%nat by lia.
  rewrite substring_append_r.
  destruct (String.length suffix <=? String.length s)%nat eqn:Hs.
  - by replace (String.length suffix <=? String.length p + String.length s)%nat
      with true by (symmetry; apply Nat.leb_le; lia).
  - apply Nat.leb_gt in Hs. lia.
Qed.

Lemma npy_name_ends_with k : ends_with ".npy" (Mnist.npy_name k) = true.
Proof.
  unfold Mnist.npy_name.
  destruct ((4 <=? String.length k)%nat
            && String.eqb (String.substring (String.length k - 4) 4 k) ".npy") eqn:Hk.
  - exact Hk.
  - by rewrite ends_with_append by (cbn; lia).
Qed.

Lemma npy_name_idempotent k : Mnist.npy_name (Mnist.npy_name k) = Mnist.npy_name k.
Proof.
  pose proof (npy_name_ends_with k) as Hk. unfold ends_with in Hk. cbn [String.length] in Hk.
  unfold Mnist.npy_name at 1. by rewrite Hk.
Qed.

Lemma checkpoint_paths_not_npy prefix :
  ends_with ".npy" (latest_path prefix) = false ∧ ends_with ".npy" (best_path prefix) = false.
Proof.
  unfold latest_path, best_path. by rewrite !ends_with_append by (cbn; lia).
Qed.

(** ** The set-up steps of the MNIST worker *)

Lemma torch_load_not_checkpoint p f fs :
  fs !! p = Some f → (∀ c, f ≠ FCheckpoint c) →
  torch_load p fs =
  (match f with FStateDict _ => Ok f | _ => Raise UnpicklingError end, fs, [ReadFile p]).
Proof.
  intros Hp Hnc. unfold torch_load, bind, get_fs. rewrite Hp.
  destruct f as [c|w| |]; [by destruct (Hnc c)|done..].
Qed.

Section mnist_setup_steps.
Context `{Mnist.Collaborators}.

Lemma resume_checkpoint_weights_only w fs c :
  let args := Mnist.w_args w in
  Mnist.resume args ≠ "" →
  fs !! Mnist.resume args = Some (FCheckpoint c) →
  Mnist.quant_bias_scale args = true →
  Mnist.resume_checkpoint w fs =
  (Ok (Mnist.Worker args (ck_state_dict c) (Mnist.w_optimizer w) (Mnist.w_best_acc1 w)), fs,
   [Print (MsgLoadingCheckpoint (Mnist.resume args)); ReadFile (Mnist.resume args)]).
Proof.
  intros args Hne Hfile Hq. unfold Mnist.resume_checkpoint. fold args.
  rewrite bool_decide_eq_false_2 by done.
  unfold bind at 1, isfile, bind at 1, get_fs, ret. rewrite Hfile.
  rewrite bool_decide_eq_true_2 by done.
  unfold bind at 1, emit at 1. unfold bind at 1. rewrite (torch_load_checkpoint _ c) by done.
  unfold bind at 1, get_state_dict, ret. by rewrite Hq.
Qed.

Lemma resume_checkpoint_not_checkpoint w fs f :
  let args := Mnist.w_args w in
  Mnist.resume args ≠ "" →
  fs !! Mnist.resume args = Some f → (∀ c, f ≠ FCheckpoint c) →
  Mnist.resume_checkpoint w fs =
  (Raise (match f with FStateDict _ => KeyError | _ => UnpicklingError end), fs,
   [Print (MsgLoadingCheckpoint (Mnist.resume args)); ReadFile (Mnist.resume args)]).
Proof.
  intros args Hne Hfile Hnc. unfold Mnist.resume_checkpoint. fold args.
  rewrite bool_decide_eq_false_2 by done.
  unfold bind at 1, isfile, bind at 1, get_fs, ret. rewrite Hfile.
  rewrite bool_decide_eq_true_2 by done.
  unfold bind at 1, emit at 1. unfold bind at 1.
  rewrite (torch_load_not_checkpoint _ _ _ Hfile Hnc).
  destruct f as [c|w'| |]; [by destruct (Hnc c)|done..].
Qed.

Lemma resume_after_rewrite_valid args model fs c :
  Mnist.resume_after args ≠ "" →
  fs !! Mnist.resume_after args = Some (FCheckpoint c) →
  Mnist.resume_after_rewrite args model fs =
  (Ok (ck_state_dict c), fs,
   [Print (MsgLoadingCheckpoint (Mnist.resume_after args));
    ReadFile (Mnist.resume_after args)]).
Proof.
  intros Hne Hfile. unfold Mnist.resume_after_rewrite.
  rewrite bool_decide_eq_false_2 by done.
  unfold bind at 1, isfile, bind at 1, get_fs, ret. rewrite Hfile.
  rewrite bool_decide_eq_true_2 by done.
  unfold bind at 1, emit at 1. unfold bind at 1. by rewrite (torch_load_checkpoint _ c).
Qed.

Lemma resume_checkpoint_none w fs :
  Mnist.resume (Mnist.w_args w) = "" → Mnist.resume_checkpoint w fs = (Ok w, fs, []).
Proof. intros Hr. unfold Mnist.resume_checkpoint. by rewrite Hr. Qed.

Lemma extract_inner_off args model fs :
  Mnist.extract_inner_data args = false →
  Mnist.extract_inner args model fs = (Ok tt, fs, []).
Proof. intros Hx. unfold Mnist.extract_inner. by rewrite Hx. Qed.

(** The dump of inner data writes one [.npy] file per entry of the
    state_dict and nothing else. *)
Lemma extract_inner_loop keys fs :
  let x := for_each (λ k (_ : unit), write_file (Mnist.npy_name k) FOther) keys tt fs in
  outcome x = Ok tt ∧
  written_paths (trace x) = Mnist.npy_name <$> keys ∧
  reads (trace x) = [] ∧
  (∀ p, ends_with ".npy" p = false → store x !! p = fs !! p) ∧
  (∀ p, is_Some (fs !! p) → is_Some (store x !! p)).
Proof.
  cbv zeta. revert fs. induction keys as [|k keys IH]; intros fs; [done|].
  cbn [for_each]. mstep. rewrite write_file_run. msimpl.
  destruct (IH (<[Mnist.npy_name k := FOther]> fs)) as (I1 & I2 & I3 & I4 & I5).
  rewrite I1. cbn [written_paths reads omap list_omap app].
  fold (written_paths (trace (for_each (λ k (_ : unit), write_file (Mnist.npy_name k) FOther)
                                keys tt (<[Mnist.npy_name k := FOther]> fs)))).
  fold (reads (trace (for_each (λ k (_ : unit), write_file (Mnist.npy_name k) FOther)
                        keys tt (<[Mnist.npy_name k := FOther]> fs)))).
  rewrite I2, I3. repeat split; try done.
  - intros p Hp. rewrite I4 by done. apply lookup_insert_ne. intros <-.
    by rewrite npy_name_ends_with in Hp.
  - intros p Hp. apply I5. destruct (decide (Mnist.npy_name k = p)) as [<-|Hne].
    + by rewrite lookup_insert_eq.
    + by rewrite lookup_insert_ne.
Qed.

End mnist_setup_steps.

Section mnist_early_exits.
Context `{Mnist.Collaborators}.

Lemma gpu_notice_run gpu0 fs :
  match gpu0 with Some g => emit (Print (MsgUseGpu g)) | None => ret tt end fs
  = (Ok tt, fs, gpu_notice gpu0).
Proof. by destruct gpu0. Qed.

Lemma mnist_prepare_unknown gpu0 args best tl fs :
  Mnist.zoo_has (Mnist.arch args) = false →
  Mnist.prepare gpu0 args best tl fs =
  (Ok None, fs,
   gpu_notice gpu0 ++
   [Print (if Mnist.pretrained args then MsgUsingPretrained (Mnist.arch args)
           else MsgCreatingModel (Mnist.arch args));
    Print (MsgNotSupported (Mnist.arch args))]).
Proof.
  intros Hzoo. unfold Mnist.prepare, Mnist.create_model.
  cbn [Mnist.gpu Mnist.set_gpu].
  assert (∀ a, Mnist.arch (if Mnist.gen_map a then Mnist.set_qw_qa (-1) (-1) a else a)
               = Mnist.arch a) as Harch by (intros a; by destruct (Mnist.gen_map a)).
  assert (∀ a, Mnist.pretrained (if Mnist.gen_map a then Mnist.set_qw_qa (-1) (-1) a else a)
               = Mnist.pretrained a) as Hpre by (intros a; by destruct (Mnist.gen_map a)).
  apply run_ext; mstep; rewrite gpu_notice_run; mstep;
    rewrite ?Harch, ?Hpre; cbn [Mnist.arch Mnist.pretrained Mnist.set_gpu];
    rewrite Hzoo; mstep; done.
Qed.

Lemma mnist_prepare_gen_map gpu0 args best tl fs :
  Mnist.gen_map args = true → Mnist.zoo_has (Mnist.arch args) = true →
  let json := "models/cifar10/" +:+ Mnist.arch args +:+ "_map.json" in
  let pre := gpu_notice gpu0 ++
             [Print (if Mnist.pretrained args then MsgUsingPretrained (Mnist.arch args)
                     else MsgCreatingModel (Mnist.arch args)); Print MsgModel] in
  Mnist.prepare gpu0 args best tl fs =
  if Mnist.zoo_has (Mnist.original_model args) then
    (Ok None, <[json := FOther]> fs,
     pre ++ [Print MsgOriginalModel; OpenWrite json; CloseWrite json FOther;
             Print MsgGenMapDone])
  else (Raise AssertionError, fs, pre).
Proof.
  intros Hgen Hzoo json pre. unfold Mnist.prepare, Mnist.create_model, Mnist.generate_key_map.
  cbn [Mnist.gpu Mnist.set_gpu Mnist.gen_map]. rewrite Hgen.
  cbn [Mnist.arch Mnist.pretrained Mnist.set_qw_qa Mnist.set_gpu Mnist.gen_map
         Mnist.original_model Mnist.qw Mnist.qa].
  rewrite Hzoo, Hgen.
  destruct (Mnist.zoo_has (Mnist.original_model args)).
  - apply run_ext; mstep; rewrite gpu_notice_run; mstep; rewrite ?write_file_run; mstep;
      rewrite ?write_file_run; msimpl; try done.
    subst pre. by rewrite <-app_assoc.
  - apply run_ext; mstep; rewrite gpu_notice_run; mstep; try done.
Qed.

Lemma mnist_prepare_no_device args best tl fs :
  Mnist.gen_map args = false → Mnist.zoo_has (Mnist.arch args) = true →
  Mnist.gpus args = None →
  Mnist.prepare None args best tl fs =
  (Raise TypeError, fs,
   [Print (if Mnist.pretrained args then MsgUsingPretrained (Mnist.arch args)
           else MsgCreatingModel (Mnist.arch args)); Print MsgModel]).
Proof.
  intros Hgen Hzoo Hgpus. unfold Mnist.prepare, Mnist.create_model, Mnist.select_device.
  cbn [Mnist.gpu Mnist.set_gpu Mnist.gen_map]. rewrite Hgen.
  cbn [Mnist.arch Mnist.pretrained Mnist.set_gpu Mnist.gen_map Mnist.gpu Mnist.gpus].
  rewrite Hzoo, Hgen, Hgpus. reflexivity.
Qed.

End mnist_early_exits.

(** ** The ImageNet worker *)

Lemma sampler_epochs_app t1 t2 :
  sampler_epochs (t1 ++ t2) = sampler_epochs t1 ++ sampler_epochs t2.
Proof. apply omap_app. Qed.

Lemma count_replicate_other p n :
  p SchedulerStep = false → count p (replicate n SchedulerStep) = 0%nat.
Proof. intros Hp. apply count_none. by apply replicate_not. Qed.

Lemma elem_of_py_range i lo hi : i ∈ py_range lo hi ↔ lo ≤ i < hi.
Proof.
  unfold py_range. rewrite list_elem_of_fmap. split.
  - intros (k & -> & Hk). apply elem_of_seq in Hk. lia.
  - intros Hi. exists (Z.to_nat (i - lo)). split; [lia|]. apply elem_of_seq. lia.
Qed.

Lemma setup_sampler_epochs tr :
  Forall (λ e, setup_event e = true) tr → sampler_epochs tr = [].
Proof.
  induction 1 as [|e tr He _ IH]; [done|]. destruct e; try discriminate He; exact IH.
Qed.

Lemma read_world_size_fields env_world_size args a :
  ImagenetMain.read_world_size env_world_size args = Ok a →
  Imagenet.rank a = Imagenet.rank args ∧ Imagenet.dist_url a = Imagenet.dist_url args ∧
  Imagenet.multiprocessing_distributed a = Imagenet.multiprocessing_distributed args ∧
  Imagenet.gpu a = Imagenet.gpu args.
Proof.
  unfold ImagenetMain.read_world_size.
  destruct (_ && _); [destruct env_world_size; [|done]|]; by intros [= <-].
Qed.

Section imagenet_whole_runs.
Context `{Imagenet.Env}.

Lemma imagenet_loop_args_const l w :
  Imagenet.w_args (foldl imagenet_step w l) = Imagenet.w_args w.
Proof. revert w. induction l as [|x l IH]; intros w; [done|]. cbn [foldl]. by rewrite IH. Qed.

Lemma imagenet_epoch_body_counts writer epoch w fs :
  let tr := trace (Imagenet.epoch_body writer epoch w fs) in
  let args := Imagenet.w_args w in
  trained_epochs tr = [epoch] ∧ count is_validate tr = 1%nat ∧
  count is_lr_step tr = 1%nat ∧ count is_dnq_step tr = 1%nat ∧
  sampler_epochs tr = (if Imagenet.distributed args then [epoch] else []) ∧
  init_calls tr = [] ∧
  count is_writer_close tr = 0%nat.
Proof.
  cbv zeta. rewrite imagenet_epoch_body_run. cbn [trace snd].
  unfold imagenet_epoch_events, imagenet_scalar_events.
  rewrite save_checkpoint_run.
  rewrite !trained_epochs_app, !count_app, !sampler_epochs_app, !init_calls_app.
  destruct writer; [destruct (Imagenet.debug _ && _), (py_gt _ _)|];
    destruct (Imagenet.distributed _); done.
Qed.

(** The epoch loop of the ImageNet worker. *)
Lemma imagenet_loop_counts writer l w fs :
  let tr := trace (for_each (Imagenet.epoch_body writer) l w fs) in
  let args := Imagenet.w_args w in
  trained_epochs tr = l ∧ count is_validate tr = length l ∧
  count is_lr_step tr = length l ∧ count is_dnq_step tr = length l ∧
  sampler_epochs tr = (if Imagenet.distributed args then l else []) ∧
  init_calls tr = [] ∧
  count is_writer_close tr = 0%nat.
Proof.
  cbv zeta. revert w fs. induction l as [|ep l IH]; intros w fs.
  { cbn. by destruct (Imagenet.distributed _). }
  cbn [for_each]. mstep.
  destruct (imagenet_epoch_body_counts writer ep w fs) as (E1 & E2 & E3 & E4 & E5 & E6 & E7).
  rewrite imagenet_epoch_body_run. cbn [outcome store fst snd].
  rewrite <-(imagenet_epoch_body_run writer ep w fs).
  match goal with
  | |- context [for_each _ l ?w1 ?fs1] =>
      destruct (IH w1 fs1) as (I1 & I2 & I3 & I4 & I5 & I6 & I7)
  end.
  cbn [Imagenet.w_args] in I5.
  rewrite !trained_epochs_app, !count_app, !sampler_epochs_app, !init_calls_app.
  rewrite E1, E2, E3, E4, E5, E6, E7, I1, I2, I3, I4, I5, I6, I7.
  cbn [length]. destruct (Imagenet.distributed _); repeat split; done.
Qed.

Lemma imagenet_evaluate_or_train_quiet writer w :
  emits (λ e, is_init_group e = false) (Imagenet.evaluate_or_train writer w).
Proof.
  unfold Imagenet.evaluate_or_train, Imagenet.skip_ahead, Imagenet.epoch_body,
    Imagenet.save_checkpoint, torch_save, copyfile.
  emits_tac.
Qed.

Lemma no_init_calls tr : Forall (λ e, is_init_group e = false) tr → init_calls tr = [].
Proof.
  induction 1 as [|e tr He _ IH]; [done|]. destruct e; try discriminate He; exact IH.
Qed.

Lemma imagenet_after_join_quiet ngpus args best :
  emits (λ e, is_init_group e = false)
    (let args := if Imagenet.gen_map args then Imagenet.set_qw_qa (-1) (-1) args else args in
     am <- Imagenet.create_model args ;;
     let args := am.1 in
     let model := am.2 in
     emit (Print MsgModel) ;;;
     if Imagenet.gen_map args then
       emit GenKeyMap ;;; ret None
     else
       emit ProcessModel ;;;
       let p := Imagenet.process_model args (model, Imagenet.fresh_optimizer) in
       let args := p.1 in
       let writer := Imagenet.has_writer args ngpus in
       when (((Imagenet.qw args <=? 0) && (Imagenet.qa args <=? 0)) || Imagenet.evaluate args)
         (when writer (emit ModelInfo)) ;;;
       let args := Imagenet.set_batch_num Imagenet.train_batches args in
       ret (Some (writer, Imagenet.Worker args p.2.1 p.2.2 best))).
Proof. unfold Imagenet.create_model. cbv zeta. emits_tac. Qed.

(** The calls of [init_process_group] of a worker are those of its
    [join_group] step. *)
Lemma imagenet_main_worker_init env_rank gpu0 ngpus args best fs :
  init_calls (trace (Imagenet.main_worker env_rank gpu0 ngpus args best fs)) =
  init_calls (trace (Imagenet.join_group env_rank ngpus (Imagenet.set_gpu gpu0 args) fs)).
Proof.
  rewrite imagenet_main_worker_run. cbv zeta.
  assert (init_calls (trace (Imagenet.prepare env_rank gpu0 ngpus args best fs)) =
          init_calls (trace (Imagenet.join_group env_rank ngpus
                               (Imagenet.set_gpu gpu0 args) fs))) as Hprep.
  { unfold Imagenet.prepare. cbn [Imagenet.gpu Imagenet.set_gpu]. mproj.
    rewrite gpu_notice_run. cbn [outcome store trace fst snd].
    rewrite !init_calls_app.
    replace (init_calls (gpu_notice gpu0)) with (@nil (Z * Z)) by (by destruct gpu0).
    destruct (outcome (Imagenet.join_group _ _ _ _)) as [a|e];
      [|change (init_calls []) with (@nil (Z * Z)); by rewrite app_nil_r].
    match goal with
    | |- _ ++ _ ++ init_calls ?t = _ => assert (init_calls t = []) as ->
    end; [|by rewrite app_nil_r].
    apply no_init_calls. apply (imagenet_after_join_quiet ngpus a best). }
  destruct (outcome (Imagenet.prepare _ _ _ _ _ _)) as [[[writer w]|]|e];
    cbn [trace snd]; rewrite ?init_calls_app, ?Hprep; try done.
  rewrite (no_init_calls (trace (Imagenet.evaluate_or_train _ _ _)));
    [by rewrite app_nil_r|]. apply imagenet_evaluate_or_train_quiet.
Qed.

Lemma join_group_spawned env_rank ngpus args i fs :
  Imagenet.distributed args = true → Imagenet.multiprocessing_distributed args = true →
  Imagenet.dist_url args ≠ "env://" ∨ Imagenet.rank args ≠ -1 →
  Imagenet.gpu args = Some i →
  Imagenet.join_group env_rank ngpus args fs =
  (Ok (Imagenet.set_rank (Imagenet.rank args * ngpus + i) args), fs,
   [InitProcessGroup (Imagenet.world_size args) (Imagenet.rank args * ngpus + i)]).
Proof.
  intros Hd Hmp Hrank Hgpu. unfold Imagenet.join_group. rewrite Hd.
  assert (bool_decide (Imagenet.dist_url args = "env://") && (Imagenet.rank args =? -1)
          = false) as ->.
  { destruct Hrank as [Hu'|Hr'].
    - by rewrite bool_decide_eq_false_2.
    - apply Z.eqb_neq in Hr'. rewrite Hr'. apply andb_false_r. }
  apply run_ext; mstep; rewrite Hmp, Hgpu; mstep; done.
Qed.

Lemma imagenet_prepare_unknown env_rank gpu0 ngpus args best fs :
  Imagenet.distributed args = false →
  Imagenet.torchvision_has (Imagenet.arch args) = false →
  Imagenet.extra_has (Imagenet.arch args) = false →
  Imagenet.prepare env_rank gpu0 ngpus args best fs =
  (Raise KeyError, fs,
   gpu_notice gpu0 ++
   [Print (if Imagenet.pretrained args then MsgUsingPretrained (Imagenet.arch args)
           else MsgCreatingModel (Imagenet.arch args))]).
Proof.
  intros Hdist Htv Hex. unfold Imagenet.prepare, Imagenet.join_group, Imagenet.create_model.
  cbn [Imagenet.gpu Imagenet.set_gpu Imagenet.distributed]. rewrite Hdist.
  assert (∀ a, Imagenet.arch (if Imagenet.gen_map a then Imagenet.set_qw_qa (-1) (-1) a
                              else a) = Imagenet.arch a) as Harch
    by (intros a; by destruct (Imagenet.gen_map a)).
  assert (∀ a, Imagenet.pretrained (if Imagenet.gen_map a then Imagenet.set_qw_qa (-1) (-1) a
                                    else a) = Imagenet.pretrained a) as Hpre
    by (intros a; by destruct (Imagenet.gen_map a)).
  apply run_ext; mstep; rewrite gpu_notice_run; mstep;
    rewrite ?Harch, ?Hpre; cbn [Imagenet.arch Imagenet.pretrained Imagenet.set_gpu];
    rewrite Htv, Hex; mstep; done.
Qed.

Lemma imagenet_prepare_gen_map env_rank gpu0 ngpus args best fs :
  Imagenet.distributed args = false → Imagenet.gen_map args = true →
  Imagenet.torchvision_has (Imagenet.arch args) = true ∨
  Imagenet.extra_has (Imagenet.arch args) = true →
  Imagenet.prepare env_rank gpu0 ngpus args best fs =
  (Ok None, fs,
   gpu_notice gpu0 ++
   [Print (if Imagenet.pretrained args then MsgUsingPretrained (Imagenet.arch args)
           else MsgCreatingModel (Imagenet.arch args)); Print MsgModel; GenKeyMap]).
Proof.
  intros Hdist Hgen Hzoo. unfold Imagenet.prepare, Imagenet.join_group, Imagenet.create_model.
  cbn [Imagenet.gpu Imagenet.set_gpu Imagenet.distributed Imagenet.gen_map].
  rewrite Hdist.
  destruct (Imagenet.torchvision_has (Imagenet.arch args)) eqn:Htv.
  - apply run_ext;
      repeat (progress (mstep; rewrite ?gpu_notice_run;
                cbn [Imagenet.gen_map Imagenet.set_qw_qa Imagenet.set_gpu Imagenet.arch
                       Imagenet.pretrained];
                rewrite ?Hgen, ?Htv)); done.
  - destruct Hzoo as [|Hex]; [done|].
    destruct (Imagenet.contains "q" (Imagenet.arch args)
              && negb (Imagenet.contains "seq" (Imagenet.arch args)))
      eqn:Hq;
      apply run_ext;
      repeat (progress (mstep; rewrite ?gpu_notice_run;
                cbn [Imagenet.gen_map Imagenet.set_qw_qa Imagenet.set_gpu Imagenet.arch
                       Imagenet.pretrained];
                rewrite ?Hgen, ?Htv, ?Hex, ?Hq)); done.
Qed.

End imagenet_whole_runs.

Section mnist_reports.
Context `{Mnist.Collaborators}.

Lemma validate_reports loader model args fs :
  Mnist.extract_inner_data args = true ∨ Mnist.print_freq args ≠ 0 →
  Print (MsgAcc1 (val_result args model loader)) ∈ trace (Mnist.validate loader model args fs).
Proof.
  intros Hok.
  destruct (validate_pass loader model args fs Hok) as (V1 & _).
  revert V1. unfold Mnist.validate. mstep.
  destruct (outcome (Mnist.validate_loop _ _ _ _ _ _)) as [top1|e]; [|done].
  mstep. intros Heq.
  assert (meter_mean top1 = val_result args model loader) as -> by congruence.
  rewrite !elem_of_cons, elem_of_app, !elem_of_cons. auto.
Qed.


End mnist_reports.

(** ** The batch loops, the runs and the set-up *)



(** X2: in a run of the MNIST worker whose epochs are not cut short, the
    steps under which the training loss is logged are consecutive: they
    run from [start_epoch * len(train_loader)] up to
    [epochs * len(train_loader) - 1], one per training batch, so a run
    resumed at epoch [N] continues the curve where epoch [N - 1] ended. *)
Theorem train_global_steps_contiguous (C : Mnist.Collaborators)
    gpu0 args best0 tl loader fs w :
  outcome (Mnist.prepare gpu0 args best0 tl fs) = Ok (Some w) →
  let a := Mnist.w_args w in
  Mnist.evaluate a = false → Mnist.dali a = false → Mnist.print_freq a ≠ 0 →
  Mnist.start_epoch a ≤ Mnist.epochs a →
  scalar_steps "train/loss" (trace (Mnist.main_worker gpu0 args best0 tl loader fs))
  = seqZ (Mnist.start_epoch a * Z.of_nat (length tl))
      ((Mnist.epochs a - Mnist.start_epoch a) * Z.of_nat (length tl)).
Proof.
  intros Hprep a Hev Hd Hpf Hle.
  destruct (mnist_main_worker_normal gpu0 args best0 tl loader fs w Hprep Hev Hd Hpf)
    as (_ & _ & _ & _ & _ & -> & _).
  pose proof (mnist_prepare_batch_num gpu0 args best0 tl fs _ Hprep w eq_refl) as Hbn.
  subst a.
  cbn [mnist_loop_args Mnist.set_log_name Mnist.batch_num Mnist.start_epoch Mnist.epochs].
  rewrite Hbn. apply concat_seqZ_py_range; lia.
Qed.

Lemma train_global_steps_contiguous_witness :
  ∃ w, outcome (Mnist.prepare (H:=Scenario.lenet_70_68) (Some 0) Cases.mnist_args_gpu
                  (Scenario.q 0) [Scenario.b0; Scenario.b1] ∅) = Ok (Some w) ∧
       scalar_steps "train/loss"
         (trace (Mnist.main_worker (H:=Scenario.lenet_70_68) (Some 0) Cases.mnist_args_gpu
                   (Scenario.q 0) [Scenario.b0; Scenario.b1] Scenario.loader2 ∅))
       = seqZ (Mnist.start_epoch (Mnist.w_args w) * 2)
           ((Mnist.epochs (Mnist.w_args w) - Mnist.start_epoch (Mnist.w_args w)) * 2).
Proof.
  eexists. split; [vm_compute; reflexivity|].
  apply (train_global_steps_contiguous Scenario.lenet_70_68 (Some 0) Cases.mnist_args_gpu
           (Scenario.q 0) [Scenario.b0; Scenario.b1] Scenario.loader2 ∅).
  - vm_compute. reflexivity.
  - reflexivity.
  - reflexivity.
  - vm_compute. discriminate.
  - vm_compute. discriminate.
Defined.

(** X3: with [--dali] no epoch of the MNIST loop completes: the iteration
    raises (on the first training batch, or at [train_loader.reset()] when
    the loader is empty) before any optimizer step and before validation,
    and no file is written. *)
Theorem dali_never_completes_an_epoch (C : Mnist.Collaborators) tl loader epoch w fs :
  Mnist.dali (Mnist.w_args w) = true →
  let x := Mnist.epoch_body tl loader epoch w fs in
  (∃ e, outcome x = Raise e) ∧ store x = fs ∧
  forwarded (trace x) = [] ∧
  count is_optimizer_step (trace x) = 0%nat ∧
  count is_validate (trace x) = 0%nat ∧
  written_paths (trace x) = [].
Proof.
  intros Hd x. subst x. rewrite mnist_epoch_body_run. cbv zeta.
  destruct tl as [|b rest].
  - rewrite train_outcome, Hd. cbn. eauto 10.
  - rewrite train_first_batch_dali by done. cbn. eauto 10.
Qed.

Lemma dali_never_completes_an_epoch_witness :
  let x := Mnist.epoch_body (H:=Scenario.lenet_70_68) [Scenario.b1] Scenario.loader2 0
             (Mnist.Worker Cases.mnist_args_dali [] [] (Scenario.q 0)) ∅ in
  (∃ e, outcome x = Raise e) ∧ store x = ∅ ∧ forwarded (trace x) = [] ∧
  count is_optimizer_step (trace x) = 0%nat ∧
  count is_validate (trace x) = 0%nat ∧
  written_paths (trace x) = [].
Proof.
  apply (dali_never_completes_an_epoch Scenario.lenet_70_68 [Scenario.b1] Scenario.loader2 0
           (Mnist.Worker Cases.mnist_args_dali [] [] (Scenario.q 0)) ∅).
  reflexivity.
Defined.





(** X6: whatever a validation pass returns lies between the smallest and
    the largest accuracy of a batch: if every batch of the loader scores
    between [lo] and [hi], so does the result (in particular it is a
    percentage when the batch accuracies are). *)
Theorem validate_result_within_bounds (C : Mnist.Collaborators)
    loader model args fs (lo hi r : Qc) :
  Forall (λ b, lo ≤ Mnist.top1_acc model b ∧ Mnist.top1_acc model b ≤ hi)%Qc
    (Mnist.val_batches loader) →
  outcome (Mnist.validate loader model args fs) = Ok r →
  (lo ≤ r ∧ r ≤ hi)%Qc.
Proof.
  intros Hall Hr. rewrite validate_outcome in Hr.
  destruct (_ || _); [|done]. injection Hr as <-.
  rewrite val_result_weighted_mean.
  assert (Forall (λ b, lo ≤ Mnist.top1_acc model b ∧ Mnist.top1_acc model b ≤ hi)%Qc
            (evaluated_batches args loader)) as Hev.
  { unfold evaluated_batches, Mnist.val_batches in *.
    destruct (Mnist.extract_inner_data args); [|done].
    apply Forall_cons in Hall as [Hb _]. by apply Forall_singleton. }
  destruct (weighted_acc_bounds model lo hi _ Hev) as [Hlo Hhi].
  apply mean_bounds; [|done|done].
  rewrite <-Z2Qc_inj_0. apply (proj1 (Z2Qc_inj_lt _ _)).
  unfold evaluated_batches, Mnist.val_batches.
  destruct (Mnist.extract_inner_data args); apply samples_pos.
Qed.

Lemma validate_result_within_bounds_witness :
  ∃ r, outcome (Mnist.validate (H:=Scenario.lenet_first_batch) Scenario.loader2 []
                  Scenario.mnist_args ∅) = Ok r ∧
       (Scenario.q 0 ≤ r ∧ r ≤ Scenario.q 100)%Qc.
Proof.
  eexists. split; [vm_compute; reflexivity|].
  apply (validate_result_within_bounds Scenario.lenet_first_batch Scenario.loader2 []
           Scenario.mnist_args ∅ (Scenario.q 0) (Scenario.q 100)).
  - repeat constructor; vm_compute; discriminate.
  - vm_compute. reflexivity.
Defined.

(** X7: a run of the MNIST worker whose epochs are not cut short trains
    the epochs [start_epoch .. epochs - 1] once each and in order, with one
    scheduler step and one validation pass per epoch and one optimizer
    step per training batch; it writes the latest checkpoint once per
    epoch, labelled with the number of the next epoch, and when at least
    one epoch ran the latest file finally holds epoch [epochs] together
    with the parameters, optimizer state and best metric the worker ends
    with. *)
Theorem mnist_run_trains_each_epoch_once (C : Mnist.Collaborators)
    gpu0 args best0 tl loader fs w :
  outcome (Mnist.prepare gpu0 args best0 tl fs) = Ok (Some w) →
  let a := Mnist.w_args w in
  Mnist.evaluate a = false → Mnist.dali a = false → Mnist.print_freq a ≠ 0 →
  let x := Mnist.main_worker gpu0 args best0 tl loader fs in
  let l := py_range (Mnist.start_epoch a) (Mnist.epochs a) in
  let latest := latest_path (mnist_prefix (mnist_loop_args a)) in
  trained_epochs (trace x) = l ∧
  count is_lr_step (trace x) = length l ∧
  count is_validate (trace x) = length l ∧
  count is_optimizer_step (trace x) = (length l * length tl)%nat ∧
  ck_epoch <$> records_at latest (trace x) = (λ e, e + 1) <$> l ∧
  ∃ w', outcome x = Ok (Some w') ∧
        (Mnist.start_epoch a < Mnist.epochs a →
         store x !! latest =
         Some (FCheckpoint {| ck_epoch := Mnist.epochs a; ck_arch := Mnist.arch a;
                              ck_state_dict := Mnist.w_model w';
                              ck_best_acc1 := Mnist.w_best_acc1 w';
                              ck_optimizer := Mnist.w_optimizer w' |})).
Proof.
  intros Hprep a Hev Hd Hpf x l latest.
  destruct (mnist_main_worker_normal gpu0 args best0 tl loader fs w Hprep Hev Hd Hpf)
    as (N1 & N2 & N3 & N4 & N5 & _ & _ & N8 & N9).
  repeat split; try done.
  eexists. split; [exact N1|]. intros Hlt. subst x latest a.
  rewrite (N9 (Mnist.epochs (Mnist.w_args w) - 1)) by (by apply last_py_range).
  unfold mnist_record. cbn [fst snd mnist_loop_args Mnist.set_log_name Mnist.arch].
  do 3 f_equal. lia.
Qed.

Lemma mnist_run_trains_each_epoch_once_witness :
  let x := Mnist.main_worker (H:=Scenario.lenet_70_68) (Some 0) Cases.mnist_args_gpu
             (Scenario.q 0) [Scenario.b0; Scenario.b1] Scenario.loader2 ∅ in
  ∃ w, outcome (Mnist.prepare (H:=Scenario.lenet_70_68) (Some 0) Cases.mnist_args_gpu
                  (Scenario.q 0) [Scenario.b0; Scenario.b1] ∅) = Ok (Some w) ∧
       trained_epochs (trace x)
         = py_range (Mnist.start_epoch (Mnist.w_args w)) (Mnist.epochs (Mnist.w_args w)) ∧
       ∃ w', outcome x = Ok (Some w') ∧
             store x !! latest_path (mnist_prefix (mnist_loop_args (Mnist.w_args w))) =
             Some (FCheckpoint
                     {| ck_epoch := Mnist.epochs (Mnist.w_args w);
                        ck_arch := Mnist.arch (Mnist.w_args w);
                        ck_state_dict := Mnist.w_model w';
                        ck_best_acc1 := Mnist.w_best_acc1 w';
                        ck_optimizer := Mnist.w_optimizer w' |}).
Proof.
  eexists. split; [vm_compute; reflexivity|].
  destruct (mnist_run_trains_each_epoch_once Scenario.lenet_70_68 (Some 0)
              Cases.mnist_args_gpu (Scenario.q 0) [Scenario.b0; Scenario.b1]
              Scenario.loader2 ∅ _ eq_refl eq_refl eq_refl
              ltac:(vm_compute; discriminate)) as (H1 & _ & _ & _ & _ & w' & H6 & H7).
  split; [exact H1|]. exists w'. split; [exact H6|]. apply H7. vm_compute. reflexivity.
Defined.

(** X8: a run resumed from the latest checkpoint of an earlier run
    continues where that run ended.  When the first run completed its
    epochs up to [epochs1], a second run given that file as [--resume]
    starts from the parameters, optimizer state and best metric the first
    run ended with and trains exactly the epochs [epochs1 .. epochs2 - 1]:
    over both runs every epoch is trained once, and none when
    [epochs2 <= epochs1]. *)
Theorem resumed_run_continues_where_first_ended (C : Mnist.Collaborators)
    gpu1 args1 best1 tl1 loader1 fs w1 gpu2 args2 best2 tl2 loader2 :
  outcome (Mnist.prepare gpu1 args1 best1 tl1 fs) = Ok (Some w1) →
  let a1 := mnist_loop_args (Mnist.w_args w1) in
  Mnist.evaluate a1 = false → Mnist.dali a1 = false → Mnist.print_freq a1 ≠ 0 →
  Mnist.start_epoch a1 < Mnist.epochs a1 →
  let run1 := Mnist.main_worker gpu1 args1 best1 tl1 loader1 fs in
  Mnist.resume args2 = latest_path (mnist_prefix a1) →
  Mnist.gen_map args2 = false → Mnist.zoo_has (Mnist.arch args2) = true →
  is_Some gpu2 ∨ is_Some (Mnist.gpus args2) →
  Mnist.quant_bias_scale args2 = false → Mnist.resume_after args2 = "" →
  Mnist.evaluate args2 = false → Mnist.dali args2 = false → Mnist.print_freq args2 ≠ 0 →
  let run2 := Mnist.main_worker gpu2 args2 best2 tl2 loader2 (store run1) in
  trained_epochs (trace run2) = py_range (Mnist.epochs a1) (Mnist.epochs args2) ∧
  (Mnist.epochs a1 ≤ Mnist.epochs args2 →
   trained_epochs (trace run1) ++ trained_epochs (trace run2)
   = py_range (Mnist.start_epoch a1) (Mnist.epochs args2)) ∧
  ∃ w1' w2,
    outcome run1 = Ok (Some w1') ∧
    outcome (Mnist.prepare gpu2 args2 best2 tl2 (store run1)) = Ok (Some w2) ∧
    Mnist.w_model w2 = rewritten args2 (Mnist.w_model w1') ∧
    Mnist.w_optimizer w2 = Mnist.w_optimizer w1' ∧
    Mnist.w_best_acc1 w2 = Mnist.w_best_acc1 w1' ∧
    Mnist.start_epoch (Mnist.w_args w2) = Mnist.epochs a1.
Proof.
  intros Hprep1 a1 Hev1 Hd1 Hpf1 Hlt1 run1 Hres Hgen Hzoo Hdev Hqbs Haft Hev2 Hd2 Hpf2 run2.
  destruct (mnist_main_worker_normal gpu1 args1 best1 tl1 loader1 fs w1 Hprep1 Hev1 Hd1 Hpf1)
    as (N1 & N2 & _ & _ & _ & _ & _ & _ & N9).
  fold a1 run1 in N1, N2, N9.
  specialize (N9 (Mnist.epochs a1 - 1) (last_py_range _ _ Hlt1)).
  set (w1' := foldl (mnist_step tl1 loader1)
                (Mnist.Worker a1 (Mnist.w_model w1) (Mnist.w_optimizer w1)
                   (Mnist.w_best_acc1 w1))
                (py_range (Mnist.start_epoch a1) (Mnist.epochs a1))) in *.
  set (c := mnist_record a1 (Mnist.epochs a1 - 1) (Mnist.w_model w1', Mnist.w_optimizer w1')
              (Mnist.w_best_acc1 w1')) in *.
  set (w0 := Mnist.Worker (Mnist.set_gpu gpu2 args2)
               (Mnist.model_init (Mnist.arch args2) (Mnist.pretrained args2)
                  (Mnist.qw args2) (Mnist.qa args2))
               Mnist.fresh_optimizer best2).
  assert (Mnist.resume_checkpoint w0 (store run1) =
          (Ok (Mnist.Worker (Mnist.set_start_epoch (ck_epoch c) (Mnist.set_gpu gpu2 args2))
                 (ck_state_dict c) (ck_optimizer c) (ck_best_acc1 c)),
           <[Mnist.arch args2 +:+ ".pth" := FStateDict (ck_state_dict c)]> (store run1),
           [Print (MsgLoadingCheckpoint (Mnist.resume args2)); ReadFile (Mnist.resume args2);
            Print (MsgLoadedCheckpoint (Mnist.resume args2) (ck_epoch c) (ck_best_acc1 c));
            Print (MsgSaveOnlyWeights (Mnist.arch args2));
            OpenWrite (Mnist.arch args2 +:+ ".pth");
            CloseWrite (Mnist.arch args2 +:+ ".pth") (FStateDict (ck_state_dict c))]))
    as Hresume.
  { apply (resume_checkpoint_valid w0 (store run1) c); cbn [Mnist.w_args w0 Mnist.set_gpu
      Mnist.resume Mnist.quant_bias_scale]; [|by rewrite Hres|done].
    rewrite Hres. apply latest_path_nonempty. }
  pose proof (mnist_prepare_outcome gpu2 args2 best2 tl2 (store run1) _ Hgen Hzoo Hdev
                (f_equal outcome Hresume) Haft) as Hprep2.
  cbn [Mnist.w_args Mnist.w_model Mnist.w_optimizer Mnist.w_best_acc1] in Hprep2.
  destruct (mnist_main_worker_normal gpu2 args2 best2 tl2 loader2 (store run1) _ Hprep2
              Hev2 Hd2 Hpf2) as (_ & M2 & _).
  fold run2 in M2.
  assert (ck_epoch c = Mnist.epochs a1) as Hck by (cbn; lia).
  assert (trained_epochs (trace run2) = py_range (Mnist.epochs a1) (Mnist.epochs args2))
    as Hrun2.
  { rewrite M2.
    cbn [mnist_loop_args Mnist.set_log_name Mnist.start_epoch Mnist.epochs Mnist.w_args
           Mnist.set_batch_num Mnist.set_start_epoch Mnist.set_gpu].
    by rewrite Hck. }
  split; [exact Hrun2|]. split.
  { intros Hle. rewrite N2, Hrun2. apply py_range_app; lia. }
  eexists w1', _. split; [exact N1|]. split; [exact Hprep2|].
  cbn [Mnist.w_model Mnist.w_optimizer Mnist.w_best_acc1 Mnist.w_args Mnist.set_batch_num
         Mnist.start_epoch Mnist.set_start_epoch].
  rewrite Hck. repeat split; try done.
Qed.

Lemma resumed_run_continues_where_first_ended_witness :
  let run1 := Mnist.main_worker (H:=Scenario.lenet_70_68) (Some 0) Cases.mnist_args_gpu
                (Scenario.q 0) [Scenario.b0; Scenario.b1] Scenario.loader2 ∅ in
  let run2 := Mnist.main_worker (H:=Scenario.lenet_70_68) (Some 0) Cases.mnist_args_continue
                (Scenario.q 0) [Scenario.b0; Scenario.b1] Scenario.loader2 (store run1) in
  ∃ w1, outcome (Mnist.prepare (H:=Scenario.lenet_70_68) (Some 0) Cases.mnist_args_gpu
                   (Scenario.q 0) [Scenario.b0; Scenario.b1] ∅) = Ok (Some w1) ∧
        trained_epochs (trace run2)
        = py_range (Mnist.epochs (mnist_loop_args (Mnist.w_args w1)))
            (Mnist.epochs Cases.mnist_args_continue).
Proof.
  eexists. split; [vm_compute; reflexivity|].
  refine (proj1 (resumed_run_continues_where_first_ended Scenario.lenet_70_68 (Some 0)
                   Cases.mnist_args_gpu (Scenario.q 0) [Scenario.b0; Scenario.b1]
                   Scenario.loader2 ∅ _ (Some 0) Cases.mnist_args_continue (Scenario.q 0)
                   [Scenario.b0; Scenario.b1] Scenario.loader2
                   _ _ _ _ _ _ _ _ _ _ _ _ _ _)).
  - vm_compute. reflexivity.
  - reflexivity.
  - reflexivity.
  - vm_compute. discriminate.
  - vm_compute. reflexivity.
  - vm_compute. reflexivity.
  - reflexivity.
  - reflexivity.
  - left. by eexists.
  - reflexivity.
  - reflexivity.
  - reflexivity.
  - reflexivity.
  - vm_compute. discriminate.
Defined.

(** An iteration of the MNIST loop that completes leaves the command line
    of the worker as it was. *)
Lemma mnist_epoch_body_step `{Mnist.Collaborators} tl loader epoch w fs w1 :
  outcome (Mnist.epoch_body tl loader epoch w fs) = Ok w1 →
  let args := Mnist.w_args w in
  let acc1 := val_result args (Mnist.w_model w1) loader in
  let c := mnist_record args epoch (Mnist.w_model w1, Mnist.w_optimizer w1)
             (Mnist.w_best_acc1 w1) in
  Mnist.w_args w1 = args ∧
  Mnist.w_best_acc1 w1 = py_max acc1 (Mnist.w_best_acc1 w) ∧
  store (Mnist.epoch_body tl loader epoch w fs) !! best_path (mnist_prefix args) =
    (if py_gt acc1 (Mnist.w_best_acc1 w) then Some (FCheckpoint c)
     else fs !! best_path (mnist_prefix args)).
Proof.
  intros Hok args acc1 c.
  destruct (mnist_epoch_body_completed tl loader epoch w fs w1 Hok) as (Hw & _ & Hst).
  rewrite Hst, save_checkpoint_store_best. rewrite Hw at 1 2. by cbn.
Qed.

Lemma for_each_cons_ok {A S} (body : A → S → M S) x l s fs s' :
  outcome (for_each body (x :: l) s fs) = Ok s' →
  ∃ s1, outcome (body x s fs) = Ok s1 ∧
        outcome (for_each body l s1 (store (body x s fs))) = Ok s' ∧
        store (for_each body (x :: l) s fs) = store (for_each body l s1 (store (body x s fs))).
Proof.
  cbn [for_each]. mstep. destruct (outcome (body x s fs)) as [s1|e]; [|done].
  intros Hok. by exists s1.
Qed.

(** X9: the best file always carries the best model.  Once the best file
    of a run holds a dictionary whose metric is the tracked best and is
    what validation gives for the parameters stored with it, this stays so
    after any number of completed epochs; and it becomes so as soon as an
    epoch improves on the best metric. *)
Theorem best_file_holds_best_model (C : Mnist.Collaborators) tl loader l w fs w' :
  outcome (for_each (Mnist.epoch_body tl loader) l w fs) = Ok w' →
  best_file_tracks loader w fs ∨ (Mnist.w_best_acc1 w < Mnist.w_best_acc1 w')%Qc →
  best_file_tracks loader w' (store (for_each (Mnist.epoch_body tl loader) l w fs)).
Proof.
  revert w fs. induction l as [|ep l IH]; intros w fs Hok Hinit.
  { cbn in Hok. injection Hok as <-. destruct Hinit as [?|Hlt]; [done|].
    by apply Qclt_not_eq in Hlt. }
  destruct (for_each_cons_ok _ _ _ _ _ _ Hok) as (w1 & H1 & Hrest & ->).
  destruct (mnist_epoch_body_step tl loader ep w fs w1 H1) as (Hargs & Hbest & Hfile).
  apply IH; [done|].
  destruct (py_max_cases (val_result (Mnist.w_args w) (Mnist.w_model w1) loader)
              (Mnist.w_best_acc1 w)) as [[Hgt Hmax]|[Hgt Hmax]];
    rewrite Hgt in Hfile; rewrite Hmax in Hbest.
  - left. eexists. rewrite Hargs. split; [exact Hfile|]. cbn. by rewrite Hbest.
  - destruct Hinit as [(c & Hc1 & Hc2 & Hc3)|Hlt].
    + left. exists c. rewrite Hargs, Hfile, Hbest. done.
    + right. by rewrite Hbest.
Qed.

Lemma best_file_holds_best_model_witness :
  ∃ w', outcome (for_each (Mnist.epoch_body (H:=Scenario.lenet_70_68) [Scenario.b1]
                             Scenario.loader2) [0; 1] Scenario.mnist_worker ∅) = Ok w' ∧
        best_file_tracks (H:=Scenario.lenet_70_68) Scenario.loader2 w'
          (store (for_each (Mnist.epoch_body (H:=Scenario.lenet_70_68) [Scenario.b1]
                              Scenario.loader2) [0; 1] Scenario.mnist_worker ∅)).
Proof.
  eexists. split; [vm_compute; reflexivity|].
  apply (best_file_holds_best_model Scenario.lenet_70_68).
  - vm_compute. reflexivity.
  - right. vm_compute. reflexivity.
Defined.

(** X10: when the start epoch is not below the number of epochs (as after
    resuming from the checkpoint of a finished run), the MNIST worker
    trains and validates nothing and writes no checkpoint; it still opens
    the metric writer and rewrites the description of the model, and
    returns with the parameters it was set up with. *)
Theorem mnist_no_epoch_left (C : Mnist.Collaborators) gpu0 args best0 tl loader fs w :
  outcome (Mnist.prepare gpu0 args best0 tl fs) = Ok (Some w) →
  let a := mnist_loop_args (Mnist.w_args w) in
  Mnist.evaluate a = false → Mnist.epochs a ≤ Mnist.start_epoch a →
  let x := Mnist.main_worker gpu0 args best0 tl loader fs in
  let txt := Mnist.log_name a +:+ "/" +:+ Mnist.arch a +:+ ".txt" in
  outcome x = Ok (Some (Mnist.Worker a (Mnist.w_model w) (Mnist.w_optimizer w)
                          (Mnist.w_best_acc1 w))) ∧
  store x = <[txt := FOther]> (store (Mnist.prepare gpu0 args best0 tl fs)) ∧
  trained_epochs (trace x) = [] ∧ forwarded (trace x) = [] ∧
  count is_validate (trace x) = 0%nat ∧ count is_lr_step (trace x) = 0%nat ∧
  records (trace x) = [] ∧
  WriterOpen (Mnist.log_name a) ∈ trace x.
Proof.
  intros Hprep a Hev Hle x txt. subst x.
  rewrite mnist_main_worker_run, Hprep. cbv zeta.
  rewrite mnist_evaluate_or_train_loop by exact Hev. fold a.
  rewrite (py_range_empty (Mnist.start_epoch a)) by done.
  pose proof (mnist_prepare_events gpu0 args best0 tl fs) as Hsetup.
  cbn [for_each outcome store trace ret fst snd].
  rewrite trained_epochs_app, forwarded_app, !count_app, records_app.
  rewrite setup_trained_epochs, setup_forwarded, setup_records by done.
  rewrite (setup_count is_validate _ ltac:(by intros []) Hsetup).
  rewrite (setup_count is_lr_step _ ltac:(by intros []) Hsetup).
  repeat split; try done.
  apply elem_of_app. right. by constructor.
Qed.

Lemma mnist_no_epoch_left_witness :
  ∃ w, outcome (Mnist.prepare (H:=Scenario.lenet_70_68) (Some 0) Cases.mnist_args_finished
                  (Scenario.q 0) [Scenario.b1] Cases.store_finished) = Ok (Some w) ∧
       trained_epochs
         (trace (Mnist.main_worker (H:=Scenario.lenet_70_68) (Some 0)
                   Cases.mnist_args_finished (Scenario.q 0) [Scenario.b1]
                   Scenario.loader2 Cases.store_finished)) = [] ∧
       records
         (trace (Mnist.main_worker (H:=Scenario.lenet_70_68) (Some 0)
                   Cases.mnist_args_finished (Scenario.q 0) [Scenario.b1]
                   Scenario.loader2 Cases.store_finished)) = [].
Proof.
  eexists. split; [vm_compute; reflexivity|].
  destruct (mnist_no_epoch_left Scenario.lenet_70_68 (Some 0) Cases.mnist_args_finished
              (Scenario.q 0) [Scenario.b1] Scenario.loader2 Cases.store_finished _
              eq_refl eq_refl ltac:(vm_compute; discriminate))
    as (_ & _ & H3 & _ & _ & _ & H7 & _).
  split; [exact H3|exact H7].
Defined.

(** ** The set-up of the MNIST worker *)

(** X11: with [--quant-bias-scale], resuming from a checkpoint loads the
    parameters only.  The epoch, the best metric and the optimizer state
    stored in the file are ignored (the worker keeps the start epoch of the
    command line, a fresh optimizer and the initial best metric), the
    parameters are those of the file after the rewriting of the model, and
    no weights-only file is written. *)
Theorem quantized_resume_loads_parameters_only (C : Mnist.Collaborators)
    gpu0 args best0 tl fs c :
  Mnist.gen_map args = false → Mnist.zoo_has (Mnist.arch args) = true →
  is_Some gpu0 ∨ is_Some (Mnist.gpus args) →
  Mnist.resume args ≠ "" → fs !! Mnist.resume args = Some (FCheckpoint c) →
  Mnist.quant_bias_scale args = true →
  Mnist.resume_after args = "" → Mnist.extract_inner_data args = false →
  let x := Mnist.prepare gpu0 args best0 tl fs in
  outcome x =
  Ok (Some (Mnist.Worker
              (Mnist.set_batch_num (Z.of_nat (length tl)) (Mnist.set_gpu gpu0 args))
              (rewritten args (ck_state_dict c)) Mnist.fresh_optimizer best0)) ∧
  store x = fs.
Proof.
  intros Hgen Hzoo Hdev Hne Hfile Hq Haft Hx x. subst x.
  set (w0 := Mnist.Worker (Mnist.set_gpu gpu0 args)
               (Mnist.model_init (Mnist.arch args) (Mnist.pretrained args)
                  (Mnist.qw args) (Mnist.qa args))
               Mnist.fresh_optimizer best0).
  pose proof (resume_checkpoint_weights_only w0 fs c Hne Hfile Hq) as Hres.
  pose proof (mnist_prepare_result gpu0 args best0 tl fs Hgen Hzoo Hdev) as Hprep.
  cbv zeta in Hprep. fold w0 in Hprep. rewrite Hres in Hprep.
  cbn [outcome store fst snd Mnist.w_args Mnist.w_model Mnist.w_optimizer Mnist.w_best_acc1
         w0] in Hprep.
  rewrite resume_after_none in Hprep by done.
  cbn [outcome fst snd] in Hprep. rewrite extract_inner_off in Hprep by done.
  by destruct Hprep as [-> ->].
Qed.

Lemma quantized_resume_loads_parameters_only_witness :
  let x := Mnist.prepare (H:=Scenario.lenet_70_68) (Some 0) Cases.mnist_args_quant
             (Scenario.q 0) [Scenario.b1] Scenario.store_with_checkpoint in
  outcome x =
  Ok (Some (Mnist.Worker
              (Mnist.set_batch_num 1 (Mnist.set_gpu (Some 0) Cases.mnist_args_quant))
              (rewritten (H:=Scenario.lenet_70_68) Cases.mnist_args_quant
                 (ck_state_dict Scenario.ck_new))
              (Mnist.fresh_optimizer (Collaborators:=Scenario.lenet_70_68)) (Scenario.q 0))) ∧
  store x = Scenario.store_with_checkpoint.
Proof.
  apply (quantized_resume_loads_parameters_only Scenario.lenet_70_68 (Some 0)
           Cases.mnist_args_quant (Scenario.q 0) [Scenario.b1]
           Scenario.store_with_checkpoint Scenario.ck_new);
    try reflexivity.
  - left. by eexists.
  - vm_compute. discriminate.
Defined.

(** X12: [--resume] needs a file that holds a checkpoint dictionary.  When
    the path exists but holds something else, the worker raises before any
    training or validation and leaves the files as they are; for a bare
    state_dict (such as the weights-only [<arch>.pth] that a successful
    resume writes) the exception is [KeyError]. *)
Theorem resume_needs_a_checkpoint_dictionary (C : Mnist.Collaborators)
    gpu0 args best0 tl loader fs f :
  Mnist.gen_map args = false → Mnist.zoo_has (Mnist.arch args) = true →
  is_Some gpu0 ∨ is_Some (Mnist.gpus args) →
  Mnist.resume args ≠ "" → fs !! Mnist.resume args = Some f →
  (∀ c, f ≠ FCheckpoint c) →
  let x := Mnist.main_worker gpu0 args best0 tl loader fs in
  (∃ e, outcome x = Raise e ∧ ∀ w, f = FStateDict w → e = KeyError) ∧
  store x = fs ∧
  trained_epochs (trace x) = [] ∧ count is_validate (trace x) = 0%nat.
Proof.
  intros Hgen Hzoo Hdev Hne Hfile Hnc x. subst x.
  set (w0 := Mnist.Worker (Mnist.set_gpu gpu0 args)
               (Mnist.model_init (Mnist.arch args) (Mnist.pretrained args)
                  (Mnist.qw args) (Mnist.qa args))
               Mnist.fresh_optimizer best0).
  pose proof (resume_checkpoint_not_checkpoint w0 fs f Hne Hfile Hnc) as Hres.
  pose proof (mnist_prepare_result gpu0 args best0 tl fs Hgen Hzoo Hdev) as Hprep.
  cbv zeta in Hprep. fold w0 in Hprep. rewrite Hres in Hprep.
  cbn [outcome store fst snd] in Hprep. destruct Hprep as [Ho Hs].
  pose proof (mnist_prepare_events gpu0 args best0 tl fs) as Hsetup.
  rewrite mnist_main_worker_run, Ho. cbn [outcome store trace fst snd].
  rewrite Hs, setup_trained_epochs by done.
  rewrite (setup_count is_validate _ ltac:(by intros []) Hsetup).
  repeat split; try done.
  eexists. split; [reflexivity|]. by intros w ->.
Qed.

Lemma resume_needs_a_checkpoint_dictionary_witness :
  let x := Mnist.main_worker (H:=Scenario.lenet_70_68) (Some 0) Cases.mnist_args_weights
             (Scenario.q 0) [Scenario.b1] Scenario.loader2 Cases.store_after_resume in
  Cases.store_after_resume !! "lenet.pth"
    = Some (FStateDict (ck_state_dict Scenario.ck_new)) ∧
  (∃ e, outcome x = Raise e ∧
        ∀ w, FStateDict (ck_state_dict Scenario.ck_new) = FStateDict w → e = KeyError) ∧
  store x = Cases.store_after_resume ∧
  trained_epochs (trace x) = [] ∧ count is_validate (trace x) = 0%nat.
Proof.
  split; [vm_compute; reflexivity|].
  apply (resume_needs_a_checkpoint_dictionary Scenario.lenet_70_68 (Some 0)
           Cases.mnist_args_weights (Scenario.q 0) [Scenario.b1] Scenario.loader2
           Cases.store_after_resume (FStateDict (ck_state_dict Scenario.ck_new)));
    [reflexivity|reflexivity|left; by eexists|vm_compute; discriminate
    |vm_compute; reflexivity|intros c; discriminate].
Defined.

(** X13: [--resume-after] loads the parameters only, and loads them as
    stored.  When the file holds a checkpoint dictionary (and [--resume]
    is not given), the worker starts from the stored parameters, which
    replace the network after batch-norm fusion and quantization of scale
    and bias rather than being rewritten by them, at the start epoch of the
    command line, with a fresh optimizer and the initial best metric; no
    file is changed. *)
Theorem resume_after_loads_parameters_only (C : Mnist.Collaborators)
    gpu0 args best0 tl fs c :
  Mnist.gen_map args = false → Mnist.zoo_has (Mnist.arch args) = true →
  is_Some gpu0 ∨ is_Some (Mnist.gpus args) →
  Mnist.resume args = "" →
  Mnist.resume_after args ≠ "" → fs !! Mnist.resume_after args = Some (FCheckpoint c) →
  Mnist.extract_inner_data args = false →
  let x := Mnist.prepare gpu0 args best0 tl fs in
  outcome x =
  Ok (Some (Mnist.Worker
              (Mnist.set_batch_num (Z.of_nat (length tl)) (Mnist.set_gpu gpu0 args))
              (ck_state_dict c) Mnist.fresh_optimizer best0)) ∧
  store x = fs.
Proof.
  intros Hgen Hzoo Hdev Hres Hne Hfile Hx x. subst x.
  set (w0 := Mnist.Worker (Mnist.set_gpu gpu0 args)
               (Mnist.model_init (Mnist.arch args) (Mnist.pretrained args)
                  (Mnist.qw args) (Mnist.qa args))
               Mnist.fresh_optimizer best0).
  pose proof (mnist_prepare_result gpu0 args best0 tl fs Hgen Hzoo Hdev) as Hprep.
  cbv zeta in Hprep. fold w0 in Hprep.
  rewrite (resume_checkpoint_none w0 fs) in Hprep by done.
  cbn [outcome store fst snd Mnist.w_args Mnist.w_model Mnist.w_optimizer Mnist.w_best_acc1
         w0] in Hprep.
  rewrite (resume_after_rewrite_valid _ _ fs c) in Hprep by done.
  cbn [outcome fst snd] in Hprep. rewrite extract_inner_off in Hprep by done.
  by destruct Hprep as [-> ->].
Qed.

Lemma resume_after_loads_parameters_only_witness :
  let x := Mnist.prepare (H:=Scenario.lenet_70_68) (Some 0) Cases.mnist_args_resume_after
             (Scenario.q 0) [Scenario.b1] Scenario.store_with_checkpoint in
  outcome x =
  Ok (Some (Mnist.Worker
              (Mnist.set_batch_num 1 (Mnist.set_gpu (Some 0) Cases.mnist_args_resume_after))
              (ck_state_dict Scenario.ck_new)
              (Mnist.fresh_optimizer (Collaborators:=Scenario.lenet_70_68)) (Scenario.q 0))) ∧
  store x = Scenario.store_with_checkpoint.
Proof.
  apply (resume_after_loads_parameters_only Scenario.lenet_70_68 (Some 0)
           Cases.mnist_args_resume_after (Scenario.q 0) [Scenario.b1]
           Scenario.store_with_checkpoint Scenario.ck_new);
    try reflexivity.
  - left. by eexists.
  - vm_compute. discriminate.
Defined.

(** X14: key-map generation ends the MNIST worker.  With [--gen-map] (and
    a known architecture) the worker never reads a checkpoint, trains or
    validates, whatever the other options say.  When the original model is
    known it writes the key map, and only that file, and returns; when it
    is not, the assertion fails and no file is written. *)
Theorem key_map_generation_ends_the_worker (C : Mnist.Collaborators)
    gpu0 args best0 tl loader fs :
  Mnist.gen_map args = true → Mnist.zoo_has (Mnist.arch args) = true →
  let x := Mnist.main_worker gpu0 args best0 tl loader fs in
  let json := "models/cifar10/" +:+ Mnist.arch args +:+ "_map.json" in
  reads (trace x) = [] ∧ trained_epochs (trace x) = [] ∧
  count is_validate (trace x) = 0%nat ∧ records (trace x) = [] ∧
  if Mnist.zoo_has (Mnist.original_model args)
  then outcome x = Ok None ∧ store x = <[json := FOther]> fs ∧
       written_paths (trace x) = [json]
  else outcome x = Raise AssertionError ∧ store x = fs ∧ written_paths (trace x) = [].
Proof.
  intros Hgen Hzoo x json. subst x.
  rewrite mnist_main_worker_run, (mnist_prepare_gen_map gpu0 args best0 tl fs Hgen Hzoo).
  cbv zeta. fold json.
  destruct (Mnist.zoo_has (Mnist.original_model args));
    cbn [outcome store trace fst snd];
    rewrite ?reads_app, ?trained_epochs_app, ?count_app, ?records_app, ?written_paths_app;
    by destruct gpu0.
Qed.

Lemma key_map_generation_ends_the_worker_witness :
  let x := Mnist.main_worker (H:=Scenario.lenet_70_68) (Some 0) Scenario.mnist_args_gen_map
             (Scenario.q 0) [Scenario.b1] Scenario.loader2 ∅ in
  outcome x = Ok None ∧ store x = {[ "models/cifar10/lenet_map.json" := FOther ]} ∧
  count is_validate (trace x) = 0%nat.
Proof.
  destruct (key_map_generation_ends_the_worker Scenario.lenet_70_68 (Some 0)
              Scenario.mnist_args_gen_map (Scenario.q 0) [Scenario.b1] Scenario.loader2 ∅
              eq_refl eq_refl) as (_ & _ & Hv & _ & Ho & Hs & _).
  split; [exact Ho|]. split; [exact Hs|exact Hv].
Defined.

(** X15: an architecture that is not in the model zoo ends the MNIST
    worker without an exception: it prints that the model is not
    supported and returns, having read and written no file and run no
    training or validation pass. *)
Theorem unknown_architecture_returns_quietly (C : Mnist.Collaborators)
    gpu0 args best0 tl loader fs :
  Mnist.zoo_has (Mnist.arch args) = false →
  Mnist.main_worker gpu0 args best0 tl loader fs =
  (Ok None, fs,
   gpu_notice gpu0 ++
   [Print (if Mnist.pretrained args then MsgUsingPretrained (Mnist.arch args)
           else MsgCreatingModel (Mnist.arch args));
    Print (MsgNotSupported (Mnist.arch args))]).
Proof.
  intros Hzoo. by rewrite mnist_main_worker_run, mnist_prepare_unknown.
Qed.

Lemma unknown_architecture_returns_quietly_witness :
  Mnist.main_worker (H:=Scenario.lenet_70_68) (Some 0) Cases.mnist_args_unknown
    (Scenario.q 0) [Scenario.b1] Scenario.loader2 ∅ =
  (Ok None, ∅,
   [Print (MsgUseGpu 0); Print (MsgCreatingModel "vgg"); Print (MsgNotSupported "vgg")]).
Proof.
  apply (unknown_architecture_returns_quietly Scenario.lenet_70_68 (Some 0)
           Cases.mnist_args_unknown (Scenario.q 0) [Scenario.b1] Scenario.loader2 ∅).
  reflexivity.
Defined.

(** X16: the MNIST script needs [--gpu] or [--gpus].  Started with neither
    (and a known architecture, no key-map generation), [main] raises
    [TypeError] when it selects the device: after the model is built and
    before any checkpoint is read, any file is written or any pass over
    the data is made. *)
Theorem no_device_is_a_type_error (C : Mnist.Collaborators) args best0 tl loader fs :
  Mnist.gpu args = None → Mnist.gpus args = None →
  Mnist.gen_map args = false → Mnist.zoo_has (Mnist.arch args) = true →
  MnistMain.main args best0 tl loader fs =
  (Raise TypeError, fs,
   [Print (if Mnist.pretrained args then MsgUsingPretrained (Mnist.arch args)
           else MsgCreatingModel (Mnist.arch args)); Print MsgModel]).
Proof.
  intros Hgpu Hgpus Hgen Hzoo. unfold MnistMain.main. rewrite Hgpu.
  by rewrite mnist_main_worker_run, mnist_prepare_no_device.
Qed.

Lemma no_device_is_a_type_error_witness :
  MnistMain.main (H:=Scenario.lenet_70_68) Cases.mnist_args_no_device (Scenario.q 0)
    [Scenario.b1] Scenario.loader2 ∅ =
  (Raise TypeError, ∅, [Print (MsgCreatingModel "lenet"); Print MsgModel]).
Proof.
  apply (no_device_is_a_type_error Scenario.lenet_70_68 Cases.mnist_args_no_device
           (Scenario.q 0) [Scenario.b1] Scenario.loader2 ∅); reflexivity.
Defined.

(** X17: the dump of inner data ([--extract-inner-data]) writes one file
    per entry of the state_dict, named after the entry with [.npy]
    appended unless it already ends so; the naming is idempotent.  It
    reads no file, removes none, and changes no file whose name does not
    end in [.npy]: in particular no checkpoint file of any run. *)
Theorem inner_data_dump_writes_npy_only (C : Mnist.Collaborators) args model fs :
  let x := Mnist.extract_inner args model fs in
  outcome x = Ok tt ∧
  written_paths (trace x) =
    (if Mnist.extract_inner_data args then Mnist.npy_name <$> Mnist.state_dict_keys model
     else []) ∧
  Forall (λ p, ends_with ".npy" p = true ∧ Mnist.npy_name p = p) (written_paths (trace x)) ∧
  reads (trace x) = [] ∧
  (∀ p, ends_with ".npy" p = false → store x !! p = fs !! p) ∧
  (∀ p, is_Some (fs !! p) → is_Some (store x !! p)) ∧
  (∀ prefix, store x !! latest_path prefix = fs !! latest_path prefix ∧
             store x !! best_path prefix = fs !! best_path prefix).
Proof.
  cbv zeta.
  assert (outcome (Mnist.extract_inner args model fs) = Ok tt ∧
          written_paths (trace (Mnist.extract_inner args model fs)) =
            (if Mnist.extract_inner_data args
             then Mnist.npy_name <$> Mnist.state_dict_keys model else []) ∧
          reads (trace (Mnist.extract_inner args model fs)) = [] ∧
          (∀ p, ends_with ".npy" p = false →
                store (Mnist.extract_inner args model fs) !! p = fs !! p) ∧
          (∀ p, is_Some (fs !! p) →
                is_Some (store (Mnist.extract_inner args model fs) !! p)))
    as (H1 & H2 & H3 & H4 & H5).
  { unfold Mnist.extract_inner. destruct (Mnist.extract_inner_data args); [|done].
    destruct (extract_inner_loop (Mnist.state_dict_keys model) fs)
      as (L1 & L2 & L3 & L4 & L5).
    msimpl. mstep. by rewrite L1. }
  rewrite H2. repeat split; try done.
  - destruct (Mnist.extract_inner_data args); [|by constructor].
    apply Forall_fmap, Forall_forall. intros k _. split.
    + apply npy_name_ends_with.
    + apply npy_name_idempotent.
  - apply H4, checkpoint_paths_not_npy.
  - apply H4, checkpoint_paths_not_npy.
Qed.

(** ** The ImageNet script *)

(** X18: in the ImageNet worker an architecture that is in neither model
    zoo is fatal: the second [KeyError] is not caught, so the worker
    raises it right after announcing the model, before [process_model]
    and without touching a file (unlike the MNIST worker, which returns). *)
Theorem imagenet_unknown_architecture_is_fatal (E : Imagenet.Env)
    env_rank gpu0 ngpus args best0 fs :
  Imagenet.distributed args = false →
  Imagenet.torchvision_has (Imagenet.arch args) = false →
  Imagenet.extra_has (Imagenet.arch args) = false →
  Imagenet.main_worker env_rank gpu0 ngpus args best0 fs =
  (Raise KeyError, fs,
   gpu_notice gpu0 ++
   [Print (if Imagenet.pretrained args then MsgUsingPretrained (Imagenet.arch args)
           else MsgCreatingModel (Imagenet.arch args))]).
Proof.
  intros Hdist Htv Hex.
  by rewrite imagenet_main_worker_run, imagenet_prepare_unknown.
Qed.

Lemma imagenet_unknown_architecture_is_fatal_witness :
  Imagenet.main_worker (H:=Scenario.resnet_env 0 true) None None 1
    Cases.imagenet_args_unknown (Scenario.q 0) ∅ =
  (Raise KeyError, ∅, [Print (MsgCreatingModel "vgg99")]).
Proof.
  apply (imagenet_unknown_architecture_is_fatal (Scenario.resnet_env 0 true) None None 1
           Cases.imagenet_args_unknown (Scenario.q 0) ∅); reflexivity.
Defined.

(** X19: under [--multiprocessing-distributed], [main] starts one worker
    per GPU of the node, the worker of GPU [i] with [gpu = i], and every
    one of them joins the process group exactly once, with world size
    [ngpus_per_node * world_size] and rank [rank * ngpus_per_node + i].
    These ranks lie in the world when the node rank lies among the nodes,
    and two workers (of this or of different nodes) never share one. *)
Theorem spawned_workers_join_with_global_ranks (E : Imagenet.Env)
    env_world_size env_rank ngpus args a best0 fs :
  ImagenetMain.read_world_size env_world_size args = Ok a →
  Imagenet.multiprocessing_distributed args = true →
  Imagenet.dist_url args ≠ "env://" ∨ Imagenet.rank args ≠ -1 →
  let nodes := Imagenet.world_size a in
  let node := Imagenet.rank args in
  ∃ launches,
    ImagenetMain.main env_world_size ngpus args = Ok launches ∧
    launches.*1 = Some <$> py_range 0 ngpus ∧
    (λ l, init_calls (trace (Imagenet.main_worker env_rank l.1 ngpus l.2 best0 fs)))
      <$> launches
    = (λ i, [(ngpus * nodes, node * ngpus + i)]) <$> py_range 0 ngpus ∧
    (0 ≤ node < nodes →
     Forall (λ i, 0 ≤ node * ngpus + i < ngpus * nodes) (py_range 0 ngpus)) ∧
    (∀ node' i j, i ∈ py_range 0 ngpus → j ∈ py_range 0 ngpus →
                  node * ngpus + i = node' * ngpus + j → node' = node ∧ i = j).
Proof.
  intros Hread Hmp Hrank nodes node.
  destruct (read_world_size_fields _ _ _ Hread) as (Hr & Hu & Hm & _).
  unfold ImagenetMain.main. rewrite Hread.
  cbn [Imagenet.multiprocessing_distributed ImagenetMain.set_distributed
         ImagenetMain.set_world_size Imagenet.world_size].
  rewrite Hm, Hmp. eexists. split; [reflexivity|].
  split; [by rewrite <-list_fmap_compose|].
  split.
  { rewrite <-list_fmap_compose. apply list_fmap_ext. intros _ i _.
    cbn [compose fst snd]. rewrite imagenet_main_worker_init.
    rewrite (join_group_spawned _ _ _ i).
    - cbn [trace snd init_calls omap list_omap Imagenet.world_size Imagenet.rank
             Imagenet.set_gpu ImagenetMain.set_world_size ImagenetMain.set_distributed].
      by rewrite Hr.
    - cbn. apply orb_true_r.
    - cbn. by rewrite Hm.
    - cbn. by rewrite Hu, Hr.
    - done. }
  split.
  { intros Hnode. apply Forall_forall. intros i Hi. apply elem_of_py_range in Hi.
    generalize dependent node. generalize dependent nodes. intros nodes node Hnode.
    assert (node * ngpus ≤ (nodes - 1) * ngpus) by (apply Z.mul_le_mono_nonneg_r; lia).
    nia. }
  intros node' i j Hi Hj Heq. apply elem_of_py_range in Hi, Hj.
  generalize dependent node. intros node Heq.
  assert ((node - node') * ngpus = j - i) as Hd by lia.
  assert (node - node' = 0) by nia. lia.
Qed.

Lemma spawned_workers_join_with_global_ranks_witness :
  ∃ launches,
    ImagenetMain.main None 2 Cases.imagenet_args_mp = Ok launches ∧
    launches.*1 = Some <$> py_range 0 2 ∧
    (λ l, init_calls (trace (Imagenet.main_worker (H:=Scenario.resnet_env 0 true) None l.1 2
                               l.2 (Scenario.q 0) ∅))) <$> launches
    = (λ i, [(2 * 2, 1 * 2 + i)]) <$> py_range 0 2.
Proof.
  destruct (spawned_workers_join_with_global_ranks (Scenario.resnet_env 0 true) None None 2
              Cases.imagenet_args_mp Cases.imagenet_args_mp (Scenario.q 0) ∅
              eq_refl eq_refl ltac:(left; vm_compute; discriminate))
    as (launches & H1 & H2 & H3 & _).
  exists launches. split; [exact H1|]. split; [exact H2|exact H3].
Defined.

(** X20: without [--multiprocessing-distributed], [main] makes a single
    call of the worker, with the GPU of the command line; when the world
    size is at most one that worker is not distributed and joins no
    process group. *)
Theorem single_process_joins_no_group (E : Imagenet.Env)
    env_world_size env_rank ngpus args a best0 fs :
  ImagenetMain.read_world_size env_world_size args = Ok a →
  Imagenet.multiprocessing_distributed args = false →
  Imagenet.world_size a ≤ 1 →
  ∃ a', ImagenetMain.main env_world_size ngpus args = Ok [(Imagenet.gpu args, a')] ∧
        Imagenet.distributed a' = false ∧
        init_calls (trace (Imagenet.main_worker env_rank (Imagenet.gpu args) ngpus a'
                             best0 fs)) = [].
Proof.
  intros Hread Hmp Hws.
  destruct (read_world_size_fields _ _ _ Hread) as (_ & _ & Hm & Hg).
  unfold ImagenetMain.main. rewrite Hread.
  cbn [Imagenet.multiprocessing_distributed ImagenetMain.set_distributed Imagenet.gpu].
  rewrite Hm, Hmp, Hg. eexists. split; [reflexivity|].
  assert ((1 <? Imagenet.world_size a) = false) as -> by (apply Z.ltb_ge; lia).
  split; [done|].
  rewrite imagenet_main_worker_init. unfold Imagenet.join_group. by cbn.
Qed.

Lemma single_process_joins_no_group_witness :
  ∃ a', ImagenetMain.main None 1 Scenario.imagenet_args = Ok [(None, a')] ∧
        Imagenet.distributed a' = false ∧
        init_calls (trace (Imagenet.main_worker (H:=Scenario.resnet_env 0 true) None None 1 a'
                             (Scenario.q 0) ∅)) = [].
Proof.
  apply (single_process_joins_no_group (Scenario.resnet_env 0 true) None None 1
           Scenario.imagenet_args Scenario.imagenet_args (Scenario.q 0) ∅);
    [reflexivity|reflexivity|vm_compute; discriminate].
Defined.

(** X21: with [--dist-url env://] the script depends on the environment.
    When the world size is left at -1 and [WORLD_SIZE] is not set, [main]
    raises [KeyError] and starts no worker; when a distributed worker's
    rank is left at -1 and [RANK] is not set, the worker raises [KeyError]
    before it joins a process group or builds the model. *)
Theorem env_url_needs_the_environment (E : Imagenet.Env) gpu0 ngpus args best0 fs :
  Imagenet.dist_url args = "env://" →
  (Imagenet.world_size args = -1 → ImagenetMain.main None ngpus args = Raise KeyError) ∧
  (Imagenet.distributed args = true → Imagenet.rank args = -1 →
   Imagenet.main_worker None gpu0 ngpus args best0 fs
   = (Raise KeyError, fs, gpu_notice gpu0)).
Proof.
  intros Hurl. split.
  - intros Hws. unfold ImagenetMain.main, ImagenetMain.read_world_size.
    by rewrite Hurl, Hws.
  - intros Hdist Hrank. rewrite imagenet_main_worker_run. cbv zeta.
    assert (Imagenet.prepare None gpu0 ngpus args best0 fs
            = (Raise KeyError, fs, gpu_notice gpu0)) as ->; [|done].
    unfold Imagenet.prepare, Imagenet.join_group.
    cbn [Imagenet.gpu Imagenet.set_gpu Imagenet.distributed Imagenet.dist_url Imagenet.rank].
    rewrite Hdist, Hurl, Hrank.
    apply run_ext; mstep; rewrite gpu_notice_run; mstep; by rewrite ?app_nil_r.
Qed.

Lemma env_url_needs_the_environment_witness :
  ImagenetMain.main None 1 Cases.imagenet_args_env = Raise KeyError ∧
  Imagenet.main_worker (H:=Scenario.resnet_env 0 true) None (Some 0) 1
    Cases.imagenet_args_env (Scenario.q 0) ∅
  = (Raise KeyError, ∅, [Print (MsgUseGpu 0)]).
Proof.
  destruct (env_url_needs_the_environment (Scenario.resnet_env 0 true) (Some 0) 1
              Cases.imagenet_args_env (Scenario.q 0) ∅ eq_refl) as [H1 H2].
  split; [apply H1; reflexivity|apply H2; reflexivity].
Defined.

(** X22: a training run of the ImageNet worker trains the epochs
    [start_epoch .. epochs - 1] once each and in order, validates once per
    epoch, and steps the bit-width scheduler once per epoch; the
    learning-rate scheduler is stepped [start_epoch] times before the loop
    and once per epoch, so [epochs] times in all when
    [0 <= start_epoch <= epochs], also when no epoch is left to train.  A
    distributed worker hands every epoch to the sampler, and the writer is
    closed once exactly when there is one. *)
Theorem imagenet_schedulers_over_a_run (E : Imagenet.Env)
    env_rank gpu0 ngpus args best0 fs writer w :
  outcome (Imagenet.prepare env_rank gpu0 ngpus args best0 fs) = Ok (Some (writer, w)) →
  let a := Imagenet.w_args w in
  Imagenet.evaluate a = false →
  let x := Imagenet.main_worker env_rank gpu0 ngpus args best0 fs in
  let l := py_range (Imagenet.start_epoch a) (Imagenet.epochs a) in
  outcome x = Ok (Some (foldl imagenet_step w l)) ∧
  trained_epochs (trace x) = l ∧
  count is_validate (trace x) = length l ∧
  count is_dnq_step (trace x) = length l ∧
  count is_lr_step (trace x) = (Z.to_nat (Imagenet.start_epoch a) + length l)%nat ∧
  (0 ≤ Imagenet.start_epoch a ≤ Imagenet.epochs a →
   count is_lr_step (trace x) = Z.to_nat (Imagenet.epochs a)) ∧
  sampler_epochs (trace x) = (if Imagenet.distributed a then l else []) ∧
  count is_writer_close (trace x) = (if writer then 1 else 0)%nat.
Proof.
  intros Hprep a Hev x l. subst x.
  change (Imagenet.evaluate (Imagenet.w_args w) = false) in Hev.
  rewrite imagenet_main_worker_run, Hprep. cbv zeta.
  rewrite imagenet_evaluate_or_train_outcome, Hev.
  cbn [outcome store trace fst snd].
  rewrite imagenet_evaluate_or_train_trace by exact Hev. fold a l.
  pose proof (imagenet_prepare_events env_rank gpu0 ngpus args best0 fs) as Hsetup.
  destruct (imagenet_loop_counts writer l w
              (store (Imagenet.prepare env_rank gpu0 ngpus args best0 fs)))
    as (L1 & L2 & L3 & L4 & L5 & _ & L7).
  fold a in L5.
  assert (count is_lr_step
            (trace (Imagenet.prepare env_rank gpu0 ngpus args best0 fs) ++
             replicate (Z.to_nat (Imagenet.start_epoch a)) SchedulerStep ++
             trace (for_each (Imagenet.epoch_body writer) l w
                      (store (Imagenet.prepare env_rank gpu0 ngpus args best0 fs))) ++
             (if writer then [WriterClose] else []))
          = (Z.to_nat (Imagenet.start_epoch a) + length l)%nat) as Hlr.
  { rewrite !count_app, (setup_count is_lr_step _ ltac:(by intros []) Hsetup),
      count_replicate_lr, L3. by destruct writer; cbn; lia. }
  rewrite Hlr.
  rewrite !trained_epochs_app, !count_app, !sampler_epochs_app.
  rewrite setup_trained_epochs, setup_sampler_epochs by done.
  rewrite (setup_count is_validate _ ltac:(by intros []) Hsetup).
  rewrite (setup_count is_dnq_step _ ltac:(by intros []) Hsetup).
  rewrite (setup_count is_writer_close _ ltac:(by intros []) Hsetup).
  rewrite !count_replicate_other by done.
  rewrite L1, L2, L4, L5, L7.
  assert (trained_epochs (replicate (Z.to_nat (Imagenet.start_epoch a)) SchedulerStep) = []
          ∧ sampler_epochs (replicate (Z.to_nat (Imagenet.start_epoch a)) SchedulerStep) = [])
    as [-> ->].
  { generalize (Z.to_nat (Imagenet.start_epoch a)). intros n. by induction n. }
  repeat split.
  - by destruct writer; rewrite ?app_nil_r.
  - by destruct writer; cbn; lia.
  - by destruct writer; cbn; lia.
  - intros Hle. subst l. rewrite length_py_range. lia.
  - by destruct writer, (Imagenet.distributed a); rewrite ?app_nil_r.
  - by destruct writer.
Qed.

Lemma imagenet_schedulers_over_a_run_witness :
  ∃ w, outcome (Imagenet.prepare (H:=Scenario.resnet_env 1 true) None None 1
                  Scenario.imagenet_args (Scenario.q 0) ∅) = Ok (Some (true, w)) ∧
       let x := Imagenet.main_worker (H:=Scenario.resnet_env 1 true) None None 1
                  Scenario.imagenet_args (Scenario.q 0) ∅ in
       trained_epochs (trace x)
         = py_range (Imagenet.start_epoch (Imagenet.w_args w))
             (Imagenet.epochs (Imagenet.w_args w)) ∧
       count is_lr_step (trace x) = Z.to_nat (Imagenet.epochs (Imagenet.w_args w)) ∧
       count is_writer_close (trace x) = 1%nat.
Proof.
  eexists. split; [vm_compute; reflexivity|].
  destruct (imagenet_schedulers_over_a_run (Scenario.resnet_env 1 true) None None 1
              Scenario.imagenet_args (Scenario.q 0) ∅ true _ eq_refl eq_refl)
    as (_ & H2 & _ & _ & _ & H6 & _ & H8).
  split; [exact H2|]. split; [|exact H8].
  apply H6. vm_compute. split; discriminate.
Defined.

(** X23: key-map generation ends the ImageNet worker as well: with
    [--gen-map] and an architecture of either zoo, a worker that is not
    distributed builds the model, hands it to the key-map generator and
    returns before [process_model], with no training or validation
    pass. *)
Theorem imagenet_key_map_generation_ends_the_worker (E : Imagenet.Env)
    env_rank gpu0 ngpus args best0 fs :
  Imagenet.distributed args = false → Imagenet.gen_map args = true →
  Imagenet.torchvision_has (Imagenet.arch args) = true ∨
  Imagenet.extra_has (Imagenet.arch args) = true →
  let x := Imagenet.main_worker env_rank gpu0 ngpus args best0 fs in
  outcome x = Ok None ∧
  trace x =
    gpu_notice gpu0 ++
    [Print (if Imagenet.pretrained args then MsgUsingPretrained (Imagenet.arch args)
            else MsgCreatingModel (Imagenet.arch args)); Print MsgModel; GenKeyMap].
Proof.
  intros Hdist Hgen Hzoo.
  by rewrite imagenet_main_worker_run, imagenet_prepare_gen_map.
Qed.

Lemma imagenet_key_map_generation_ends_the_worker_witness :
  let x := Imagenet.main_worker (H:=Scenario.resnet_env 0 true) None None 1
             Cases.imagenet_args_gen_map (Scenario.q 0) ∅ in
  outcome x = Ok None ∧
  trace x = [Print (MsgCreatingModel "resnet18"); Print MsgModel; GenKeyMap].
Proof.
  apply (imagenet_key_map_generation_ends_the_worker (Scenario.resnet_env 0 true) None None 1
           Cases.imagenet_args_gen_map (Scenario.q 0) ∅); [reflexivity|reflexivity|].
  left. reflexivity.
Defined.

(** X24: [--evaluate] together with [--resume] scores the model of the
    checkpoint.  The single validation pass runs on the parameters stored
    in the file (after the rewriting of the model), over the batches of
    the validation loader, and the accuracy it prints is the validation
    result of those parameters; nothing is trained and no checkpoint is
    written. *)
Theorem evaluate_only_scores_the_resumed_model (C : Mnist.Collaborators)
    gpu0 args best0 tl loader fs c :
  Mnist.gen_map args = false → Mnist.zoo_has (Mnist.arch args) = true →
  is_Some gpu0 ∨ is_Some (Mnist.gpus args) →
  Mnist.resume args ≠ "" → fs !! Mnist.resume args = Some (FCheckpoint c) →
  Mnist.quant_bias_scale args = false → Mnist.resume_after args = "" →
  Mnist.evaluate args = true →
  Mnist.extract_inner_data args = true ∨ Mnist.print_freq args ≠ 0 →
  let x := Mnist.main_worker gpu0 args best0 tl loader fs in
  let model := rewritten args (ck_state_dict c) in
  forwarded (trace x) = evaluated_batches args loader ∧
  Print (MsgAcc1 (val_result args model loader)) ∈ trace x ∧
  trained_epochs (trace x) = [] ∧ records (trace x) = [] ∧
  ∃ w, outcome x = Ok (Some w) ∧ Mnist.w_model w = model ∧
       Mnist.w_best_acc1 w = ck_best_acc1 c.
Proof.
  intros Hgen Hzoo Hdev Hne Hfile Hqbs Haft Hev Hok x model. subst x.
  set (w0 := Mnist.Worker (Mnist.set_gpu gpu0 args)
               (Mnist.model_init (Mnist.arch args) (Mnist.pretrained args)
                  (Mnist.qw args) (Mnist.qa args))
               Mnist.fresh_optimizer best0).
  pose proof (resume_checkpoint_valid w0 fs c Hne Hfile Hqbs) as Hres.
  pose proof (mnist_prepare_outcome gpu0 args best0 tl fs _ Hgen Hzoo Hdev
                (f_equal outcome Hres) Haft) as Hprep.
  cbn [outcome fst Mnist.w_args Mnist.w_model Mnist.w_optimizer Mnist.w_best_acc1 w0]
    in Hprep.
  pose proof (mnist_prepare_events gpu0 args best0 tl fs) as Hsetup.
  rewrite mnist_main_worker_run, Hprep. cbv zeta.
  unfold Mnist.evaluate_or_train.
  cbn [Mnist.w_args Mnist.w_model Mnist.evaluate Mnist.set_batch_num Mnist.set_start_epoch
         Mnist.set_gpu].
  rewrite Hev.
  set (args' := Mnist.set_batch_num _ _).
  assert (Mnist.extract_inner_data args' = true ∨ Mnist.print_freq args' ≠ 0) as Hok'
    by exact Hok.
  set (m := rewritten _ (ck_state_dict c)).
  destruct (validate_pass loader m args' (store (Mnist.prepare gpu0 args best0 tl fs)) Hok')
    as (V1 & _ & V3 & _ & _ & _ & V7 & _ & V9 & _).
  pose proof (validate_reports loader m args'
                (store (Mnist.prepare gpu0 args best0 tl fs)) Hok') as Vr.
  mstep. rewrite V1. mstep. rewrite app_nil_r.
  rewrite forwarded_app, trained_epochs_app, records_app.
  rewrite setup_forwarded, setup_trained_epochs, setup_records by done.
  rewrite V3, V7, V9.
  split; [done|]. split; [apply elem_of_app; right; exact Vr|].
  split; [done|]. split; [done|]. eexists. split; [reflexivity|]. done.
Qed.

Lemma evaluate_only_scores_the_resumed_model_witness :
  let x := Mnist.main_worker (H:=Scenario.lenet_70_68) (Some 0)
             Cases.mnist_args_evaluate_resumed (Scenario.q 0) [Scenario.b1]
             Scenario.loader2 Scenario.store_with_checkpoint in
  forwarded (trace x) = [Scenario.b0; Scenario.b1] ∧
  Print (MsgAcc1 (val_result (H:=Scenario.lenet_70_68) Cases.mnist_args_evaluate_resumed
                    (ck_state_dict Scenario.ck_new) Scenario.loader2)) ∈ trace x ∧
  trained_epochs (trace x) = [] ∧ records (trace x) = [].
Proof.
  destruct (evaluate_only_scores_the_resumed_model Scenario.lenet_70_68 (Some 0)
              Cases.mnist_args_evaluate_resumed (Scenario.q 0) [Scenario.b1]
              Scenario.loader2 Scenario.store_with_checkpoint Scenario.ck_new
              eq_refl eq_refl ltac:(left; by eexists) ltac:(vm_compute; discriminate)
              eq_refl eq_refl eq_refl eq_refl
              ltac:(right; vm_compute; discriminate)) as (H1 & H2 & H3 & H4 & _).
  split; [exact H1|]. split; [exact H2|]. split; [exact H3|exact H4].
Defined.


